(** * US Code citations from URLs: a shallow embedding of the two scripts

    The repository holds two stand-alone Python scripts,
    [US_Code_Citations_from_URLs_2024-11-27.py] (module [V1127] below) and
    [US_Code_Citations_from_URLs_2024-11-28.py] (module [V1128]).  Both
    download a list of PDF files, extract their text, look for citations of
    the United States Code with a regular expression and write a CSV file.

    Text is a Python [str]: a sequence of Unicode code points, here [list N].
    The regular expressions run on a small backtracking matcher that follows
    CPython's [sre] engine for the constructs the two patterns use. *)

From stdpp Require Import gmap list strings.
From Stdlib Require Import NArith ZArith Lia.

(** A Rocq string literal read as a Python [str] (ASCII literals only). *)
Definition u (s : string) : list N :=
  Ascii.N_of_ascii <$> String.list_ascii_of_string s.

Definition EN_DASH : N := 8211.   (* U+2013 *)
Definition EM_DASH : N := 8212.   (* U+2014 *)

(** ** Python's [str.strip()] and slicing *)

(** [Py_UNICODE_ISSPACE]: the ASCII table [_Py_ascii_whitespace] below 128
    and [_PyUnicode_IsWhitespace] above. *)
Definition Py_UNICODE_ISSPACE (c : N) : bool :=
  ((9 <=? c) && (c <=? 13) || (28 <=? c) && (c <=? 32)
   || (c =? 133) || (c =? 160) || (c =? 5760)
   || (8192 <=? c) && (c <=? 8202)
   || (c =? 8232) || (c =? 8233) || (c =? 8239) || (c =? 8287)
   || (c =? 12288))%N.

Fixpoint lstrip (s : list N) : list N :=
  match s with
  | c :: s' => if Py_UNICODE_ISSPACE c then lstrip s' else s
  | [] => []
  end.

Definition rstrip (s : list N) : list N := reverse (lstrip (reverse s)).

Definition strip (s : list N) : list N := rstrip (lstrip s).

(** [s[i:j]] with Python's rules: a negative index counts from the end,
    and both ends are clamped to [0, len(s)]. *)
Definition slice_index (len i : Z) : Z :=
  if (i <? 0)%Z then Z.max (i + len) 0 else Z.min i len.

Definition py_slice (s : list N) (i j : Z) : list N :=
  let len := Z.of_nat (length s) in
  let lo := slice_index len i in
  let hi := slice_index len j in
  take (Z.to_nat (hi - lo)) (drop (Z.to_nat lo) s).

(** [s.replace(old, new)] for a one-character [old]. *)
Fixpoint str_replace (old : N) (new : list N) (s : list N) : list N :=
  match s with
  | [] => []
  | c :: s' => (if (c =? old)%N then new else [c]) ++ str_replace old new s'
  end.

(** ** The regular-expression engine *)

Inductive category := CATEGORY_DIGIT | CATEGORY_SPACE | CATEGORY_WORD.

(** What may stand in a character set; an escape such as [\d] outside
    brackets is the one-item set. *)
Inductive set_item :=
| Category (c : category)
| Literal (c : N)
| Range (lo hi : N).

(** The patterns of the scripts use literals, sets, [\b], alternation, and
    greedy repeats of a single-character set ([+], [*], [?], [{1,2}]), which
    [sre] compiles to [REPEAT_ONE]. *)
Inductive regex :=
| Str (s : list N)
| In (cs : list set_item)
| AtBoundary
| Cat (r1 r2 : regex)
| Branch (r1 r2 : regex)
| RepeatOne (cs : list set_item) (lo : nat) (hi : option nat).

Fixpoint seq (rs : list regex) : regex :=
  match rs with
  | [] => Str []
  | [r] => r
  | r :: rs' => Cat r (seq rs')
  end.

Fixpoint alts_from (r : regex) (rs : list regex) : regex :=
  match rs with
  | [] => r
  | r' :: rs' => Branch r (alts_from r' rs')
  end.

(** [r1|r2|...]; the set [In []] matches nothing. *)
Definition alts (rs : list regex) : regex :=
  match rs with
  | [] => In []
  | r :: rs' => alts_from r rs'
  end.

(** A match object: [start()] and [end()] of group 0. *)
Record match_obj := Match { m_start : nat; m_end : nat }.

Definition group0 (text : list N) (m : match_obj) : list N :=
  take (m_end m - m_start m) (drop (m_start m) text).

(** The Unicode character database above ASCII is not part of the scripts;
    the four predicates stand for [str.isalpha], [str.isdecimal],
    [str.isdigit] and [str.isnumeric] on code points from 128 on. *)
Class UnicodeData := {
  uni_isalpha : N → bool;
  uni_isdecimal : N → bool;
  uni_isdigit : N → bool;
  uni_isnumeric : N → bool
}.

Section Engine.
Context `{UnicodeData}.

Definition Py_UNICODE_ISDECIMAL (c : N) : bool :=
  if (c <? 128)%N then (48 <=? c)%N && (c <=? 57)%N else uni_isdecimal c.

Definition Py_UNICODE_ISALNUM (c : N) : bool :=
  if (c <? 128)%N
  then ((48 <=? c) && (c <=? 57) || (65 <=? c) && (c <=? 90)
        || (97 <=? c) && (c <=? 122))%N
  else uni_isalpha c || uni_isdecimal c || uni_isdigit c || uni_isnumeric c.

Definition SRE_UNI_IS_WORD (c : N) : bool :=
  Py_UNICODE_ISALNUM c || (c =? 95)%N.

Definition in_category (cat : category) (c : N) : bool :=
  match cat with
  | CATEGORY_DIGIT => Py_UNICODE_ISDECIMAL c
  | CATEGORY_SPACE => Py_UNICODE_ISSPACE c
  | CATEGORY_WORD => SRE_UNI_IS_WORD c
  end.

Definition in_item (c : N) (i : set_item) : bool :=
  match i with
  | Category cat => in_category cat c
  | Literal c' => (c =? c')%N
  | Range lo hi => (lo <=? c)%N && (c <=? hi)%N
  end.

Definition in_set (cs : list set_item) (c : N) : bool :=
  existsb (in_item c) cs.

(** The matcher walks a cursor: [bef] is the text before the position,
    nearest character first, [aft] the text from the position on. *)
Definition word_before (bef : list N) : bool :=
  match bef with c :: _ => SRE_UNI_IS_WORD c | [] => false end.

Definition at_boundary (bef aft : list N) : bool :=
  negb (eqb (word_before bef) (word_before aft)).

Fixpoint str_prefix (s aft : list N) : option (list N) :=
  match s, aft with
  | [], _ => Some aft
  | c :: s', c' :: aft' => if (c =? c')%N then str_prefix s' aft' else None
  | _ :: _, [] => None
  end.

Definition dec_max (hi : option nat) : option nat := pred <$> hi.

Definition max_reached (hi : option nat) : bool :=
  match hi with Some 0 => true | _ => false end.

Section Match.
Context {A : Type}.

(** Greedy repeat of one set: take as many characters as allowed,
    then give them back one at a time while the rest fails. *)
Fixpoint repeat_one (cs : list set_item) (lo : nat) (hi : option nat)
    (bef aft : list N) (k : list N → list N → option A) : option A :=
  let tail := match lo with 0 => k bef aft | S _ => None end in
  match aft with
  | c :: aft' =>
      if in_set cs c && negb (max_reached hi) then
        match repeat_one cs (pred lo) (dec_max hi) (c :: bef) aft' k with
        | Some x => Some x
        | None => tail
        end
      else tail
  | [] => tail
  end.

Fixpoint rmatch (r : regex) (bef aft : list N)
    (k : list N → list N → option A) : option A :=
  match r with
  | Str s =>
      match str_prefix s aft with
      | Some aft' => k (reverse s ++ bef) aft'
      | None => None
      end
  | In cs =>
      match aft with
      | c :: aft' => if in_set cs c then k (c :: bef) aft' else None
      | [] => None
      end
  | AtBoundary => if at_boundary bef aft then k bef aft else None
  | Cat r1 r2 => rmatch r1 bef aft (λ b a, rmatch r2 b a k)
  | Branch r1 r2 =>
      match rmatch r1 bef aft k with
      | Some x => Some x
      | None => rmatch r2 bef aft k
      end
  | RepeatOne cs lo hi => repeat_one cs lo hi bef aft k
  end.
End Match.

(** [sre_match] at one position.  With [must_advance] a success that
    consumed nothing is refused and the engine backtracks. *)
Definition sre_match (r : regex) (must_advance : bool) (bef aft : list N)
    : option (list N * list N) :=
  rmatch r bef aft
    (λ b a, if must_advance && (length b =? length bef) then None
            else Some (b, a)).

(** [sre_search]: the first position from the cursor on where the pattern
    matches; [must_advance] only binds at the first position tried. *)
Fixpoint sre_search (r : regex) (must_advance : bool) (bef aft : list N)
    : option (nat * (list N * list N)) :=
  match sre_match r must_advance bef aft with
  | Some e => Some (length bef, e)
  | None =>
      match aft with
      | c :: aft' => sre_search r false (c :: bef) aft'
      | [] => None
      end
  end.

(** The loop shared by [findall] and [sub]: search, record the match,
    restart at its end, and ask the next match to advance when this one
    was empty.  Each turn uses one unit of [fuel]. *)
Fixpoint scan (fuel : nat) (r : regex) (must_advance : bool)
    (bef aft : list N) : list match_obj :=
  match fuel with
  | 0 => []
  | S fuel' =>
      match sre_search r must_advance bef aft with
      | Some (s, (b, a)) =>
          Match s (length b) :: scan fuel' r (length b =? s) b a
      | None => []
      end
  end.

Definition finditer (r : regex) (text : list N) : list match_obj :=
  scan (2 * length text + 2) r false [] text.

(** [re.findall] for a pattern without capturing groups. *)
Definition re_findall (r : regex) (text : list N) : list (list N) :=
  group0 text <$> finditer r text.

(** [re.search]. *)
Definition re_search (r : regex) (text : list N) : option match_obj :=
  match sre_search r false [] text with
  | Some (s, (b, _)) => Some (Match s (length b))
  | None => None
  end.

(** [re.sub] with a constant replacement. *)
Fixpoint subx (repl text : list N) (i : nat) (ms : list match_obj)
    : list N :=
  match ms with
  | [] => drop i text
  | m :: ms' =>
      take (m_start m - i) (drop i text) ++ repl
        ++ subx repl text (m_end m) ms'
  end.

Definition re_sub (r : regex) (repl text : list N) : list N :=
  subx repl text 0 (finditer r text).

(** [re.escape(s)] compiled: the pattern that matches [s] literally. *)
Definition re_escape (s : list N) : regex := Str s.

Definition digit := [Category CATEGORY_DIGIT].
Definition space := [Category CATEGORY_SPACE].
Definition word := [Category CATEGORY_WORD].
Definition plus (cs : list set_item) := RepeatOne cs 1 None.
Definition star (cs : list set_item) := RepeatOne cs 0 None.
Definition opt (cs : list set_item) := RepeatOne cs 0 (Some 1).

End Engine.

(** * The batch run: downloads, files, log *)

(** What the PDF library makes of a page and of a file's bytes. *)
Inductive page := PageText (s : list N) | PageError.
Inductive document := NotAPdf | Pdf (pages : list page).

(** A cell of the result table, and a row as the Python dict it is:
    keys in insertion order. *)
Inductive cell := CellStr (s : list N) | CellList (l : list (list N)).
Definition row := list (list N * cell).

Inductive content :=
| Downloaded (d : document)
| Csv (columns : list (list N)) (body : list (list (option cell))).

(** An HTTP response as the session sees it: the status, the URL its
    [Location] header resolves to when it has one, whether it has a
    [Retry-After] header, and the content. *)
Record response := Response {
  status_code : nat;
  location : option (list N);
  retry_after : bool;
  resp_content : document
}.

(** What a request meets: a response, a refused connection, or no
    answer within the timeout.  [Reply status body] is the response
    that has neither of the two headers.  The URLs are taken to be ones
    that [requests] sends, as the http and https URLs of the scripts
    are. *)
Inductive reply :=
| Reply (status : nat) (body : document)
| ReplyWith (resp : response)
| NoConnection
| TimedOut.

Definition received (r : reply) : option response :=
  match r with
  | Reply status body => Some (Response status None false body)
  | ReplyWith resp => Some resp
  | NoConnection | TimedOut => None
  end.

(** The exceptions of a download: those of [requests], all of them
    subclasses of [RequestException], and the two that [open] raises. *)
Inductive exn :=
| RetryError | ConnectionError | Timeout | HTTPError (status : nat)
| TooManyRedirects
| OSError | ValueError.

Definition is_request_exception (e : exn) : bool :=
  match e with OSError | ValueError => false | _ => true end.

(** A call that returns, or raises an exception nobody catches. *)
Inductive outcome (A : Type) := Returns (a : A) | Raises (e : exn).
Arguments Returns {A} a.
Arguments Raises {A} e.

Inductive level := DEBUG | INFO | WARNING | ERROR.

(** The messages of the two scripts, by their format string. *)
Inductive message :=
| Attempting (url : list N)
| Successfully_downloaded (url : list N)
| Error_downloading (url : list N) (e : exn)
| Unexpected_error (e : exn)
| Text_extracted (path : list N)
| Error_extracting (path : list N)
| Found_citations (n : nat)
| Processing_file (path : list N)
| Results_saved (path : list N)
| No_citations_found.

(** [time.sleep(n)] and [time.sleep(random.uniform(lo, hi))] *)
Inductive pause := Seconds (n : nat) | Uniform (lo hi : nat).

Inductive event :=
| Log (lv : level) (msg : message)
| HttpGet (url : list N)
| FileWrite (path : list N)
| FileOpen (path : list N)
| Sleep (d : pause).

Record state := State {
  requests : nat;                      (* HTTP requests sent so far *)
  files : gmap (list N) content;       (* the local file system *)
  trace : list event                   (* what the run did, oldest first *)
}.

Definition M (A : Type) : Type := state → A * state.

#[export] Instance M_ret : MRet M := λ A a s, (a, s).
#[export] Instance M_bind : MBind M :=
  λ A B f m s, let '(a, s') := m s in f a s'.

Definition emit (e : event) : M unit :=
  λ s, (tt, State (requests s) (files s) (trace s ++ [e])).

Definition logging (lv : level) (msg : message) : M unit := emit (Log lv msg).

Definition sleep (d : pause) : M unit := emit (Sleep d).

Definition write_file (path : list N) (c : content) : M unit :=
  λ s, (tt, State (requests s) (<[path := c]> (files s))
                  (trace s ++ [FileWrite path])).

Definition open_file (path : list N) : M (option content) :=
  λ s, (files s !! path, State (requests s) (files s)
                               (trace s ++ [FileOpen path])).

(** [for x in xs: acc = body(x, acc)] *)
Fixpoint for_each {X A} (xs : list X) (body : X → A → M A) (acc : A) : M A :=
  match xs with
  | [] => mret acc
  | x :: xs' => acc' ← body x acc; for_each xs' body acc'
  end.

(** [for x in xs: acc = body(x, acc)] in a function without [try]: an
    exception that leaves the body ends the loop. *)
Fixpoint for_each_try {X A} (xs : list X) (body : X → A → M (outcome A))
    (acc : A) : M (outcome A) :=
  match xs with
  | [] => mret (Returns acc)
  | x :: xs' =>
      r ← body x acc;
      match r with
      | Returns acc' => for_each_try xs' body acc'
      | Raises e => mret (Raises e)
      end
  end.

(** The part of the path after the last slash: [url.split("/")[-1]] and
    [os.path.basename(url)]. *)
Fixpoint last_segment (s : list N) : list N :=
  match s with
  | [] => []
  | c :: s' =>
      if (c =? 47)%N then last_segment s'
      else if existsb (N.eqb 47) s' then last_segment s' else s
  end.

(** [sep.join(parts)] *)
Fixpoint join (sep : list N) (parts : list (list N)) : list N :=
  match parts with
  | [] => []
  | [p] => p
  | p :: ps => p ++ sep ++ join sep ps
  end.

(** [pd.DataFrame(results).to_csv(path, index=False)]: the columns are the
    keys of the records in order of first appearance, then one line per
    record. *)
Definition dataframe_columns (results : list row) : list (list N) :=
  foldl (λ cols k, if bool_decide (k ∈ cols) then cols else cols ++ [k])
    [] (results ≫= (λ r, r.*1)).

Fixpoint row_get (r : row) (col : list N) : option cell :=
  match r with
  | [] => None
  | (k, v) :: r' => if decide (k = col) then Some v else row_get r' col
  end.

Definition to_csv (results : list row) : content :=
  let cols := dataframe_columns results in
  Csv cols ((λ r, row_get r <$> cols) <$> results).

(** [open(path, "wb")] on a path that cannot name a file: a NUL
    character in it raises [ValueError]; a last part that is empty, [.]
    or [..] names a directory or nothing and raises [OSError].  The
    directory part is taken to exist (the 2024-11-27 script writes to the
    working directory, the 2024-11-28 script creates [downloads] before
    each download); access rights, free space and the limits of a file
    system on names are not part of the model. *)
Definition open_error (path : list N) : option exn :=
  if existsb (N.eqb 0) path then Some ValueError
  else if bool_decide (last_segment path ∈ [[]; u "."; u ".."])
       then Some OSError
       else None.

Section Session.
(** The network: the reply to the [n]-th request of the run. *)
Variable server : nat → list N → reply.

Definition status_forcelist : list nat := [429; 500; 502; 503; 504].

(** [Retry.RETRY_AFTER_STATUS_CODES] of urllib3, [REDIRECT_STATI] and
    [DEFAULT_REDIRECT_LIMIT] of requests. *)
Definition RETRY_AFTER_STATUS_CODES : list nat := [413; 429; 503].
Definition REDIRECT_STATI : list nat := [301; 302; 303; 307; 308].
Definition DEFAULT_REDIRECT_LIMIT : nat := 30.

Definition send (url : list N) : M reply :=
  λ s, (server (requests s) url,
        State (S (requests s)) (files s) (trace s ++ [HttpGet url])).

(** [Retry.is_retry] for a GET with [total] retries left: a status of
    the list, or, while the budget is not zero, a [Retry-After] header
    on a 413, 429 or 503. *)
Definition is_retry (total : nat) (resp : response) : bool :=
  bool_decide (status_code resp ∈ status_forcelist)
  || negb (total =? 0) && retry_after resp
     && bool_decide (status_code resp ∈ RETRY_AFTER_STATUS_CODES).

(** [HTTPAdapter.send] with [max_retries=Retry(total=..., status_forcelist=...)]:
    a response that [is_retry] accepts, a refused connection or a timeout
    is tried again while the budget lasts; after that [requests] raises
    [RetryError] for a response and [ConnectionError] otherwise, also
    after a timeout (the [ConnectTimeout] of a connection that timed out
    is a [ConnectionError] too).  The pauses urllib3 makes between the
    attempts are not recorded. *)
Fixpoint adapter_send (total : nat) (url : list N) : M (exn + response) :=
  r ← send url;
  let again (e : exn) : M (exn + response) :=
    match total with
    | 0 => mret (inl e)
    | S n => adapter_send n url
    end in
  match received r with
  | Some resp =>
      if is_retry total resp then again RetryError else mret (inr resp)
  | None => again ConnectionError
  end.

(** [Session.get_redirect_target]: the target of a response that is a
    redirect; an empty [Location] is not followed. *)
Definition get_redirect_target (resp : response) : option (list N) :=
  match location resp with
  | Some (c :: l) =>
      if bool_decide (status_code resp ∈ REDIRECT_STATI) then Some (c :: l)
      else None
  | _ => None
  end.

(** [Session.resolve_redirects]: every hop goes through the adapter with
    a retry budget of its own; [TooManyRedirects] when the response to
    the last redirect allowed is a redirect again. *)
Fixpoint resolve_redirects (redirects : nat) (url : list N)
    : M (exn + response) :=
  r ← adapter_send 5 url;
  match r with
  | inl e => mret (inl e)
  | inr resp =>
      match get_redirect_target resp with
      | Some target =>
          match redirects with
          | 0 => mret (inl TooManyRedirects)
          | S n => resolve_redirects n target
          end
      | None => mret (inr resp)
      end
  end.

(** [session.get(url)], with [allow_redirects=True] as [get] sets it. *)
Definition session_get (url : list N) : M (exn + response) :=
  resolve_redirects DEFAULT_REDIRECT_LIMIT url.

(** [response.raise_for_status()] *)
Definition raise_for_status (status : nat) : option exn :=
  if (400 <=? status) && (status <? 600) then Some (HTTPError status)
  else None.

(** The [try] body both scripts share: get, check the status, open
    [filename] and write the content to it.  The result is the
    exception raised, if any. *)
Definition fetch (url filename : list N) : M (option exn) :=
  logging INFO (Attempting url);;
  r ← session_get url;
  match r with
  | inl e => mret (Some e)
  | inr resp =>
      match raise_for_status (status_code resp) with
      | Some e => mret (Some e)
      | None =>
          match open_error filename with
          | Some e => mret (Some e)
          | None =>
              write_file filename (Downloaded (resp_content resp));;
              logging INFO (Successfully_downloaded url);;
              mret None
          end
      end
  end.
End Session.

(** * The 2024-11-27 script *)
Module V1127.
Section Script.
Context `{UnicodeData}.
Variable server : nat → list N → reply.

(** [except (Timeout, ConnectionError)], then [except Exception], which
    catches whatever else the [try] body raises. *)
Definition download_pdf (url filename : list N) : M bool :=
  e ← fetch server url filename;
  match e with
  | None => mret true
  | Some e' =>
      match e' with
      | Timeout | ConnectionError =>
          logging ERROR (Error_downloading url e');;
          sleep (Seconds 10);;
          mret false
      | _ => logging ERROR (Unexpected_error e');; mret false
      end
  end.

(** The loop [text += page.extract_text()]: the text gathered, and
    whether every page was read. *)
Fixpoint read_pages (pages : list page) (text : list N) : list N * bool :=
  match pages with
  | [] => (text, true)
  | PageText s :: pages' => read_pages pages' (text ++ s)
  | PageError :: _ => (text, false)
  end.

Definition extract_text_from_pdf (pdf_path : list N) : M (list N) :=
  c ← open_file pdf_path;
  match c with
  | Some (Downloaded (Pdf pages)) =>
      let '(text, ok) := read_pages pages [] in
      (if ok then logging INFO (Text_extracted pdf_path)
       else logging ERROR (Error_extracting pdf_path));;
      mret text
  | _ => logging ERROR (Error_extracting pdf_path);; mret []
  end.

(** [\d{1,2}] *)
Definition title_number := RepeatOne digit 1 (Some 2).

(** [\sof\stitle\s\d+,\sUnited\sStates\sCode] *)
Definition of_title : list regex :=
  [In space; Str (u "of"); In space; Str (u "title"); In space;
   plus digit; Str (u ","); In space; Str (u "United"); In space;
   Str (u "States"); In space; Str (u "Code")].

(** The five alternatives that start with a title number. *)
Definition abbreviated_forms : list regex :=
  [seq [title_number; In space; Str (u "U.S.C.")];
   seq [title_number; In space; Str (u "USC")];
   seq [title_number; In space; Str (u "U.S."); In space; Str (u "Code")];
   seq [title_number; In space; Str (u "U.S."); In space; Str (u "C.")];
   seq [title_number; In space; Str (u "US"); In space; Str (u "Code")]].

Definition chapter_form : regex :=
  seq ([Str (u "chapter"); In space; plus digit] ++ of_title).

Definition ordinal_form : regex :=
  seq ([plus digit; plus word] ++ of_title).

Definition lead_in : regex :=
  alts (abbreviated_forms ++ [chapter_form; ordinal_form]).

(** The set of the trailing token: [\d], [\w], the hyphen and the
    en dash. *)
Definition section_chars : list set_item :=
  [Category CATEGORY_DIGIT; Category CATEGORY_WORD; Literal 45;
   Literal EN_DASH].

Definition pattern : regex :=
  seq [AtBoundary; lead_in; opt space; star section_chars; AtBoundary].

Definition find_us_code_citations (text : list N) : M (list (list N)) :=
  let citations := re_findall pattern text in
  logging INFO (Found_citations (length citations));;
  mret citations.

Definition result_row (filename : list N) (citations : list (list N)) : row :=
  [(u "filename", CellStr filename); (u "citations", CellList citations)].

(** The body of [for url in urls]. *)
Definition process_url (url : list N) (results : list row) : M (list row) :=
  let filename := last_segment url in
  ok ← download_pdf url filename;
  results ← (if ok : bool then
               text ← extract_text_from_pdf filename;
               citations ← find_us_code_citations text;
               mret (results ++ [result_row filename citations])
             else mret results);
  sleep (Uniform 2 5);;
  mret results.

Definition process_urls (urls : list (list N)) : M (list row) :=
  for_each urls process_url [].

Definition output_filename : list N := u "us_code_citations.csv".

(** The script from [results = []] to its last line. *)
Definition main (urls : list (list N)) : M unit :=
  results ← process_urls urls;
  write_file output_filename (to_csv results);;
  logging INFO (Results_saved output_filename).

End Script.
End V1127.

(** * The 2024-11-28 script *)
Module V1128.
Section Script.
Context `{UnicodeData}.
Variable server : nat → list N → reply.

(** [datetime.now().strftime("%Y-%m-%d-%H%M")] at the start of the run. *)
Variable timestamp : list N.

Definition generate_output_filename : list N :=
  u "us_code_citations_" ++ timestamp ++ u ".csv".

Definition normalize_text (text : list N) : list N :=
  let text := re_sub (plus space) (u " ") text in
  str_replace EM_DASH (u "-") text.

(** The set [[-,0-9a-zA-Z]]. *)
Definition section_chars : list set_item :=
  [Literal 45; Literal 44; Range 48 57; Range 97 122; Range 65 90].

(** Digits, optional white space, the literal U.S.C., optional white
    space, digits, then any run of [section_chars]. *)
Definition pattern : regex :=
  seq [plus digit; star space; Str (u "U.S.C."); star space;
       plus digit; star section_chars].

Definition find_us_code_citations (text : list N) : list (list N) :=
  strip <$> re_findall pattern text.

Definition get_context (text : list N) (m : match_obj) : list N :=
  let context_length := 40%Z in
  let start_idx := Z.max (Z.of_nat (m_start m) - context_length) 0 in
  let end_idx :=
    Z.min (Z.of_nat (m_end m) + context_length) (Z.of_nat (length text)) in
  strip (py_slice text start_idx end_idx).

(** [except requests.exceptions.RequestException]: an exception of
    [open] is not one and leaves the function. *)
Definition download_pdf (url filename : list N) : M (outcome bool) :=
  e ← fetch server url filename;
  match e with
  | None => mret (Returns true)
  | Some e' =>
      if is_request_exception e' then
        logging ERROR (Error_downloading url e');; mret (Returns false)
      else mret (Raises e')
  end.

(** The list comprehension over the pages: the texts that are not
    empty, or nothing when a page raises. *)
Fixpoint page_texts (pages : list page) : option (list (list N)) :=
  match pages with
  | [] => Some []
  | PageText s :: pages' =>
      rest ← page_texts pages';
      Some (match s with [] => rest | _ :: _ => s :: rest end)
  | PageError :: _ => None
  end.

Definition extract_text_from_pdf (filepath : list N) : M (list N) :=
  c ← open_file filepath;
  match c with
  | Some (Downloaded (Pdf pages)) =>
      match page_texts pages with
      | Some texts => mret (join (u " ") texts)
      | None => logging ERROR (Error_extracting filepath);; mret []
      end
  | _ => logging ERROR (Error_extracting filepath);; mret []
  end.

Definition result_row (url citation context : list N) : row :=
  [(u "url", CellStr url); (u "citation", CellStr citation);
   (u "context", CellStr context)].

(** [for citation in citations]: look the citation up in the text and
    record it with the context of the place found. *)
Definition citation_rows (url text : list N) (citations : list (list N))
    : list row :=
  citations ≫= (λ citation,
    match re_search (re_escape citation) text with
    | Some m => [result_row url citation (get_context text m)]
    | None => []
    end).

(** The body of [for url in urls]; an exception that leaves
    [download_pdf] leaves the body too. *)
Definition process_url (url : list N) (results : list row)
    : M (outcome (list row)) :=
  let filename := last_segment url in
  let filepath := u "downloads/" ++ filename in
  d ← download_pdf url filepath;
  match d with
  | Raises e => mret (Raises e)
  | Returns ok =>
      results ← (if ok : bool then
                   logging INFO (Processing_file filepath);;
                   text ← extract_text_from_pdf filepath;
                   match text with
                   | [] => mret results
                   | _ :: _ =>
                       let text := normalize_text text in
                       let citations := find_us_code_citations text in
                       mret (results ++ citation_rows url text citations)
                   end
                 else mret results);
      sleep (Uniform 2 5);;
      mret (Returns results)
  end.

(** The loop of [process_urls]. *)
Definition collect (urls : list (list N)) : M (outcome (list row)) :=
  for_each_try urls process_url [].

(** [process_urls] has no [try] of its own: an exception that ends the
    loop ends the function, and with it the script. *)
Definition process_urls (urls : list (list N)) : M (outcome unit) :=
  let output_filename := generate_output_filename in
  r ← collect urls;
  match r with
  | Raises e => mret (Raises e)
  | Returns results =>
      match results with
      | _ :: _ =>
          write_file output_filename (to_csv results);;
          logging INFO (Results_saved output_filename);;
          mret (Returns tt)
      | [] => logging WARNING No_citations_found;; mret (Returns tt)
      end
  end.

End Script.
End V1128.

(** * Vocabulary of the statements *)

(** The character database cut off after the Latin-1 block, to run the
    scripts on concrete texts. *)
Definition latin1 : UnicodeData := {|
  uni_isalpha c :=
    ((c =? 170) || (c =? 181) || (c =? 186) || (192 <=? c) && (c <=? 214)
     || (216 <=? c) && (c <=? 246) || (248 <=? c) && (c <=? 255))%N;
  uni_isdecimal c := false;
  uni_isdigit c := ((c =? 178) || (c =? 179) || (c =? 185))%N;
  uni_isnumeric c :=
    ((c =? 178) || (c =? 179) || (c =? 185) || (188 <=? c) && (c <=? 190))%N
|}.

(** The least number of characters a match of [r] consumes. *)
Fixpoint min_len (r : regex) : nat :=
  match r with
  | Str s => length s
  | In _ => 1
  | AtBoundary => 0
  | Cat r1 r2 => min_len r1 + min_len r2
  | Branch r1 r2 => min_len r1 `min` min_len r2
  | RepeatOne _ lo _ => lo
  end.


Section Occurrence.
Context `{UnicodeData}.

(** Where the match that starts at position [p] of [text] ends, if the
    pattern matches there. *)
Definition match_end (r : regex) (text : list N) (p : nat) : option nat :=
  (λ e, length e.1) <$> sre_match r false (reverse (take p text)) (drop p text).

(** Spans that follow one another from [lo] on without overlap. *)
Fixpoint in_order (lo : nat) (ms : list match_obj) : Prop :=
  match ms with
  | [] => True
  | m :: ms' => lo ≤ m_start m ∧ m_start m < m_end m ∧ in_order (m_end m) ms'
  end.

(** [ms] are the non-overlapping occurrences of [r] in [text] from [lo]
    on, left to right: every span is a match of the pattern, the spans
    are in text order, and a position where the pattern matches is the
    start of a span or lies inside an earlier one. *)
Definition occurrences_from (lo : nat) (r : regex) (text : list N)
    (ms : list match_obj) : Prop :=
  in_order lo ms
  ∧ Forall (λ m, match_end r text (m_start m) = Some (m_end m)
                 ∧ m_end m ≤ length text) ms
  ∧ ∀ p, lo ≤ p ≤ length text → is_Some (match_end r text p) →
         ∃ m, m ∈ ms ∧ m_start m ≤ p < m_end m.

Definition occurrences := occurrences_from 0.

End Occurrence.

(** What [re.sub(r"\s+", " ", text)] computes, written as one pass over the
    text: [in_run] tells that the previous character was white space. *)
Fixpoint collapse_ws (in_run : bool) (s : list N) : list N :=
  match s with
  | [] => []
  | c :: s' =>
      if Py_UNICODE_ISSPACE c
      then (if in_run then collapse_ws true s' else 32%N :: collapse_ws true s')
      else c :: collapse_ws false s'
  end.

(** No white space but single blanks. *)
Fixpoint single_blanks (after_blank : bool) (s : list N) : Prop :=
  match s with
  | [] => True
  | c :: s' =>
      if Py_UNICODE_ISSPACE c
      then c = 32%N ∧ after_blank = false ∧ single_blanks true s'
      else single_blanks false s'
  end.

Definition starts_with_space (s : list N) : bool :=
  match s with c :: _ => Py_UNICODE_ISSPACE c | [] => false end.

(** The events of text extraction and of citation matching. *)
Definition extraction_event (e : event) : bool :=
  match e with
  | FileOpen _ => true
  | Log _ (Text_extracted _) | Log _ (Error_extracting _)
  | Log _ (Processing_file _) | Log _ (Found_citations _) => true
  | _ => false
  end.

Definition no_extraction (evs : list event) : Prop :=
  Forall (λ e, extraction_event e = false) evs.

(** How many downloads the log reports as done. *)
Fixpoint downloads_logged (evs : list event) : nat :=
  match evs with
  | [] => 0
  | Log INFO (Successfully_downloaded _) :: evs' => S (downloads_logged evs')
  | _ :: evs' => downloads_logged evs'
  end.

(** The text the 2024-11-27 extraction has gathered when it stops. *)
Definition text_read (c : option content) : list N :=
  match c with
  | Some (Downloaded (Pdf pages)) => (V1127.read_pages pages []).1
  | _ => []
  end.

(** There is no file, or what is there does not open as a PDF. *)
Definition unopenable (c : option content) : bool :=
  match c with
  | Some (Downloaded (Pdf _)) => false
  | _ => true
  end.

(** The file is there, is a PDF, and every page of it can be read. *)
Definition parses (c : option content) : bool :=
  match c with
  | Some (Downloaded (Pdf pages)) =>
      forallb (λ p, match p with PageText _ => true | PageError => false end)
        pages
  | _ => false
  end.

Definition after (s : state) (evs : list event) : state :=
  State (requests s) (files s) (trace s ++ evs).

(** What a download leaves behind: events of its own, no extraction,
    one success message and the file when it returns [true], no file
    written when it returns [false]. *)
Definition download_post (url path : list N) (s : state) (ok : bool)
    (s' : state) : Prop :=
  ∃ evs, trace s' = trace s ++ evs
    ∧ no_extraction evs
    ∧ downloads_logged evs = (if ok then 1 else 0)
    ∧ if ok then ∃ body, files s' = <[path := Downloaded body]> (files s)
      else files s' = files s.

(** A run to try the scripts on: nothing on disk, nothing done yet, and a
    server that gives every request the same answer. *)
Definition fresh : state := State 0 ∅ [].

Definition always (r : reply) : nat → list N → reply := λ _ _, r.

Definition ppd_url : list N :=
  u "https://www.usda.gov/sites/default/files/documents/ppd.pdf".

(** [sub] stands in [text] at position [i]. *)
Definition occurs_at (sub text : list N) (i : nat) : Prop :=
  i ≤ length text ∧ take (length sub) (drop i text) = sub.

(** [i] is the first position of [text] where [sub] stands. *)
Definition first_occurrence (sub text : list N) (i : nat) : Prop :=
  occurs_at sub text i ∧ ∀ j, j < i → ¬ occurs_at sub text j.

(** A run of the digits 0 to 9. *)
Definition ascii_digits (ds : list N) : bool :=
  forallb (λ c, (48 <=? c)%N && (c <=? 57)%N) ds.

(** ** Vocabulary of the further properties *)

(** A reply the retry adapter answers with another request while its
    budget lasts. *)
Definition retryable (r : reply) : bool :=
  match received r with
  | Some resp => is_retry 1 resp
  | None => true
  end.

(** The target of a reply that is a redirect. *)
Definition redirect_target (r : reply) : option (list N) :=
  received r ≫= get_redirect_target.

(** Events that are requests and nothing else. *)
Definition requests_only (evs : list event) : Prop :=
  Forall (λ e, ∃ url, e = HttpGet url) evs.

(** The most requests one [session.get] can send: six for the URL and
    for each of the thirty redirects it may follow. *)
Definition request_limit : nat := 6 * S DEFAULT_REDIRECT_LIMIT.

(** [b] bounds the requests of one download: the limit, or six when
    the server sends no redirect. *)
Definition request_budget (server : nat → list N → reply) (b : nat) : Prop :=
  b = request_limit ∨ (b = 6 ∧ ∀ n u, redirect_target (server n u) = None).

(** The download returned [True]. *)
Definition succeeded (r : outcome bool) : bool :=
  match r with
  | Returns ok => ok
  | Raises _ => false
  end.

(** The result of the loop with what was gathered before in front. *)
Definition prepend (acc : list row) (r : outcome (list row))
    : outcome (list row) :=
  match r with
  | Returns rows => Returns (acc ++ rows)
  | Raises e => Raises e
  end.

(** The events of a download, in order: the start message, [n + 1]
    requests, and on success the file written and the message. *)
Definition fetch_events (url path : list N) (n : nat) (ok : bool)
    : list event :=
  Log INFO (Attempting url) :: replicate (S n) (HttpGet url)
    ++ (if ok then [FileWrite path; Log INFO (Successfully_downloaded url)]
        else []).

(** The pauses between documents that a trace holds. *)
Fixpoint pauses (evs : list event) : nat :=
  match evs with
  | [] => 0
  | Sleep (Uniform 2 5) :: evs' => S (pauses evs')
  | _ :: evs' => pauses evs'
  end.

(** Every match of [r] holds the character [c]. *)
Fixpoint requires (c : N) (r : regex) : bool :=
  match r with
  | Str s => bool_decide (c ∈ s)
  | Cat r1 r2 => requires c r1 || requires c r2
  | Branch r1 r2 => requires c r1 && requires c r2
  | In _ | AtBoundary | RepeatOne _ _ _ => false
  end.

(** White space in [s] is the blank and nothing else. *)
Definition blanks_only (s : list N) : Prop :=
  Forall (λ c, Py_UNICODE_ISSPACE c = true → c = 32%N) s.

(** A server that answers 503 to the first [k] requests and then sends
    the document. *)
Definition flaky (k : nat) (doc : document) : nat → list N → reply :=
  λ n _, if n <? k then Reply 503 NotAPdf else Reply 200 doc.

(** A server that gives the replies of a list one after the other and
    the reply [last] from then on. *)
Definition scripted (rs : list reply) (last : reply) : nat → list N → reply :=
  λ n _, default last (rs !! n).

(** A redirect to [target]. *)
Definition found (target : list N) : reply :=
  ReplyWith (Response 302 (Some target) false NotAPdf).

(** What the 2024-11-28 extraction makes of a file: the page texts that
    are not empty, joined by a blank, or nothing when it fails. *)
Definition joined_text (c : option content) : option (list N) :=
  match c with
  | Some (Downloaded (Pdf pages)) => join (u " ") <$> V1128.page_texts pages
  | _ => None
  end.

(** * Facts about the engine *)

Section EngineFacts.
Context `{UnicodeData}.

Lemma str_prefix_Some (s aft a' : list N) :
  str_prefix s aft = Some a' ↔ aft = s ++ a'.
Proof.
  revert aft. induction s as [|c s IH]; intros aft; simpl.
  - split; [intros [= ->]|intros ->]; done.
  - destruct aft as [|c' aft]; [done|].
    destruct (N.eqb_spec c c') as [->|Hne].
    + rewrite IH. split; [intros ->|intros [= ->]]; done.
    + split; [done|intros [= ? ?]; done].
Qed.

Lemma str_prefix_app (s a : list N) : str_prefix s (s ++ a) = Some a.
Proof. by apply str_prefix_Some. Qed.

Lemma repeat_one_fwd {A} cs lo hi bef aft (k : list N → list N → option A) x :
  repeat_one cs lo hi bef aft k = Some x →
  ∃ l a', aft = l ++ a' ∧ lo ≤ length l ∧ forallb (in_set cs) l = true
          ∧ (∀ n, hi = Some n → length l ≤ n)
          ∧ k (reverse l ++ bef) a' = Some x.
Proof.
  revert lo hi bef.
  induction aft as [|c aft IH]; intros lo hi bef; simpl.
  - destruct lo; [|done]. intros Hk. exists [], [].
    split_and!; [done..|simpl; lia|done].
  - assert (Htail : match lo with 0 => k bef (c :: aft) | S _ => None end
                    = Some x →
            ∃ l a', c :: aft = l ++ a' ∧ lo ≤ length l
              ∧ forallb (in_set cs) l = true
              ∧ (∀ n, hi = Some n → length l ≤ n)
              ∧ k (reverse l ++ bef) a' = Some x).
    { destruct lo; [|done]. intros Hk. exists [], (c :: aft).
      split_and!; [done..|simpl; lia|done]. }
    destruct (in_set cs c && negb (max_reached hi)) eqn:Hc; [|done].
    destruct (repeat_one cs (pred lo) (dec_max hi) (c :: bef) aft k)
      as [y|] eqn:Hr; [|done].
    intros [= ->]. apply IH in Hr as (l & a' & -> & Hlo & Hall & Hhi & Hk).
    exists (c :: l), a'. apply andb_true_iff in Hc as [Hc Hmax].
    split_and!; [done|simpl; lia|by simpl; rewrite Hc| |].
    + intros n ->. destruct n as [|n]; [done|].
      specialize (Hhi n eq_refl). simpl. lia.
    + by rewrite reverse_cons, <-app_assoc.
Qed.

Lemma rmatch_fwd {A} r bef aft (k : list N → list N → option A) x :
  rmatch r bef aft k = Some x →
  ∃ l a', aft = l ++ a' ∧ min_len r ≤ length l
          ∧ k (reverse l ++ bef) a' = Some x.
Proof.
  revert bef aft k.
  induction r as [s|cs| |r1 IH1 r2 IH2|r1 IH1 r2 IH2|cs lo hi];
    intros bef aft k; simpl.
  - destruct (str_prefix s aft) as [a'|] eqn:Hp; [|done].
    apply str_prefix_Some in Hp as ->. intros Hk. by exists s, a'.
  - destruct aft as [|c aft]; [done|].
    destruct (in_set cs c); [|done]. intros Hk.
    exists [c], aft. by split_and!.
  - destruct (at_boundary bef aft); [|done]. intros Hk.
    exists [], aft. split_and!; [done|simpl; lia|done].
  - intros Hm. apply IH1 in Hm as (l1 & a1 & -> & Hl1 & Hm).
    apply IH2 in Hm as (l2 & a2 & -> & Hl2 & Hk).
    exists (l1 ++ l2), a2. split_and!.
    + by rewrite app_assoc.
    + rewrite length_app. lia.
    + by rewrite reverse_app, <-app_assoc.
  - destruct (rmatch r1 bef aft k) as [y|] eqn:Hm1.
    + intros [= ->]. apply IH1 in Hm1 as (l & a' & -> & Hl & Hk).
      exists l, a'. split_and!; [done|lia|done].
    + intros Hm2. apply IH2 in Hm2 as (l & a' & -> & Hl & Hk).
      exists l, a'. split_and!; [done|lia|done].
  - intros Hm. apply repeat_one_fwd in Hm as (l & a' & -> & Hl & _ & _ & Hk).
    by exists l, a'.
Qed.

(** A match is a stretch [l] of the text after the cursor, at least
    [min_len r] long. *)
Lemma sre_match_fwd r ma bef aft b a :
  sre_match r ma bef aft = Some (b, a) →
  ∃ l, aft = l ++ a ∧ b = reverse l ++ bef ∧ min_len r ≤ length l.
Proof.
  unfold sre_match. intros Hm.
  apply rmatch_fwd in Hm as (l & a' & -> & Hl & Hk).
  destruct (_ && _); [done|]. injection Hk as <- <-. by exists l.
Qed.

End EngineFacts.

Section Occurrences.
Context `{UnicodeData}.

Lemma cursor_take (bef aft : list N) : reverse (take (length bef) (reverse bef ++ aft)) = bef.
Proof.
  rewrite take_app_length'; [apply reverse_involutive|by rewrite length_reverse].
Qed.

Lemma cursor_drop (bef aft : list N) : drop (length bef) (reverse bef ++ aft) = aft.
Proof. rewrite drop_app_length'; [done|by rewrite length_reverse]. Qed.

Lemma match_end_cursor r (bef aft : list N) :
  match_end r (reverse bef ++ aft) (length bef)
  = (λ e, length e.1) <$> sre_match r false bef aft.
Proof. unfold match_end. by rewrite cursor_take, cursor_drop. Qed.

Lemma sre_search_eq r ma bef aft :
  sre_search r ma bef aft =
  match sre_match r ma bef aft with
  | Some e => Some (length bef, e)
  | None => match aft with
            | c :: aft' => sre_search r false (c :: bef) aft'
            | [] => None
            end
  end.
Proof. by destruct aft. Qed.

Lemma sre_search_spec r text aft : ∀ bef,
  reverse bef ++ aft = text →
  match sre_search r false bef aft with
  | Some (s, (b, a)) =>
      length bef ≤ s ∧ s + min_len r ≤ length b ∧ reverse b ++ a = text
      ∧ match_end r text s = Some (length b)
      ∧ ∀ p, length bef ≤ p < s → match_end r text p = None
  | None => ∀ p, length bef ≤ p ≤ length text → match_end r text p = None
  end.
Proof.
  induction aft as [|c aft IH]; intros bef Htext; rewrite sre_search_eq;
    destruct (sre_match r false bef _) as [[b a]|] eqn:Hm.
  - pose proof Hm as Hf. apply sre_match_fwd in Hf as (l & Hl & -> & Hmin).
    subst text. split_and!;
      [done|rewrite length_app, length_reverse; lia| | |intros; lia].
    + by rewrite reverse_app, reverse_involutive, <-app_assoc, <-Hl.
    + by rewrite match_end_cursor, Hm.
  - subst text. intros p. rewrite app_nil_r, length_reverse. intros Hp.
    assert (p = length bef) as -> by lia.
    pose proof (match_end_cursor r bef []) as Hc.
    rewrite app_nil_r in Hc. by rewrite Hc, Hm.
  - pose proof Hm as Hf. apply sre_match_fwd in Hf as (l & Hl & -> & Hmin).
    subst text. split_and!;
      [done|rewrite length_app, length_reverse; lia| | |intros; lia].
    + by rewrite reverse_app, reverse_involutive, <-app_assoc, <-Hl.
    + by rewrite match_end_cursor, Hm.
  - specialize (IH (c :: bef)).
    rewrite reverse_cons, <-app_assoc in IH. specialize (IH Htext).
    assert (Hhere : match_end r text (length bef) = None).
    { subst text. by rewrite match_end_cursor, Hm. }
    destruct (sre_search r false (c :: bef) aft) as [[s [b a]]|].
    + destruct IH as (Hs & Hb & Hrev & He & Hnone). simpl in Hs.
      split_and!; [lia|done|done|done|].
      intros p Hp. destruct (decide (p = length bef)) as [->|]; [done|].
      apply Hnone. simpl. lia.
    + intros p Hp. destruct (decide (p = length bef)) as [->|]; [done|].
      apply IH. simpl. lia.
Qed.

Lemma scan_spec r text : 1 ≤ min_len r → ∀ fuel bef aft,
  reverse bef ++ aft = text → length aft < fuel →
  occurrences_from (length bef) r text (scan fuel r false bef aft).
Proof.
  intros Hmin. induction fuel as [|fuel IH]; intros bef aft Htext Hfuel;
    [lia|].
  simpl. pose proof (sre_search_spec r text aft bef Htext) as Hs.
  destruct (sre_search r false bef aft) as [[s [b a]]|].
  - destruct Hs as (Hs & Hb & Hrev & He & Hnone).
    assert (Hlen : length b + length a = length bef + length aft).
    { rewrite <-(length_reverse b), <-(length_reverse bef), <-!length_app.
      by rewrite Hrev, Htext. }
    replace (length b =? s) with false
      by (symmetry; apply Nat.eqb_neq; lia).
    destruct (IH b a Hrev ltac:(lia)) as (Hord & Hall & Hcov).
    split_and!.
    + simpl. split_and!; [done|lia|done].
    + constructor; [|done]. simpl. split; [done|].
      rewrite <-Hrev, length_app, length_reverse. lia.
    + intros p Hp Hsome.
      destruct (decide (p < s)) as [Hlt|Hge].
      { rewrite Hnone in Hsome by lia. by destruct Hsome. }
      destruct (decide (p < length b)) as [Hin|Hout].
      * exists (Match s (length b)). split; [left|simpl; lia].
      * destruct (Hcov p ltac:(lia) Hsome) as (m & Hm & Hp').
        exists m. split; [by right|done].
  - split_and!; [done|done|].
    intros p Hp Hsome. rewrite Hs in Hsome by done. by destruct Hsome.
Qed.

(** [finditer] has fuel to spare: its result is the list of occurrences. *)
Lemma finditer_occurrences r text :
  1 ≤ min_len r → occurrences r text (finditer r text).
Proof.
  intros Hmin. apply (scan_spec r text Hmin _ [] text); [done|lia].
Qed.

Lemma in_order_elem lo ms m :
  in_order lo ms → m ∈ ms → lo ≤ m_start m ∧ m_start m < m_end m.
Proof.
  revert lo. induction ms as [|m' ms IH]; intros lo Hord Hin.
  - by apply elem_of_nil in Hin.
  - destruct Hord as (Hlo & Hlt & Hord).
    apply elem_of_cons in Hin as [->|Hin]; [done|].
    destruct (IH _ Hord Hin). lia.
Qed.

(** The occurrences are determined by the pattern and the text. *)
Lemma occurrences_from_unique r text ms1 : ∀ lo ms2,
  occurrences_from lo r text ms1 → occurrences_from lo r text ms2 →
  ms1 = ms2.
Proof.
  assert (Hhead : ∀ lo m1 ms1 ms2,
    occurrences_from lo r text (m1 :: ms1) → occurrences_from lo r text ms2 →
    ∃ m2 ms2', ms2 = m2 :: ms2' ∧ m_start m2 ≤ m_start m1).
  { intros lo m1 l1 l2 (Ho1 & Ha1 & _) (Ho2 & _ & Hc2).
    destruct Ho1 as (Hlo & Hlt & _).
    apply Forall_cons in Ha1 as [[He Hle] _].
    destruct (Hc2 (m_start m1)) as (m & Hin & Hp); [lia|by rewrite He|].
    destruct l2 as [|m2 l2]; [by apply elem_of_nil in Hin|].
    exists m2, l2. split; [done|].
    apply elem_of_cons in Hin as [->|Hin]; [lia|].
    destruct Ho2 as (_ & Hlt2 & Ho2).
    destruct (in_order_elem _ _ _ Ho2 Hin). lia. }
  assert (Htail : ∀ lo m ms,
    occurrences_from lo r text (m :: ms) →
    occurrences_from (m_end m) r text ms).
  { intros lo m ms (Ho & Ha & Hc). destruct Ho as (Hlo & Hlt & Ho).
    apply Forall_cons in Ha as [_ Ha]. split_and!; [done..|].
    intros p Hp Hsome. destruct (Hc p ltac:(lia) Hsome) as (m' & Hin & Hp').
    apply elem_of_cons in Hin as [->|Hin]; [lia|]. by exists m'. }
  induction ms1 as [|m1 ms1 IH]; intros lo ms2 H1 H2.
  - destruct ms2 as [|m2 ms2]; [done|].
    destruct (Hhead _ _ _ _ H2 H1) as (? & ? & ? & _). done.
  - destruct (Hhead _ _ _ _ H1 H2) as (m2 & ms2' & -> & Hle).
    destruct (Hhead _ _ _ _ H2 H1) as (m & ms & [= <- <-] & Hge).
    assert (m1 = m2) as <-.
    { destruct H1 as (_ & Ha1 & _), H2 as (_ & Ha2 & _).
      apply Forall_cons in Ha1 as [[He1 _] _].
      apply Forall_cons in Ha2 as [[He2 _] _].
      destruct m1 as [s1 e1], m2 as [s2 e2]. simpl in *.
      assert (s1 = s2) as <- by lia. congruence. }
    f_equal. eapply IH; by eapply Htail.
Qed.

End Occurrences.

Section Normalize.
Context `{UnicodeData}.

Lemma in_set_space c : in_set space c = Py_UNICODE_ISSPACE c.
Proof. unfold in_set, space. simpl. apply orb_false_r. Qed.

(** With a continuation that accepts, the greedy repeat stops at the
    first character outside the set. *)
Lemma repeat_one_space_greedy aft : ∀ lo bef,
  ∃ l a, aft = l ++ a ∧ forallb Py_UNICODE_ISSPACE l = true
    ∧ starts_with_space a = false
    ∧ repeat_one space lo None bef aft (λ b a, Some (b, a))
      = if decide (lo ≤ length l) then Some (reverse l ++ bef, a) else None.
Proof.
  induction aft as [|c aft IH]; intros lo bef.
  - exists [], []. split_and!; [done..|]. simpl. by destruct lo.
  - cbn [repeat_one]. rewrite in_set_space. change (dec_max None) with (@None nat).
    cbn [max_reached negb]. rewrite andb_true_r.
    destruct (Py_UNICODE_ISSPACE c) eqn:Hc.
    + destruct (IH (pred lo) (c :: bef)) as (l & a & -> & Hl & Ha & ->).
      exists (c :: l), a. split_and!; [done|by simpl; rewrite Hc|done|].
      simpl. rewrite reverse_cons, <-app_assoc. simpl.
      destruct (decide (pred lo ≤ length l)), (decide (lo ≤ S (length l)));
        try done; try lia.
      destruct lo; [lia|done].
    + exists [], (c :: aft). split_and!; [done|done|by simpl|].
      simpl. by destruct lo.
Qed.

Lemma collapse_ws_run l a :
  forallb Py_UNICODE_ISSPACE l = true →
  collapse_ws true (l ++ a) = collapse_ws true a.
Proof.
  induction l as [|c l IH]; [done|]. simpl.
  intros [Hc Hl]%andb_true_iff. rewrite Hc. auto.
Qed.

Lemma collapse_ws_flag a :
  starts_with_space a = false → collapse_ws true a = collapse_ws false a.
Proof. destruct a as [|c a]; [done|]. simpl. by intros ->. Qed.

Lemma subx_skip repl (text : list N) i c ms :
  text !! i = Some c → in_order (S i) ms →
  subx repl text i ms = c :: subx repl text (S i) ms.
Proof.
  intros Hc Hord. destruct ms as [|m ms]; simpl.
  - by apply drop_S.
  - destruct Hord as (Hlo & _).
    rewrite (drop_S _ _ _ Hc).
    replace (m_start m - i) with (S (m_start m - S i)) by lia. done.
Qed.

Lemma sub_space_scan n : ∀ aft bef fuel,
  length aft ≤ n → length aft < fuel →
  subx (u " ") (reverse bef ++ aft) (length bef)
    (scan fuel (plus space) false bef aft)
  = collapse_ws false aft.
Proof.
  induction n as [|n IH]; intros aft bef fuel Hn Hfuel.
  - destruct aft; [|simpl in Hn; lia].
    destruct fuel; [lia|]. simpl.
    rewrite app_nil_r, <-(length_reverse bef). apply drop_all.
  - destruct fuel as [|fuel]; [lia|].
    destruct aft as [|c aft]; simpl length in *.
    { simpl. rewrite app_nil_r, <-(length_reverse bef). apply drop_all. }
    cbn [scan]. rewrite sre_search_eq. unfold sre_match, plus. cbn [rmatch].
    destruct (Py_UNICODE_ISSPACE c) eqn:Hc.
    + destruct (repeat_one_space_greedy (c :: aft) 1 bef)
        as (l & a & Hla & Hl & Ha & Hr).
      assert (Hk : (λ b a0 : list N,
                if false && (length b =? length bef) then None
                else Some (b, a0)) = (λ b a0, Some (b, a0))) by done.
      rewrite Hk, Hr. clear Hk Hr.
      destruct l as [|c' l]; [simpl in Hla; subst a; simpl in Ha; congruence|].
      injection Hla as <- ->.
      destruct (decide (1 ≤ length (c :: l))) as [_|Hbad]; [|simpl in Hbad; lia].
      cbn [subx m_start m_end].
      rewrite Nat.sub_diag, take_0. cbn [app].
      replace (length (reverse (c :: l) ++ bef) =? length bef) with false
        by (symmetry; apply Nat.eqb_neq;
            rewrite length_app, length_reverse; simpl; lia).
      rewrite length_app in Hn, Hfuel.
      pose proof (IH a (reverse (c :: l) ++ bef) fuel ltac:(lia) ltac:(lia))
        as Hrest.
      rewrite reverse_app, reverse_involutive, <-app_assoc in Hrest.
      change (c :: l ++ a) with ((c :: l) ++ a).
      unfold plus in Hrest. rewrite Hrest.
      change (u " ") with [32%N]. cbn [app collapse_ws]. rewrite Hc.
      cbn [forallb] in Hl. rewrite Hc in Hl.
      by rewrite collapse_ws_run, collapse_ws_flag.
    + cbn [repeat_one]. rewrite in_set_space, Hc. cbn [andb].
      pose proof (IH aft (c :: bef) (S fuel) ltac:(lia) ltac:(lia)) as Hrest.
      rewrite reverse_cons, <-app_assoc in Hrest. cbn [app] in Hrest.
      cbn [scan] in Hrest. unfold plus in Hrest.
      pose proof (scan_spec (plus space) (reverse bef ++ c :: aft)
        ltac:(simpl; lia) (S fuel) (c :: bef) aft) as Hocc.
      rewrite reverse_cons, <-app_assoc in Hocc.
      specialize (Hocc eq_refl ltac:(lia)). destruct Hocc as (Hord & _).
      cbn [scan] in Hord.
      rewrite (subx_skip _ _ _ c); [|by apply list_lookup_middle;
        rewrite length_reverse|done].
      simpl. rewrite Hc. f_equal. exact Hrest.
Qed.

Lemma re_sub_space text :
  re_sub (plus space) (u " ") text = collapse_ws false text.
Proof.
  unfold re_sub, finditer.
  apply (sub_space_scan (length text) text []); lia.
Qed.

Lemma collapse_ws_single_blanks b s : single_blanks b (collapse_ws b s).
Proof.
  revert b. induction s as [|c s IH]; intros b; [done|]. simpl.
  destruct (Py_UNICODE_ISSPACE c) eqn:Hc.
  - destruct b; [apply IH|]. simpl. split_and!; [done..|apply IH].
  - simpl. rewrite Hc. apply IH.
Qed.

Lemma single_blanks_collapse b s : single_blanks b s → collapse_ws b s = s.
Proof.
  revert b. induction s as [|c s IH]; intros b; [done|]. simpl.
  destruct (Py_UNICODE_ISSPACE c).
  - intros (-> & -> & Hs). f_equal. by apply IH.
  - intros Hs. f_equal. by apply IH.
Qed.

Lemma str_replace_single_blanks b s :
  single_blanks b s → single_blanks b (str_replace EM_DASH (u "-") s).
Proof.
  revert b. induction s as [|c s IH]; intros b; [done|].
  cbn [str_replace single_blanks].
  destruct (N.eqb_spec c EM_DASH) as [->|Hne].
  - change (Py_UNICODE_ISSPACE EM_DASH) with false.
    change (u "-" ++ ?l) with (45%N :: l). cbn [single_blanks].
    change (Py_UNICODE_ISSPACE 45) with false. apply IH.
  - cbn [app single_blanks]. destruct (Py_UNICODE_ISSPACE c).
    + intros (-> & -> & Hs). split_and!; [done..|by apply IH].
    + apply IH.
Qed.

Lemma str_replace_twice s :
  str_replace EM_DASH (u "-") (str_replace EM_DASH (u "-") s)
  = str_replace EM_DASH (u "-") s.
Proof.
  induction s as [|c s IH]; [done|]. cbn [str_replace].
  destruct (N.eqb_spec c EM_DASH) as [->|Hne].
  - change (u "-" ++ ?l) with (45%N :: l). cbn [str_replace].
    change (45 =? EM_DASH)%N with false. cbn [app]. by rewrite IH.
  - cbn [app str_replace]. destruct (N.eqb_spec c EM_DASH); [done|].
    cbn [app]. by rewrite IH.
Qed.

End Normalize.

(** * The claims *)

Section Claims.
Context `{UnicodeData}.

Lemma min_len_pattern_1127 : 1 ≤ min_len V1127.pattern.
Proof. vm_compute. lia. Qed.

Lemma min_len_pattern_1128 : 1 ≤ min_len V1128.pattern.
Proof. vm_compute. lia. Qed.

(** C2. For every text, each script's [find_us_code_citations] returns
    one string per non-overlapping occurrence of its pattern, in text
    order and with repeats kept: the matches are the spans [ms] that
    [occurrences] describes, and the result has one entry per span.  The
    text with the same citation twice gives it twice. *)
Theorem C2_one_match_per_occurrence (text : list N) (s : state) :
  (∃ ms, occurrences V1127.pattern text ms
         ∧ (V1127.find_us_code_citations text s).1 = group0 text <$> ms)
  ∧ (∃ ms, occurrences V1128.pattern text ms
         ∧ V1128.find_us_code_citations text
           = (strip ∘ group0 text) <$> ms)
  ∧ (V1127.find_us_code_citations
       (u "42 U.S.C. 1983 and 42 U.S.C. 1983 again") s).1
    = [u "42 U.S.C. 1983"; u "42 U.S.C. 1983"]
  ∧ V1128.find_us_code_citations
      (u "42 U.S.C. 1983 and 42 U.S.C. 1983 again")
    = [u "42 U.S.C. 1983"; u "42 U.S.C. 1983"].
Proof.
  split_and!.
  - exists (finditer V1127.pattern text). split; [|done].
    apply finditer_occurrences, min_len_pattern_1127.
  - exists (finditer V1128.pattern text). split.
    + apply finditer_occurrences, min_len_pattern_1128.
    + unfold V1128.find_us_code_citations, re_findall.
      by rewrite <-list_fmap_compose.
  - by vm_compute.
  - by vm_compute.
Qed.

(** C6. [normalize_text] is idempotent. *)
Theorem C6_normalize_text_idempotent (text : list N) :
  V1128.normalize_text (V1128.normalize_text text)
  = V1128.normalize_text text.
Proof.
  unfold V1128.normalize_text. rewrite !re_sub_space.
  rewrite (single_blanks_collapse false).
  - apply str_replace_twice.
  - apply str_replace_single_blanks, collapse_ws_single_blanks.
Qed.

Lemma slice_parts (text : list N) a s e b :
  a ≤ s → s ≤ e → e ≤ b → b ≤ length text →
  take (b - a) (drop a text)
  = drop a (take s text) ++ take (e - s) (drop s text)
      ++ take (b - e) (drop e text).
Proof.
  intros Ha Hs He Hb.
  rewrite <-(take_drop s text) at 1.
  rewrite drop_app_le by (rewrite length_take; lia).
  rewrite take_app_ge by (rewrite length_drop, length_take; lia).
  f_equal. rewrite length_drop, length_take.
  replace (b - a - (s `min` length text - a)) with (b - s) by lia.
  rewrite <-(take_drop (e - s) (drop s text)) at 1.
  rewrite take_app_ge by (rewrite length_take, length_drop; lia).
  f_equal. rewrite length_take, length_drop, drop_drop.
  replace (s + (e - s)) with e by lia. f_equal. lia.
Qed.

(** C3. On a span inside the text [get_context] returns, white space
    trimmed, the span with at most 40 characters on either side: the
    ones right before its start and right after its end, fewer only
    where the text begins or ends.  A match that ends with the text has
    no trailing context. *)
Theorem C3_context_window (text : list N) (m : match_obj) :
  m_start m ≤ m_end m ≤ length text →
  ∃ before after,
    V1128.get_context text m = strip (before ++ group0 text m ++ after)
    ∧ before = drop (m_start m - 40) (take (m_start m) text)
    ∧ after = take 40 (drop (m_end m) text)
    ∧ length before = m_start m `min` 40
    ∧ length after = (length text - m_end m) `min` 40
    ∧ (m_end m = length text → after = [])
    ∧ (length text = 50 → m_end m = 50 → after = []).
Proof.
  destruct m as [s e]. simpl. intros [Hs He].
  eexists _, _. split_and!; [|reflexivity|reflexivity| | | |].
  - unfold V1128.get_context, py_slice, slice_index, group0. simpl.
    destruct (Z.ltb_spec (Z.max (Z.of_nat s - 40) 0) 0) as [?|_]; [lia|].
    destruct (Z.ltb_spec (Z.min (Z.of_nat e + 40) (Z.of_nat (length text))) 0)
      as [?|_]; [lia|].
    f_equal.
    set (b := (e + 40) `min` length text).
    replace (Z.to_nat (Z.min (Z.max (Z.of_nat s - 40) 0)
               (Z.of_nat (length text)))) with (s - 40) by lia.
    replace (Z.to_nat (_ - _)) with (b - (s - 40)) by lia.
    rewrite (slice_parts text (s - 40) s e b) by lia.
    do 2 f_equal. subst b.
    destruct (decide (e + 40 ≤ length text)).
    + f_equal. lia.
    + rewrite !take_ge; [done|rewrite length_drop; lia..].
  - rewrite length_drop, length_take. lia.
  - rewrite length_take, length_drop. lia.
  - intros ->. by rewrite drop_all.
  - intros H50 ->. rewrite <-H50. by rewrite drop_all.
Qed.

Lemma decimal_is_word c :
  Py_UNICODE_ISDECIMAL c = true → SRE_UNI_IS_WORD c = true.
Proof.
  unfold SRE_UNI_IS_WORD, Py_UNICODE_ISALNUM, Py_UNICODE_ISDECIMAL.
  destruct (c <? 128)%N; intros ->; [done|].
  by rewrite orb_true_r.
Qed.

Lemma in_set_digit c : in_set digit c = Py_UNICODE_ISDECIMAL c.
Proof. unfold in_set, digit. simpl. apply orb_false_r. Qed.

(** A title number at a word boundary, followed by white space. *)
Lemma title_number_fwd {A} r bef aft (k : list N → list N → option A) x :
  rmatch (Cat AtBoundary (Cat V1127.title_number (Cat (In space) r)))
    bef aft k = Some x →
  ∃ ds w rest, aft = ds ++ w :: rest
    ∧ 1 ≤ length ds ≤ 2
    ∧ forallb Py_UNICODE_ISDECIMAL ds = true
    ∧ Py_UNICODE_ISSPACE w = true
    ∧ word_before bef = false.
Proof.
  cbn [rmatch]. destruct (at_boundary bef aft) eqn:Hb; [|done].
  intros Hm. apply repeat_one_fwd in Hm as (l & a & -> & Hlo & Hall & Hhi & Hm).
  destruct a as [|w rest]; [done|].
  destruct (in_set space w) eqn:Hw; [|done]. clear Hm.
  rewrite in_set_space in Hw.
  exists l, w, rest. split_and!; [done|done|by apply Hhi| |done|].
  - clear -Hall. induction l as [|c l IH]; [done|]. cbn [forallb] in *.
    rewrite in_set_digit in Hall.
    apply andb_true_iff in Hall as [-> Hall]. auto.
  - destruct l as [|d l]; [simpl in Hlo; lia|].
    cbn [forallb] in Hall. rewrite in_set_digit in Hall.
    apply andb_true_iff in Hall as [Hd _].
    apply decimal_is_word in Hd.
    unfold at_boundary in Hb. simpl in Hb. rewrite Hd in Hb.
    by destruct (word_before bef).
Qed.

(** C1, as the scripts have it.  On the scenario text the 2024-11-27
    matcher returns the two citations; the 2024-11-28 matcher, whose
    pattern knows the U.S.C. form alone, returns the first only. *)
Theorem C1_scenario (s : state) :
  (V1127.find_us_code_citations
     (u "Pursuant to 7 U.S.C. 136 and chapter 5 of title 7, United States Code, the Secretary shall...") s).1
  = [u "7 U.S.C. 136"; u "chapter 5 of title 7, United States Code"]
  ∧ V1128.find_us_code_citations
      (u "Pursuant to 7 U.S.C. 136 and chapter 5 of title 7, United States Code, the Secretary shall...")
    = [u "7 U.S.C. 136"].
Proof. split; by vm_compute. Qed.

(** A greedy repeat without upper bound takes a whole run of characters
    of its set when the rest of the pattern matches behind the run. *)
Lemma repeat_one_all {A} cs ds rest : ∀ lo bef (k : list N → list N → option A) x,
  forallb (in_set cs) ds = true →
  match rest with c :: _ => in_set cs c = false | [] => True end →
  lo ≤ length ds →
  k (reverse ds ++ bef) rest = Some x →
  repeat_one cs lo None bef (ds ++ rest) k = Some x.
Proof.
  induction ds as [|d ds IH]; intros lo bef k x Hds Hrest Hlo Hk.
  - cbn in Hlo. assert (lo = 0) as -> by lia. cbn [app].
    destruct rest as [|c rest]; cbn [repeat_one]; [exact Hk|].
    rewrite Hrest. cbn. exact Hk.
  - cbn [forallb] in Hds. apply andb_true_iff in Hds as [Hd Hds].
    cbn [app repeat_one]. rewrite Hd. cbn [max_reached negb andb].
    change (dec_max None) with (@None nat).
    rewrite (IH (pred lo) (d :: bef) k x); [done|done|done|cbn in Hlo; lia|].
    by rewrite reverse_cons, <-app_assoc in Hk.
Qed.

(** The matcher one construct at a time, on a match that succeeds. *)
Lemma step_Cat {A} r1 r2 bef aft (k : list N → list N → option A) x :
  rmatch r1 bef aft (λ b a, rmatch r2 b a k) = Some x →
  rmatch (Cat r1 r2) bef aft k = Some x.
Proof. done. Qed.

Lemma step_Str {A} s bef aft aft' (k : list N → list N → option A) x :
  str_prefix s aft = Some aft' → k (reverse s ++ bef) aft' = Some x →
  rmatch (Str s) bef aft k = Some x.
Proof. intros Hp Hk. cbn [rmatch]. by rewrite Hp. Qed.

Lemma step_In {A} cs c bef aft (k : list N → list N → option A) x :
  in_set cs c = true → k (c :: bef) aft = Some x →
  rmatch (In cs) bef (c :: aft) k = Some x.
Proof. intros Hc Hk. cbn [rmatch]. by rewrite Hc. Qed.

Lemma step_Rep {A} cs lo ds rest bef (k : list N → list N → option A) x :
  forallb (in_set cs) ds = true →
  match rest with c :: _ => in_set cs c = false | [] => True end →
  lo ≤ length ds →
  k (reverse ds ++ bef) rest = Some x →
  rmatch (RepeatOne cs lo None) bef (ds ++ rest) k = Some x.
Proof. apply repeat_one_all. Qed.

Lemma step_Boundary {A} bef aft (k : list N → list N → option A) x :
  at_boundary bef aft = true → k bef aft = Some x →
  rmatch AtBoundary bef aft k = Some x.
Proof. intros Hb Hk. cbn [rmatch]. by rewrite Hb. Qed.

Lemma step_Branch {A} r1 r2 bef aft (k : list N → list N → option A) x :
  rmatch r1 bef aft k = None → rmatch r2 bef aft k = Some x →
  rmatch (Branch r1 r2) bef aft k = Some x.
Proof. intros H1 H2. cbn [rmatch]. by rewrite H1. Qed.

Lemma step_Branch_l {A} r1 r2 bef aft (k : list N → list N → option A) x :
  rmatch r1 bef aft k = Some x →
  rmatch (Branch r1 r2) bef aft k = Some x.
Proof. intros H1. cbn [rmatch]. by rewrite H1. Qed.

Ltac step :=
  first
    [ apply step_Cat
    | apply step_Boundary; [reflexivity|]
    | apply step_Str with (aft' := _); [reflexivity|]
    | apply step_In; [reflexivity|] ];
  cbv beta.

Ltac to_the_end :=
  repeat step; cbn [rmatch repeat_one]; repeat step; try reflexivity.

Lemma nonempty_length (ds : list N) : ds ≠ [] → 1 ≤ length ds.
Proof. destruct ds; [done|cbn; lia]. Qed.

Lemma ascii_digits_decimal ds :
  ascii_digits ds = true → forallb (in_set digit) ds = true.
Proof.
  unfold ascii_digits. induction ds as [|c ds IH]; [done|]. cbn [forallb].
  intros [Hc Hds]%andb_true_iff. rewrite (IH Hds), andb_true_r.
  unfold in_set, digit. cbn [existsb in_item in_category].
  rewrite orb_false_r. unfold Py_UNICODE_ISDECIMAL.
  apply andb_true_iff in Hc as [H1%N.leb_le H2%N.leb_le].
  destruct (N.ltb_spec c 128); [|lia].
  apply andb_true_iff. split; by apply N.leb_le.
Qed.

Lemma ascii_digits_not_space c ds :
  ascii_digits (c :: ds) = true → Py_UNICODE_ISSPACE c = false.
Proof.
  unfold ascii_digits. cbn [forallb]. intros [Hc _]%andb_true_iff.
  apply andb_true_iff in Hc as [H1%N.leb_le H2%N.leb_le].
  unfold Py_UNICODE_ISSPACE.
  repeat match goal with
  | |- context [(?a <=? ?b)%N] => destruct (N.leb_spec a b); try lia
  | |- context [(?a =? ?b)%N] => destruct (N.eqb_spec a b); try lia
  end; done.
Qed.

Lemma sre_match_nil r ma (bef : list N) :
  1 ≤ min_len r → sre_match r ma bef [] = None.
Proof.
  intros Hmin. destruct (sre_match r ma bef []) as [[b a]|] eqn:Hm; [|done].
  apply sre_match_fwd in Hm as (l & Hl & _ & Hlen).
  symmetry in Hl. apply app_eq_nil in Hl as [-> _]. cbn in Hlen. lia.
Qed.

(** A pattern that matches the whole text from its start is found once,
    and the match is the text. *)
Lemma findall_whole r (text b : list N) :
  1 ≤ min_len r → sre_match r false [] text = Some (b, []) →
  re_findall r text = [text].
Proof.
  intros Hmin Hm. pose proof Hm as Hfwd.
  apply sre_match_fwd in Hfwd as (l & Hl & Hb & Hlen).
  rewrite app_nil_r in Hl, Hb. subst l b.
  assert (Hocc : occurrences r text [Match 0 (length text)]).
  { split_and!.
    - cbn. split_and!; [done|lia|done].
    - constructor; [|done]. cbn. split; [|done].
      unfold match_end. rewrite take_0, drop_0. change (reverse []) with (@nil N).
      rewrite Hm. cbn. by rewrite length_reverse.
    - intros p [_ Hp] [e He]. exists (Match 0 (length text)). split; [left|].
      cbn. split; [lia|].
      destruct (decide (p = length text)) as [->|]; [|lia].
      unfold match_end in He.
      rewrite drop_all, sre_match_nil in He by done. done. }
  unfold re_findall.
  rewrite (occurrences_from_unique _ _ _ _ _
             (finditer_occurrences r text Hmin) Hocc).
  cbn. unfold group0. cbn. by rewrite Nat.sub_0_r, drop_0, firstn_all.
Qed.

Lemma chapter_form_any_title ds :
  ds ≠ [] → ascii_digits ds = true →
  ∃ b, sre_match V1127.pattern false []
         (u "chapter 5 of title " ++ ds ++ u ", United States Code")
       = Some (b, []).
Proof.
  intros Hne Hds%ascii_digits_decimal. eexists.
  unfold sre_match, V1127.pattern. cbn [seq].
  step. step. step.
  unfold V1127.lead_in. cbn [alts alts_from app V1127.abbreviated_forms].
  do 5 (apply step_Branch; [reflexivity|]).
  apply step_Branch_l.
  unfold V1127.chapter_form, V1127.of_title. cbn [seq app].
  change (u "chapter 5 of title " ++ ds ++ u ", United States Code")
    with (u "chapter" ++ 32%N :: [53%N] ++ 32%N :: u "of" ++ 32%N :: u "title"
            ++ 32%N :: ds ++ u ", United States Code").
  step. step. step. step.
  apply step_Cat, step_Rep; [reflexivity|reflexivity|cbn; lia|]. cbv beta.
  repeat step.
  apply step_Cat, step_Rep; [exact Hds|reflexivity|by apply nonempty_length|].
  cbv beta.
  change (u ", United States Code")
    with (u "," ++ 32%N :: u "United" ++ 32%N :: u "States" ++ 32%N :: u "Code").
  to_the_end.
Qed.

Lemma ordinal_form_any_title ds :
  ds ≠ [] → ascii_digits ds = true →
  ∃ b, sre_match V1127.pattern false []
         (u "2nd of title " ++ ds ++ u ", United States Code")
       = Some (b, []).
Proof.
  intros Hne Hds%ascii_digits_decimal. eexists.
  unfold sre_match, V1127.pattern. cbn [seq].
  step. step. step.
  unfold V1127.lead_in. cbn [alts alts_from app V1127.abbreviated_forms].
  do 6 (apply step_Branch; [reflexivity|]).
  unfold V1127.ordinal_form, V1127.of_title. cbn [seq app].
  change (u "2nd of title " ++ ds ++ u ", United States Code")
    with ([50%N] ++ u "nd" ++ 32%N :: u "of" ++ 32%N :: u "title"
            ++ 32%N :: ds ++ u ", United States Code").
  apply step_Cat, step_Rep; [reflexivity|reflexivity|cbn; lia|]. cbv beta.
  apply step_Cat, step_Rep; [reflexivity|reflexivity|cbn; lia|]. cbv beta.
  repeat step.
  apply step_Cat, step_Rep; [exact Hds|reflexivity|by apply nonempty_length|].
  cbv beta.
  change (u ", United States Code")
    with (u "," ++ 32%N :: u "United" ++ 32%N :: u "States" ++ 32%N :: u "Code").
  to_the_end.
Qed.

Lemma usc_form_any_title ds :
  ds ≠ [] → ascii_digits ds = true →
  ∃ b, sre_match V1128.pattern false [] (ds ++ u " U.S.C. 45") = Some (b, []).
Proof.
  intros Hne Hds%ascii_digits_decimal. eexists.
  unfold sre_match, V1128.pattern. cbn [seq].
  apply step_Cat, step_Rep; [exact Hds|reflexivity|by apply nonempty_length|].
  by vm_compute.
Qed.

Lemma strip_usc_form ds :
  ds ≠ [] → ascii_digits ds = true →
  strip (ds ++ u " U.S.C. 45") = ds ++ u " U.S.C. 45".
Proof.
  intros Hne Hds. destruct ds as [|d ds]; [done|].
  pose proof (ascii_digits_not_space _ _ Hds) as Hd.
  unfold strip. cbn [app lstrip]. rewrite Hd.
  unfold rstrip. change (d :: ds ++ u " U.S.C. 45") with ((d :: ds) ++ u " U.S.C. 45").
  rewrite reverse_app.
  change (reverse (u " U.S.C. 45")) with (53%N :: reverse (u " U.S.C. 4")).
  cbn [app lstrip].
  change (Py_UNICODE_ISSPACE 53) with false. cbv iota.
  change (53%N :: reverse (u " U.S.C. 4") ++ reverse (d :: ds))
    with (reverse (u " U.S.C. 45") ++ reverse (d :: ds)).
  by rewrite <-reverse_app, reverse_involutive.
Qed.

(** C4, as the scripts have it.  In the 2024-11-27 pattern each of the
    five abbreviated forms takes a title number of one or two decimal
    digits that starts at a word boundary and is followed by white
    space, so that "123 U.S.C. 45" is not matched.  The two forms with
    "of title" take a title number of any number of digits, and so does
    the 2024-11-28 pattern: with any run [ds] of one or more digits for
    the title, the chapter form, the ordinal form and the 2024-11-28
    citation are matched whole. *)
Theorem C4_title_number (s : state) :
  (∀ f, f ∈ V1127.abbreviated_forms →
     ∀ bef aft (k : list N → list N → option (list N * list N)) x,
       rmatch (Cat AtBoundary f) bef aft k = Some x →
       ∃ ds w rest, aft = ds ++ w :: rest
         ∧ 1 ≤ length ds ≤ 2
         ∧ forallb Py_UNICODE_ISDECIMAL ds = true
         ∧ Py_UNICODE_ISSPACE w = true
         ∧ word_before bef = false)
  ∧ (V1127.find_us_code_citations (u "123 U.S.C. 45") s).1 = []
  ∧ (V1127.find_us_code_citations
       (u "chapter 5 of title 123, United States Code") s).1
    = [u "chapter 5 of title 123, United States Code"]
  ∧ V1128.find_us_code_citations (u "123 U.S.C. 45") = [u "123 U.S.C. 45"]
  ∧ (∀ ds, ds ≠ [] → ascii_digits ds = true →
       (V1127.find_us_code_citations
          (u "chapter 5 of title " ++ ds ++ u ", United States Code") s).1
       = [u "chapter 5 of title " ++ ds ++ u ", United States Code"]
       ∧ (V1127.find_us_code_citations
            (u "2nd of title " ++ ds ++ u ", United States Code") s).1
         = [u "2nd of title " ++ ds ++ u ", United States Code"]
       ∧ V1128.find_us_code_citations (ds ++ u " U.S.C. 45")
         = [ds ++ u " U.S.C. 45"]).
Proof.
  refine (conj _ (conj _ (conj _ (conj _ _)))); [|by vm_compute..|].
  - intros f Hf bef aft k x Hm. unfold V1127.abbreviated_forms in Hf.
    repeat (apply elem_of_cons in Hf as [->|Hf];
            [cbn [seq] in Hm; by apply title_number_fwd in Hm|]).
    by apply elem_of_nil in Hf.
  - intros ds Hne Hds.
    destruct (chapter_form_any_title ds Hne Hds) as [b1 H1].
    destruct (ordinal_form_any_title ds Hne Hds) as [b2 H2].
    destruct (usc_form_any_title ds Hne Hds) as [b3 H3].
    refine (conj _ (conj _ _)).
    + exact (findall_whole _ _ _ min_len_pattern_1127 H1).
    + exact (findall_whole _ _ _ min_len_pattern_1127 H2).
    + unfold V1128.find_us_code_citations.
      rewrite (findall_whole _ _ _ min_len_pattern_1128 H3).
      cbn [fmap list_fmap]. by rewrite strip_usc_form.
Qed.

Lemma match_end_Str c text p :
  p ≤ length text →
  match_end (Str c) text p
  = if decide (occurs_at c text p) then Some (p + length c) else None.
Proof.
  intros Hp. unfold match_end, sre_match. cbn [rmatch andb].
  destruct (str_prefix c (drop p text)) as [a|] eqn:Hpre.
  - apply str_prefix_Some in Hpre.
    rewrite decide_True.
    + simpl. rewrite length_app, !length_reverse, length_take. f_equal. lia.
    + split; [done|]. rewrite Hpre. by rewrite take_app_length.
  - rewrite decide_False; [done|]. intros [_ Hocc].
    assert (str_prefix c (drop p text) = Some (drop (length c) (drop p text)))
      as Hbad; [|congruence].
    apply str_prefix_Some. rewrite <-Hocc at 1. by rewrite take_drop.
Qed.

Lemma re_search_Str c text j :
  occurs_at c text j →
  ∃ i, first_occurrence c text i
       ∧ re_search (re_escape c) text = Some (Match i (i + length c)).
Proof.
  intros Hj. unfold re_search, re_escape.
  pose proof (sre_search_spec (Str c) text text [] eq_refl) as Hs.
  destruct (sre_search (Str c) false [] text) as [[i [b a]]|].
  - destruct Hs as (_ & Hb & Hrev & He & Hnone).
    assert (Hi : i ≤ length text).
    { rewrite <-Hrev, length_app, length_reverse. lia. }
    rewrite match_end_Str in He by done.
    destruct (decide (occurs_at c text i)) as [Hocc|]; [|done].
    injection He as <-. exists i. split; [|done].
    split; [done|]. intros j' Hlt Hocc'.
    specialize (Hnone j' ltac:(simpl; lia)).
    rewrite match_end_Str, decide_True in Hnone; [done|done|lia].
  - destruct Hj as [Hjl Hj].
    specialize (Hs j ltac:(simpl; lia)).
    rewrite match_end_Str, decide_True in Hs; done.
Qed.

Lemma lstrip_suffix s : ∃ l, s = l ++ lstrip s.
Proof.
  induction s as [|c s [l IH]]; [by exists []|]. simpl.
  destruct (Py_UNICODE_ISSPACE c); [|by exists []].
  exists (c :: l). simpl. by f_equal.
Qed.

Lemma strip_infix s : ∃ l1 l2, s = l1 ++ strip s ++ l2.
Proof.
  destruct (lstrip_suffix s) as [l1 Hl].
  destruct (lstrip_suffix (reverse (lstrip s))) as [l2 Hr].
  exists l1, (reverse l2). unfold strip, rstrip.
  rewrite <-reverse_app, <-Hr, reverse_involutive. exact Hl.
Qed.

Lemma occurs_at_infix (l1 c l2 : list N) :
  occurs_at c (l1 ++ c ++ l2) (length l1).
Proof.
  split; [rewrite length_app; lia|].
  by rewrite drop_app_length, take_app_length.
Qed.

Lemma citation_occurs r text c :
  1 ≤ min_len r → c ∈ strip <$> re_findall r text →
  ∃ j, occurs_at c text j.
Proof.
  intros Hmin (g & -> & Hg)%list_elem_of_fmap.
  apply list_elem_of_fmap in Hg as (m & -> & Hm).
  destruct (finditer_occurrences r text Hmin) as (Hord & Hall & _).
  rewrite Forall_forall in Hall. destruct (Hall m Hm) as [_ Hle].
  destruct (in_order_elem _ _ _ Hord Hm) as [_ Hlt].
  destruct (strip_infix (group0 text m)) as (l1 & l2 & Hg).
  exists (length (take (m_start m) text ++ l1)).
  assert (Htext : text = (take (m_start m) text ++ l1)
            ++ strip (group0 text m)
            ++ (l2 ++ drop (m_end m) text)).
  { rewrite <-(take_drop (m_start m) text) at 1.
    rewrite <-(take_drop (m_end m - m_start m) (drop (m_start m) text)).
    fold (group0 text m). rewrite drop_drop.
    replace (m_start m + (m_end m - m_start m)) with (m_end m) by lia.
    rewrite Hg at 1. by rewrite <-!app_assoc. }
  pose proof (occurs_at_infix (take (m_start m) text ++ l1)
    (strip (group0 text m)) (l2 ++ drop (m_end m) text)) as Hocc.
  by rewrite <-Htext in Hocc.
Qed.

(** C5. In the 2024-11-28 script every citation found in a text gets
    one row: the URL, the citation, and in the cell [context] a string
    that is a function of the citation string alone: the context of the
    first place in the text where that string stands, also for a row
    that reports a later occurrence. *)
Theorem C5_context_of_first_occurrence (url text : list N) :
  ∃ ctx : list N → list N,
    V1128.citation_rows url text (V1128.find_us_code_citations text)
    = (λ c, [(u "url", CellStr url); (u "citation", CellStr c);
             (u "context", CellStr (ctx c))])
        <$> V1128.find_us_code_citations text
    ∧ ∀ c, c ∈ V1128.find_us_code_citations text →
        ∃ i, first_occurrence c text i
             ∧ ctx c = V1128.get_context text (Match i (i + length c)).
Proof.
  exists (λ c, match re_search (re_escape c) text with
               | Some m => V1128.get_context text m
               | None => []
               end).
  assert (Hfound : ∀ c, c ∈ V1128.find_us_code_citations text →
    ∃ i, first_occurrence c text i
         ∧ re_search (re_escape c) text = Some (Match i (i + length c))).
  { intros c Hc.
    destruct (citation_occurs _ _ _ min_len_pattern_1128 Hc) as [j Hj].
    by apply re_search_Str with j. }
  split.
  - unfold V1128.citation_rows.
    induction (V1128.find_us_code_citations text) as [|c cs IH]; [done|].
    cbn [mbind list_bind fmap list_fmap]. fold (@mbind list _).
    destruct (Hfound c ltac:(left)) as (i & _ & ->).
    cbn [app]. f_equal. apply IH. intros c' Hc'. apply Hfound. by right.
  - intros c Hc. destruct (Hfound c Hc) as (i & Hi & ->). by exists i.
Qed.

End Claims.

(** * The run *)

Section RunFacts.
Context `{UnicodeData}.
Variable server : nat → list N → reply.

Lemma bind_run {A B} (m : M A) (f : A → M B) s :
  (m ≫= f) s = let '(a, s') := m s in f a s'.
Proof. done. Qed.

Ltac run_m :=
  repeat first
    [ rewrite bind_run
    | progress cbn [logging sleep emit mret M_ret open_file write_file
                    fst snd requests files trace after] ].

Lemma adapter_send_eq total url s :
  adapter_send server total url s =
  let s1 := State (S (requests s)) (files s) (trace s ++ [HttpGet url]) in
  let again e :=
    match total with
    | 0 => (inl e, s1)
    | S n => adapter_send server n url s1
    end in
  match received (server (requests s) url) with
  | Some resp =>
      if is_retry total resp then again RetryError else (inr resp, s1)
  | None => again ConnectionError
  end.
Proof.
  destruct total; cbn [adapter_send]; rewrite bind_run; unfold send;
    cbn zeta; destruct (received (server (requests s) url)); try done;
    by destruct (is_retry _ _).
Qed.

Lemma is_retry_budget total resp : is_retry (S total) resp = is_retry 1 resp.
Proof. done. Qed.

Lemma is_retry_0 resp : is_retry 0 resp = true → is_retry 1 resp = true.
Proof.
  unfold is_retry. destruct (bool_decide (status_code resp ∈ status_forcelist));
    [done|]. by cbn.
Qed.

(** What is retried while the budget lasts and comes back when the
    budget is spent is a 413 with a [Retry-After] header. *)
Lemma is_retry_last resp :
  is_retry 1 resp = true → is_retry 0 resp = false → status_code resp = 413.
Proof.
  unfold is_retry.
  destruct (bool_decide (status_code resp ∈ status_forcelist)) eqn:Hf; [done|].
  cbn. intros [_ Hc%bool_decide_eq_true]%andb_true_iff _.
  apply bool_decide_eq_false in Hf.
  unfold RETRY_AFTER_STATUS_CODES in Hc.
  repeat (apply elem_of_cons in Hc as [Hc|Hc]); [done|..].
  - exfalso. apply Hf. rewrite Hc. by apply (bool_decide_unpack _).
  - exfalso. apply Hf. rewrite Hc. by apply (bool_decide_unpack _).
  - by apply elem_of_nil in Hc.
Qed.

Lemma downloads_logged_app evs1 evs2 :
  downloads_logged (evs1 ++ evs2)
  = downloads_logged evs1 + downloads_logged evs2.
Proof.
  induction evs1 as [|e evs1 IH]; [done|].
  destruct e as [[] []| | | |]; simpl; by rewrite ?IH.
Qed.

Lemma requests_only_gets n url : requests_only (replicate n (HttpGet url)).
Proof. apply Forall_replicate. by exists url. Qed.

Lemma requests_only_no_extraction evs : requests_only evs → no_extraction evs.
Proof.
  intros Hev. eapply Forall_impl; [exact Hev|]. by intros e [url ->].
Qed.

Lemma requests_only_downloads evs : requests_only evs → downloads_logged evs = 0.
Proof. induction 1 as [|e evs [url ->] _ IH]; [done|exact IH]. Qed.

(** The attempts of one [HTTPAdapter.send]: they touch no file, they go
    on while the replies are retryable and the budget lasts, and what
    comes back is the reply to the last of them. *)
Lemma adapter_send_spec total url : ∀ s,
  ∃ n, n ≤ total
    ∧ (adapter_send server total url s).2
      = State (requests s + S n) (files s)
          (trace s ++ replicate (S n) (HttpGet url))
    ∧ (∀ i, i < n → retryable (server (requests s + i) url) = true)
    ∧ match (adapter_send server total url s).1 with
      | inr resp =>
          received (server (requests s + n) url) = Some resp
          ∧ is_retry (total - n) resp = false
      | inl e =>
          n = total ∧ retryable (server (requests s + n) url) = true
          ∧ (e = RetryError ∨ e = ConnectionError)
      end.
Proof.
  induction total as [|total IH]; intros s; rewrite adapter_send_eq;
    cbn zeta.
  - exists 0. rewrite Nat.add_0_r, Nat.add_1_r.
    refine (conj _ (conj _ (conj _ _))); [done| |intros; lia|].
    + destruct (received _); [destruct (is_retry _ _)|]; done.
    + unfold retryable.
      destruct (received (server (requests s) url)) as [resp|] eqn:Hr;
        [destruct (is_retry 0 resp) eqn:Hb|]; cbn [fst].
      * split_and!; [done|by apply is_retry_0|by left].
      * done.
      * split_and!; [done|done|by right].
  - set (s1 := State (S (requests s)) (files s) (trace s ++ [HttpGet url])).
    destruct (IH s1) as (n & Hn & Hs & Hbefore & Hlast).
    subst s1. cbn [requests files trace] in Hs, Hbefore, Hlast.
    assert (Hagain : retryable (server (requests s) url) = true →
      ∃ n', n' ≤ S total
        ∧ (adapter_send server total url
             (State (S (requests s)) (files s) (trace s ++ [HttpGet url]))).2
          = State (requests s + S n') (files s)
              (trace s ++ replicate (S n') (HttpGet url))
        ∧ (∀ i, i < n' → retryable (server (requests s + i) url) = true)
        ∧ match (adapter_send server total url
                   (State (S (requests s)) (files s)
                      (trace s ++ [HttpGet url]))).1 with
          | inr resp =>
              received (server (requests s + n') url) = Some resp
              ∧ is_retry (S total - n') resp = false
          | inl e => n' = S total
                     ∧ retryable (server (requests s + n') url) = true
                     ∧ (e = RetryError ∨ e = ConnectionError)
          end).
    { intros Hfirst. exists (S n).
      refine (conj _ (conj _ (conj _ _))); [lia| | |].
      - rewrite Hs. f_equal; [lia|]. by rewrite <-app_assoc.
      - intros [|i] Hi; [by rewrite Nat.add_0_r|].
        replace (requests s + S i) with (S (requests s) + i) by lia.
        apply Hbefore. lia.
      - replace (requests s + S n) with (S (requests s) + n) by lia.
        cbn [Nat.sub].
        destruct (adapter_send server total url _).1 as [e|resp];
          [|done]. destruct Hlast as (-> & ? & ?). done. }
    unfold retryable in Hagain.
    destruct (received (server (requests s) url)) as [resp|] eqn:Hr;
      [destruct (is_retry (S total) resp) eqn:Hb|];
      try (apply Hagain; by rewrite <-?Hb).
    exists 0. rewrite Nat.add_0_r, Nat.add_1_r. cbn [fst snd].
    refine (conj _ (conj _ (conj _ _))); [lia|done|intros; lia|].
    by rewrite Nat.sub_0_r.
Qed.

(** Retryable replies, then within the budget one that is not. *)
Lemma adapter_send_settled total url resp : ∀ k s,
  k ≤ total →
  (∀ i, i < k → retryable (server (requests s + i) url) = true) →
  received (server (requests s + k) url) = Some resp →
  is_retry (total - k) resp = false →
  adapter_send server total url s
  = (inr resp, State (requests s + S k) (files s)
                 (trace s ++ replicate (S k) (HttpGet url))).
Proof.
  induction total as [|total IH]; intros k s Hk Hbefore Hr Hno;
    rewrite adapter_send_eq; cbn zeta.
  - assert (k = 0) as -> by lia. rewrite Nat.add_0_r in Hr.
    rewrite Hr. cbn [Nat.sub] in Hno. rewrite Hno.
    by rewrite Nat.add_1_r.
  - destruct k as [|k].
    + rewrite Nat.add_0_r in Hr. rewrite Hr.
      rewrite Nat.sub_0_r in Hno. rewrite Hno. by rewrite Nat.add_1_r.
    + pose proof (Hbefore 0 ltac:(lia)) as H0.
      rewrite Nat.add_0_r in H0. unfold retryable in H0.
      assert (Hnext : adapter_send server total url
                (State (S (requests s)) (files s) (trace s ++ [HttpGet url]))
              = (inr resp, State (requests s + S (S k)) (files s)
                   (trace s ++ replicate (S (S k)) (HttpGet url)))).
      { rewrite (IH k); cbn [requests files trace].
        - f_equal. f_equal; [lia|]. by rewrite <-app_assoc.
        - lia.
        - intros i Hi.
          replace (S (requests s) + i) with (requests s + S i) by lia.
          apply Hbefore. lia.
        - by replace (S (requests s) + k) with (requests s + S k) by lia.
        - exact Hno. }
      destruct (received (server (requests s) url)) as [r0|]; [|done].
      rewrite is_retry_budget, H0. done.
Qed.

(** Retryable replies as long as the budget lasts. *)
Lemma adapter_send_exhausted total url : ∀ s,
  (∀ i, i ≤ total → retryable (server (requests s + i) url) = true) →
  (adapter_send server total url s).2
  = State (requests s + S total) (files s)
      (trace s ++ replicate (S total) (HttpGet url))
  ∧ match (adapter_send server total url s).1 with
    | inl e => e = RetryError ∨ e = ConnectionError
    | inr resp => status_code resp = 413
    end.
Proof.
  intros s Hall.
  destruct (adapter_send_spec total url s) as (n & Hn & Hs & _ & Hlast).
  assert (n = total) as ->.
  { destruct (adapter_send server total url s).1 as [e|resp].
    - by destruct Hlast as [-> _].
    - destruct Hlast as [Hr Hno].
      destruct (decide (n = total)) as [|Hne]; [done|].
      pose proof (Hall n Hn) as Hre. unfold retryable in Hre.
      rewrite Hr in Hre.
      destruct (total - n) as [|m] eqn:Hm; [lia|].
      rewrite is_retry_budget in Hno. congruence. }
  split; [done|].
  destruct (adapter_send server total url s).1 as [e|resp].
  - by destruct Hlast as (_ & _ & He).
  - destruct Hlast as [Hr Hno]. rewrite Nat.sub_diag in Hno.
    pose proof (Hall total ltac:(lia)) as Hre. unfold retryable in Hre.
    rewrite Hr in Hre. by apply is_retry_last.
Qed.

Lemma resolve_redirects_eq redirects url s :
  resolve_redirects server redirects url s =
  let a := adapter_send server 5 url s in
  match a.1 with
  | inl e => (inl e, a.2)
  | inr resp =>
      match get_redirect_target resp with
      | Some target =>
          match redirects with
          | 0 => (inl TooManyRedirects, a.2)
          | S n => resolve_redirects server n target a.2
          end
      | None => (inr resp, a.2)
      end
  end.
Proof.
  destruct redirects; cbn [resolve_redirects]; rewrite bind_run; cbn zeta;
    (destruct (adapter_send server 5 url s) as [[e|resp] s1]; cbn [fst snd];
     [done|by destruct (get_redirect_target resp)]).
Qed.

(** A first response that is no redirect is the result. *)
Lemma resolve_redirects_first redirects url s :
  match (adapter_send server 5 url s).1 with
  | inr resp => get_redirect_target resp = None
  | inl _ => True
  end →
  resolve_redirects server redirects url s = adapter_send server 5 url s.
Proof.
  rewrite resolve_redirects_eq. cbn zeta.
  destruct (adapter_send server 5 url s) as [[e|resp] s1]; cbn [fst snd];
    [done|]. by intros ->.
Qed.

(** The requests of one [session.get]: they touch no file; there is at
    least one and at most six for each hop; a response that comes back
    is the reply to the last request and is no redirect. *)
Lemma resolve_redirects_spec redirects : ∀ url s,
  ∃ evs, (resolve_redirects server redirects url s).2
         = State (requests s + length evs) (files s) (trace s ++ evs)
    ∧ requests_only evs
    ∧ 1 ≤ length evs ≤ 6 * S redirects
    ∧ match (resolve_redirects server redirects url s).1 with
      | inr resp =>
          get_redirect_target resp = None
          ∧ ∃ n u, S n = length evs
                   ∧ received (server (requests s + n) u) = Some resp
      | inl e => is_request_exception e = true
      end.
Proof.
  induction redirects as [|redirects IH]; intros url s;
    rewrite resolve_redirects_eq; cbn zeta;
    destruct (adapter_send_spec 5 url s) as (n & Hn & Hs & _ & Hlast);
    destruct (adapter_send server 5 url s) as [[e|resp] s1];
    cbn [fst snd] in *; subst s1.
  - exists (replicate (S n) (HttpGet url)). rewrite length_replicate.
    split_and!; [done|apply requests_only_gets|lia|lia|].
    by destruct Hlast as (_ & _ & [->| ->]).
  - exists (replicate (S n) (HttpGet url)). rewrite length_replicate.
    destruct Hlast as [Hr _].
    destruct (get_redirect_target resp) as [target|] eqn:Ht; cbn [fst snd].
    + split_and!; [done|apply requests_only_gets|lia|lia|done].
    + split_and!; [done|apply requests_only_gets|lia|lia|done|].
      by exists n, url.
  - exists (replicate (S n) (HttpGet url)). rewrite length_replicate.
    split_and!; [done|apply requests_only_gets|lia|lia|].
    by destruct Hlast as (_ & _ & [->| ->]).
  - destruct Hlast as [Hr _].
    destruct (get_redirect_target resp) as [target|] eqn:Ht; cbn [fst snd].
    + destruct (IH target (State (requests s + S n) (files s)
                  (trace s ++ replicate (S n) (HttpGet url))))
        as (evs & Hs' & Hev & Hlen & Hres).
      cbn [requests files trace] in Hs', Hres.
      exists (replicate (S n) (HttpGet url) ++ evs).
      rewrite length_app, length_replicate.
      split_and!.
      * rewrite Hs'. f_equal; [lia|by rewrite <-app_assoc].
      * apply Forall_app. split; [apply requests_only_gets|done].
      * lia.
      * lia.
      * destruct (resolve_redirects server redirects target _).1
          as [e|resp']; [done|].
        destruct Hres as (Hno & n' & u' & Hn' & Hr').
        split; [done|]. exists (S n + n'), u'. split; [lia|].
        by replace (requests s + (S n + n')) with (requests s + S n + n')
          by lia.
    + exists (replicate (S n) (HttpGet url)). rewrite length_replicate.
      split_and!; [done|apply requests_only_gets|lia|lia|done|].
      by exists n, url.
Qed.

Lemma fetch_eq url path s :
  fetch server url path s =
  let g := session_get server url (after s [Log INFO (Attempting url)]) in
  match g.1 with
  | inl e => (Some e, g.2)
  | inr resp =>
      match raise_for_status (status_code resp) with
      | Some e => (Some e, g.2)
      | None =>
          match open_error path with
          | Some e => (Some e, g.2)
          | None =>
              (None, State (requests g.2)
                       (<[path := Downloaded (resp_content resp)]> (files g.2))
                       (trace g.2 ++ [FileWrite path;
                                      Log INFO (Successfully_downloaded url)]))
          end
      end
  end.
Proof.
  unfold fetch. run_m. cbn zeta. unfold after.
  destruct (session_get server url _) as [[e|resp] s1]; cbn [fst snd];
    [done|].
  destruct (raise_for_status _); [done|].
  destruct (open_error path); [done|]. run_m. by rewrite <-app_assoc.
Qed.

(** What the [try] body does: some requests, then nothing more when an
    exception is raised, and the file and the message otherwise. *)
Lemma fetch_spec url path s :
  ∃ evs, requests_only evs ∧ 1 ≤ length evs ≤ request_limit
    ∧ requests (fetch server url path s).2 = requests s + length evs
    ∧ match (fetch server url path s).1 with
      | None =>
          open_error path = None
          ∧ (∃ n u resp, S n = length evs
               ∧ received (server (requests s + n) u) = Some resp
               ∧ get_redirect_target resp = None
               ∧ raise_for_status (status_code resp) = None
               ∧ files (fetch server url path s).2
                 = <[path := Downloaded (resp_content resp)]> (files s))
          ∧ trace (fetch server url path s).2
            = trace s ++ Log INFO (Attempting url) :: evs
                ++ [FileWrite path; Log INFO (Successfully_downloaded url)]
      | Some e =>
          files (fetch server url path s).2 = files s
          ∧ trace (fetch server url path s).2
            = trace s ++ Log INFO (Attempting url) :: evs
          ∧ (is_request_exception e = false → open_error path = Some e)
      end.
Proof.
  rewrite fetch_eq. cbn zeta. unfold session_get.
  destruct (resolve_redirects_spec DEFAULT_REDIRECT_LIMIT url
              (after s [Log INFO (Attempting url)]))
    as (evs & Hs & Hev & Hlen & Hres).
  cbn [after requests files trace] in Hs, Hres.
  exists evs. split; [done|]. split; [done|].
  destruct (resolve_redirects server DEFAULT_REDIRECT_LIMIT url _)
    as [[e|resp] s1]; cbn [fst snd] in *; subst s1.
  - cbn [requests files trace]. rewrite <-app_assoc.
    split_and!; [done..|]. intros He. congruence.
  - destruct Hres as (Hno & n & u0 & Hn & Hr).
    destruct (raise_for_status (status_code resp)) as [e|] eqn:Hst.
    { cbn [fst snd requests files trace]. rewrite <-app_assoc.
      split_and!; [done..|].
      unfold raise_for_status in Hst.
      destruct (_ && _); [|done]. injection Hst as <-. done. }
    destruct (open_error path) as [e|] eqn:Ho;
      cbn [fst snd requests files trace].
    + rewrite <-app_assoc. split_and!; [done..|]. by intros _.
    + split_and!; [done|done| |by rewrite <-!app_assoc].
      by exists n, u0, resp.
Qed.

Lemma fetch_post url path s :
  download_post url path s
    (bool_decide ((fetch server url path s).1 = None))
    (fetch server url path s).2.
Proof.
  destruct (fetch_spec url path s) as (evs & Hev & _ & _ & Hres).
  destruct (fetch server url path s) as [[e|] s1]; cbn [fst snd] in *.
  - rewrite bool_decide_false by done.
    destruct Hres as (Hf & Ht & _).
    exists (Log INFO (Attempting url) :: evs).
    split_and!; [done| | |done].
    + constructor; [done|by apply requests_only_no_extraction].
    + cbn [downloads_logged]. by apply requests_only_downloads.
  - rewrite bool_decide_true by done.
    destruct Hres as (_ & (n & u0 & resp & _ & _ & _ & _ & Hf) & Ht).
    exists (Log INFO (Attempting url) :: evs
              ++ [FileWrite path; Log INFO (Successfully_downloaded url)]).
    split_and!; [done| | |by eexists].
    + constructor; [done|]. apply Forall_app. split;
        [by apply requests_only_no_extraction|by repeat constructor].
    + cbn [downloads_logged]. rewrite downloads_logged_app.
      by rewrite requests_only_downloads.
Qed.

Lemma download_post_more url path s s1 evs (ok : bool) (s2 : state) :
  download_post url path s false s1 →
  ok = false → files s2 = files s1 → trace s2 = trace s1 ++ evs →
  no_extraction evs → downloads_logged evs = 0 →
  download_post url path s ok s2.
Proof.
  intros (evs1 & Ht & Hq & Hd & Hf) -> Hf' Ht' Hq' Hd'.
  exists (evs1 ++ evs). split_and!.
  - by rewrite Ht', Ht, app_assoc.
  - by apply Forall_app.
  - rewrite downloads_logged_app. lia.
  - congruence.
Qed.

Lemma download_pdf_1127_post url path s :
  download_post url path s (V1127.download_pdf server url path s).1
    (V1127.download_pdf server url path s).2.
Proof.
  unfold V1127.download_pdf. rewrite bind_run.
  pose proof (fetch_post url path s) as Hf.
  destruct (fetch server url path s) as [e s1]. cbn [fst snd] in Hf.
  destruct e as [e|]; [|done].
  rewrite bool_decide_false in Hf by done.
  destruct e; run_m; rewrite <-?app_assoc;
    (eapply download_post_more;
     [exact Hf|done|done|reflexivity|by repeat constructor|done]).
Qed.

(** The same for the 2024-11-28 script, whose download counts as done
    when it returns [True]. *)
Lemma download_pdf_1128_post url path s :
  download_post url path s
    (succeeded (V1128.download_pdf server url path s).1)
    (V1128.download_pdf server url path s).2.
Proof.
  unfold V1128.download_pdf. rewrite bind_run.
  pose proof (fetch_post url path s) as Hf.
  destruct (fetch server url path s) as [e s1]. cbn [fst snd] in Hf.
  destruct e as [e|]; [|done].
  rewrite bool_decide_false in Hf by done.
  destruct (is_request_exception e); run_m; cbn [succeeded].
  - eapply download_post_more;
      [exact Hf|done|done|reflexivity|by repeat constructor|done].
  - eapply (download_post_more _ _ _ _ []);
      [exact Hf|done|done|by rewrite app_nil_r|by constructor|done].
Qed.

Lemma adapter_send_503 total url :
  (∀ n, ∃ body, server n url = Reply 503 body) →
  ∀ s, (adapter_send server total url s).1 = inl RetryError.
Proof.
  intros Hsrv. induction total as [|total IH]; intros s;
    rewrite adapter_send_eq; cbn zeta;
    destruct (Hsrv (requests s)) as [body ->]; cbn [received];
    (assert (is_retry 0 (Response 503 None false body) = true) as Hr0
       by reflexivity);
    [by rewrite Hr0|].
  rewrite is_retry_budget.
  assert (is_retry 1 (Response 503 None false body) = true) as -> by reflexivity.
  apply IH.
Qed.

Lemma fetch_503 url path s :
  (∀ n, ∃ body, server n url = Reply 503 body) →
  (fetch server url path s).1 = Some RetryError.
Proof.
  intros Hsrv. rewrite fetch_eq. cbn zeta. unfold session_get.
  pose proof (adapter_send_503 5 url Hsrv
                (after s [Log INFO (Attempting url)])) as Hg.
  rewrite resolve_redirects_first by (by rewrite Hg).
  by rewrite Hg.
Qed.

Lemma read_pages_ok pages : ∀ text,
  (V1127.read_pages pages text).2
  = forallb (λ p, match p with PageText _ => true | PageError => false end)
      pages.
Proof. induction pages as [|[t|] pages IH]; intros text; simpl; auto. Qed.

Lemma page_texts_ok pages :
  forallb (λ p, match p with PageText _ => true | PageError => false end)
    pages = false →
  V1128.page_texts pages = None.
Proof.
  induction pages as [|[t|] pages IH]; simpl; [done| |done].
  intros Hp. by rewrite (IH Hp).
Qed.

Lemma extract_1127_run path s :
  V1127.extract_text_from_pdf path s
  = (text_read (files s !! path),
     after s [FileOpen path;
              if parses (files s !! path)
              then Log INFO (Text_extracted path)
              else Log ERROR (Error_extracting path)]).
Proof.
  unfold V1127.extract_text_from_pdf. run_m. unfold text_read, parses.
  destruct (files s !! path) as [[[|pages]|cols body]|].
  2:{ rewrite <-(read_pages_ok pages []).
      destruct (V1127.read_pages pages []) as [text []]; run_m;
        by rewrite <-app_assoc. }
  all: run_m; by rewrite <-app_assoc.
Qed.

Lemma extract_1128_unreadable path s :
  parses (files s !! path) = false →
  V1128.extract_text_from_pdf path s
  = ([], after s [FileOpen path; Log ERROR (Error_extracting path)]).
Proof.
  unfold V1128.extract_text_from_pdf. run_m. unfold parses.
  destruct (files s !! path) as [[[|pages]|cols body]|].
  2:{ intros Hp. rewrite (page_texts_ok _ Hp). run_m.
      by rewrite <-app_assoc. }
  all: intros _; run_m; by rewrite <-app_assoc.
Qed.

Lemma unopenable_unreadable c :
  unopenable c = true → parses c = false ∧ text_read c = [].
Proof. by destruct c as [[[|pages]|cols body]|]. Qed.

Lemma find_1127_run text s :
  V1127.find_us_code_citations text s
  = (re_findall V1127.pattern text,
     after s [Log INFO
                (Found_citations (length (re_findall V1127.pattern text)))]).
Proof. done. Qed.

(** One turn of the 2024-11-27 loop, by the outcome of the download. *)
Lemma process_url_1127_run url results s :
  let filename := last_segment url in
  let d := V1127.download_pdf server url filename s in
  let text := text_read (files d.2 !! filename) in
  let citations := re_findall V1127.pattern text in
  V1127.process_url server url results s
  = if d.1
    then (results ++ [V1127.result_row filename citations],
          after d.2
            [FileOpen filename;
             if parses (files d.2 !! filename)
             then Log INFO (Text_extracted filename)
             else Log ERROR (Error_extracting filename);
             Log INFO (Found_citations (length citations));
             Sleep (Uniform 2 5)])
    else (results, after d.2 [Sleep (Uniform 2 5)]).
Proof.
  cbn zeta. unfold V1127.process_url. rewrite bind_run.
  destruct (V1127.download_pdf server url (last_segment url) s) as [[] s1];
    cbn [fst snd]; [|by run_m].
  run_m. rewrite extract_1127_run. run_m. rewrite find_1127_run. run_m.
  by rewrite <-!app_assoc.
Qed.

(** One turn of the 2024-11-28 loop when the download failed, when the
    document cannot be read, and when an exception left the download. *)
Lemma process_url_1128_skip url results s :
  let filepath := u "downloads/" ++ last_segment url in
  let d := V1128.download_pdf server url filepath s in
  (d.1 = Returns false →
     V1128.process_url server url results s
     = (Returns results, after d.2 [Sleep (Uniform 2 5)]))
  ∧ (d.1 = Returns true → parses (files d.2 !! filepath) = false →
     V1128.process_url server url results s
     = (Returns results,
        after d.2 [Log INFO (Processing_file filepath); FileOpen filepath;
                   Log ERROR (Error_extracting filepath);
                   Sleep (Uniform 2 5)]))
  ∧ (∀ e, d.1 = Raises e →
     V1128.process_url server url results s = (Raises e, d.2)).
Proof.
  cbn zeta. unfold V1128.process_url. rewrite bind_run.
  destruct (V1128.download_pdf server url _ s) as [[[]|e] s1]; cbn [fst snd].
  - split_and!; [done| |done]. intros _ Hp. run_m.
    rewrite extract_1128_unreadable by done. run_m.
    by rewrite <-!app_assoc.
  - split_and!; [|done|done]. intros _. by run_m.
  - split_and!; [done|done|]. by intros e' [= <-].
Qed.

Lemma for_each_cons {X A} (x : X) xs (body : X → A → M A) acc s :
  for_each (x :: xs) body acc s
  = for_each xs body (body x acc s).1 (body x acc s).2.
Proof. cbn [for_each]. rewrite bind_run. by destruct (body x acc s). Qed.

Lemma for_each_try_cons {X A} (x : X) xs (body : X → A → M (outcome A)) acc s :
  for_each_try (x :: xs) body acc s
  = match (body x acc s).1 with
    | Returns acc' => for_each_try xs body acc' (body x acc s).2
    | Raises e => (Raises e, (body x acc s).2)
    end.
Proof.
  cbn [for_each_try]. rewrite bind_run. by destruct (body x acc s) as [[] ?].
Qed.

(** C8. When [download_pdf] returns [False] the turn of the loop adds no
    row and does nothing but the download and the pause: no file is
    opened, no extraction or matching is logged, no file is written; the
    loop then goes on with the next URL.  A server that answers 503 to
    every request makes [download_pdf] return [False]. *)
Theorem C8_failed_download_is_skipped
    (url : list N) (urls : list (list N)) (results : list row) (s : state) :
  let d27 := V1127.download_pdf server url (last_segment url) s in
  let d28 :=
    V1128.download_pdf server url (u "downloads/" ++ last_segment url) s in
  (d27.1 = false →
     ∃ evs,
       let s' := State (requests d27.2) (files s) (trace s ++ evs) in
       V1127.process_url server url results s = (results, s')
       ∧ no_extraction evs
       ∧ for_each (url :: urls) (V1127.process_url server) results s
         = for_each urls (V1127.process_url server) results s')
  ∧ (d28.1 = Returns false →
     ∃ evs,
       let s' := State (requests d28.2) (files s) (trace s ++ evs) in
       V1128.process_url server url results s = (Returns results, s')
       ∧ no_extraction evs
       ∧ for_each_try (url :: urls) (V1128.process_url server) results s
         = for_each_try urls (V1128.process_url server) results s')
  ∧ ((∀ n, ∃ body, server n url = Reply 503 body) →
     d27.1 = false ∧ d28.1 = Returns false).
Proof.
  cbn zeta. split_and!.
  - intros Hd.
    pose proof (download_pdf_1127_post url (last_segment url) s) as Hp.
    pose proof (process_url_1127_run url results s) as Hr.
    cbn zeta in Hr. rewrite Hd in Hr, Hp.
    destruct Hp as (evs & Ht & Hq & _ & Hf).
    exists (evs ++ [Sleep (Uniform 2 5)]).
    assert (Hs : V1127.process_url server url results s
      = (results, State (requests (V1127.download_pdf server url
                           (last_segment url) s).2)
                    (files s) (trace s ++ evs ++ [Sleep (Uniform 2 5)]))).
    { rewrite Hr. unfold after. by rewrite Hf, Ht, <-app_assoc. }
    split_and!; [done| |by rewrite for_each_cons, Hs].
    apply Forall_app. split; [done|by repeat constructor].
  - intros Hd.
    pose proof (download_pdf_1128_post url
      (u "downloads/" ++ last_segment url) s) as Hp.
    destruct (process_url_1128_skip url results s) as [Hr _].
    cbn zeta in Hr. specialize (Hr Hd). rewrite Hd in Hp.
    cbn [succeeded] in Hp.
    destruct Hp as (evs & Ht & Hq & _ & Hf).
    exists (evs ++ [Sleep (Uniform 2 5)]).
    assert (Hs : V1128.process_url server url results s
      = (Returns results,
         State (requests (V1128.download_pdf server url
                            (u "downloads/" ++ last_segment url) s).2)
           (files s) (trace s ++ evs ++ [Sleep (Uniform 2 5)]))).
    { rewrite Hr. unfold after. by rewrite Hf, Ht, <-app_assoc. }
    split_and!; [done| |by rewrite for_each_try_cons, Hs].
    apply Forall_app. split; [done|by repeat constructor].
  - intros Hsrv. split.
    + unfold V1127.download_pdf. rewrite bind_run.
      pose proof (fetch_503 url (last_segment url) s Hsrv) as Hf.
      destruct (fetch server url (last_segment url) s) as [e s1].
      simpl in Hf. by subst e.
    + unfold V1128.download_pdf. rewrite bind_run.
      pose proof (fetch_503 url (u "downloads/" ++ last_segment url) s Hsrv)
        as Hf.
      destruct (fetch server url _ s) as [e s1]. simpl in Hf. by subst e.
Qed.

(** C7. When the downloaded file cannot be opened or parsed (it is not
    there, or what is there does not open as a PDF),
    [extract_text_from_pdf] of either script catches the failure, logs
    it and returns the empty string.  The document then contributes no
    citation: the 2024-11-28 script adds no row for it, the 2024-11-27
    script a row whose list of citations is empty; either loop goes on
    with the remaining URLs. *)
Theorem C7_unreadable_document
    (url : list N) (urls : list (list N)) (results : list row) (s : state) :
  let filename := last_segment url in
  let filepath := u "downloads/" ++ filename in
  let d27 := V1127.download_pdf server url filename s in
  let d28 := V1128.download_pdf server url filepath s in
  let failure path := [FileOpen path; Log ERROR (Error_extracting path)] in
  (∀ path, unopenable (files s !! path) = true →
     V1127.extract_text_from_pdf path s = ([], after s (failure path))
     ∧ V1128.extract_text_from_pdf path s = ([], after s (failure path)))
  ∧ (d27.1 = true → unopenable (files d27.2 !! filename) = true →
     ∃ s',
       let results' :=
         results ++ [[(u "filename", CellStr filename);
                      (u "citations", CellList [])]] in
       V1127.process_url server url results s = (results', s')
       ∧ for_each (url :: urls) (V1127.process_url server) results s
         = for_each urls (V1127.process_url server) results' s')
  ∧ (d28.1 = Returns true → unopenable (files d28.2 !! filepath) = true →
     ∃ s', V1128.process_url server url results s = (Returns results, s')
       ∧ for_each_try (url :: urls) (V1128.process_url server) results s
         = for_each_try urls (V1128.process_url server) results s').
Proof.
  cbn zeta. split_and!.
  - intros path [Hp Ht]%unopenable_unreadable. split.
    + by rewrite extract_1127_run, Hp, Ht.
    + by apply extract_1128_unreadable.
  - intros Hd [Hp Ht]%unopenable_unreadable.
    pose proof (process_url_1127_run url results s) as Hr.
    cbn zeta in Hr. rewrite Hd, Ht in Hr.
    eexists. split; [exact Hr|]. by rewrite for_each_cons, Hr.
  - intros Hd [Hp _]%unopenable_unreadable.
    destruct (process_url_1128_skip url results s) as (_ & Hr & _).
    cbn zeta in Hr. specialize (Hr Hd Hp).
    eexists. split; [exact Hr|]. by rewrite for_each_try_cons, Hr.
Qed.

(** C9, as the scripts have it.  With no result at the end of the run
    the 2024-11-28 script writes no file and logs a warning.  The
    2024-11-27 script writes its file all the same; the columns come
    from the records, so without records the file has a header line
    with no column name and no row. *)
Theorem C9_empty_results
    (timestamp : list N) (urls : list (list N)) (s : state) :
  let r28 := V1128.collect server urls s in
  let r27 := V1127.process_urls server urls s in
  (r28.1 = Returns [] →
     V1128.process_urls server timestamp urls s
     = (Returns tt, after r28.2 [Log WARNING No_citations_found]))
  ∧ (r27.1 = [] →
     V1127.main server urls s
     = (tt, State (requests r27.2)
              (<[V1127.output_filename := Csv [] []]> (files r27.2))
              (trace r27.2
                 ++ [FileWrite V1127.output_filename;
                     Log INFO (Results_saved V1127.output_filename)]))).
Proof.
  cbn zeta. split.
  - unfold V1128.process_urls. cbn zeta. rewrite bind_run.
    destruct (V1128.collect server urls s) as [rows s1]. simpl.
    by intros ->.
  - unfold V1127.main. rewrite bind_run.
    destruct (V1127.process_urls server urls s) as [rows s1]. simpl.
    intros ->. change (to_csv []) with (Csv [] []). run_m.
    unfold logging, emit. cbn [requests files trace].
    by rewrite <-app_assoc.
Qed.

Lemma process_urls_1127_count urls : ∀ results s,
  let r := for_each urls (V1127.process_url server) results s in
  ∃ rows evs, r.1 = results ++ rows ∧ trace r.2 = trace s ++ evs
              ∧ length rows = downloads_logged evs.
Proof.
  induction urls as [|url urls IH]; intros results s; cbn zeta.
  - exists [], []. by rewrite !app_nil_r.
  - rewrite for_each_cons.
    pose proof (process_url_1127_run url results s) as Hr.
    pose proof (download_pdf_1127_post url (last_segment url) s) as Hp.
    cbn zeta in Hr.
    destruct (V1127.download_pdf server url (last_segment url) s)
      as [ok s1]. cbn [fst snd] in Hr, Hp.
    destruct Hp as (evs1 & Ht1 & _ & Hd1 & _).
    rewrite Hr. clear Hr.
    destruct ok; cbn [fst snd].
    + match goal with |- context [after s1 ?l] => set (evs2 := l) end.
      assert (Hd2 : downloads_logged evs2 = 0).
      { subst evs2. by destruct (parses _). }
      match goal with |- context [for_each urls _ (results ++ [?r]) ?st] =>
        destruct (IH (results ++ [r]) st) as (rows & evs & -> & -> & Hlen);
        exists (r :: rows), (evs1 ++ evs2 ++ evs) end.
      split_and!; [by rewrite <-app_assoc| |].
      * cbn [after trace]. by rewrite Ht1, <-!app_assoc.
      * rewrite !downloads_logged_app, Hd1, Hd2, <-Hlen. done.
    + match goal with |- context [for_each urls _ ?acc ?st] =>
        destruct (IH acc st) as (rows & evs & -> & -> & Hlen) end.
      exists rows, (evs1 ++ [Sleep (Uniform 2 5)] ++ evs).
      split_and!; [done| |].
      * cbn [after trace]. by rewrite Ht1, <-!app_assoc.
      * rewrite !downloads_logged_app, Hd1, <-Hlen. done.
Qed.

(** C10. In the 2024-11-27 script a URL whose download succeeds adds
    exactly one row, with its file name and the citations found in its
    text, whatever their number; a failed download adds none.  The
    result list has as many rows as the log reports downloads. *)
Theorem C10_one_row_per_download
    (url : list N) (urls : list (list N)) (results : list row) (s : state) :
  let filename := last_segment url in
  let d := V1127.download_pdf server url filename s in
  let citations :=
    re_findall V1127.pattern (text_read (files d.2 !! filename)) in
  (d.1 = true →
     (V1127.process_url server url results s).1
     = results ++ [[(u "filename", CellStr filename);
                    (u "citations", CellList citations)]])
  ∧ (d.1 = false → (V1127.process_url server url results s).1 = results)
  ∧ ∃ evs, trace (V1127.process_urls server urls s).2 = trace s ++ evs
           ∧ length (V1127.process_urls server urls s).1
             = downloads_logged evs.
Proof.
  cbn zeta. pose proof (process_url_1127_run url results s) as Hr.
  cbn zeta in Hr. split_and!.
  - intros Hd. by rewrite Hr, Hd.
  - intros Hd. by rewrite Hr, Hd.
  - destruct (process_urls_1127_count urls [] s)
      as (rows & evs & Hrows & Ht & Hlen).
    exists evs. split; [done|]. unfold V1127.process_urls.
    by rewrite Hrows.
Qed.

End RunFacts.

(** * The claims on concrete runs *)

(** The scenario text of C1 under the 2024-11-28 pattern: one match, and
    the chapter form is not among the citations. *)
Lemma C1_only_the_usc_form :
  @V1128.find_us_code_citations latin1
    (u "Pursuant to 7 U.S.C. 136 and chapter 5 of title 7, United States Code, the Secretary shall...")
  = [u "7 U.S.C. 136"]
  ∧ u "chapter 5 of title 7, United States Code"
    ∉ @V1128.find_us_code_citations latin1
        (u "Pursuant to 7 U.S.C. 136 and chapter 5 of title 7, United States Code, the Secretary shall...").
Proof.
  split; [by vm_compute|].
  intros Hin. vm_compute in Hin.
  apply list_elem_of_singleton in Hin. discriminate Hin.
Qed.

(** A title number of three digits under the 2024-11-28 pattern. *)
Lemma C4_three_digit_title_matched :
  @V1128.find_us_code_citations latin1 (u "123 U.S.C. 45")
  = [u "123 U.S.C. 45"].
Proof. by vm_compute. Qed.

(** A text of 50 characters that ends with the citation. *)
Lemma C3_at_the_end_of_the_text :
  let text := u "The payments are made by authority of 7 U.S.C. 136" in
  let m := Match 38 50 in
  m_start m ≤ m_end m ≤ length text
  ∧ ∃ before after,
      V1128.get_context text m = strip (before ++ group0 text m ++ after)
      ∧ before = drop (m_start m - 40) (take (m_start m) text)
      ∧ after = take 40 (drop (m_end m) text)
      ∧ length before = m_start m `min` 40
      ∧ length after = (length text - m_end m) `min` 40
      ∧ (m_end m = length text → after = [])
      ∧ (length text = 50 → m_end m = 50 → after = []).
Proof.
  cbn zeta. split; [vm_compute; lia|].
  apply C3_context_window. vm_compute. lia.
Defined.

(** The first abbreviated form on a title number of one digit, and the
    forms that take more on a title number of six. *)
Lemma C4_title_of_7_USC :
  let f := seq [V1127.title_number; In space; Str (u "U.S.C.")] in
  let k := λ b a : list N, Some (b, a) in
  let x := (reverse (u "7 U.S.C."), u " 136") in
  f ∈ V1127.abbreviated_forms
  ∧ @rmatch latin1 _ (Cat AtBoundary f) [] (u "7 U.S.C. 136") k = Some x
  ∧ (∃ ds w rest, u "7 U.S.C. 136" = ds ++ w :: rest
      ∧ 1 ≤ length ds ≤ 2
      ∧ forallb (@Py_UNICODE_ISDECIMAL latin1) ds = true
      ∧ Py_UNICODE_ISSPACE w = true
      ∧ @word_before latin1 [] = false)
  ∧ u "123456" ≠ [] ∧ ascii_digits (u "123456") = true
  ∧ (@V1127.find_us_code_citations latin1
       (u "chapter 5 of title 123456, United States Code") fresh).1
    = [u "chapter 5 of title 123456, United States Code"]
  ∧ (@V1127.find_us_code_citations latin1
       (u "2nd of title 123456, United States Code") fresh).1
    = [u "2nd of title 123456, United States Code"]
  ∧ @V1128.find_us_code_citations latin1 (u "123456 U.S.C. 45")
    = [u "123456 U.S.C. 45"].
Proof.
  cbn zeta.
  assert (Hf : seq [V1127.title_number; In space; Str (u "U.S.C.")]
               ∈ V1127.abbreviated_forms) by left.
  assert (Hm : @rmatch latin1 _
            (Cat AtBoundary (seq [V1127.title_number; In space; Str (u "U.S.C.")]))
            [] (u "7 U.S.C. 136") (λ b a : list N, Some (b, a))
          = Some (reverse (u "7 U.S.C."), u " 136")) by (by vm_compute).
  assert (Hne : u "123456" ≠ []) by done.
  assert (Hds : ascii_digits (u "123456") = true) by reflexivity.
  pose proof (@C4_title_number latin1 fresh) as (Hshort & _ & _ & _ & Hlong).
  destruct (Hlong (u "123456") Hne Hds) as (Hc & Ho & Hu).
  refine (conj Hf (conj Hm (conj _ (conj Hne (conj Hds (conj Hc (conj Ho Hu))))))).
  exact (Hshort _ Hf _ _ _ _ Hm).
Defined.

(** The same citation at two places whose surroundings differ: both rows
    carry the surroundings of the first. *)
Lemma C5_same_context_twice :
  let text :=
    u "In 7 U.S.C. 136 the Secretary is told to register each pesticide sold; see 7 U.S.C. 136 again." in
  let c := u "7 U.S.C. 136" in
  let first := u "In 7 U.S.C. 136 the Secretary is told to register each" in
  let row := [(u "url", CellStr ppd_url); (u "citation", CellStr c);
              (u "context", CellStr first)] in
  c ∈ @V1128.find_us_code_citations latin1 text
  ∧ @V1128.citation_rows latin1 ppd_url text
      (@V1128.find_us_code_citations latin1 text)
    = [row; row]
  ∧ ∃ ctx i,
      @V1128.citation_rows latin1 ppd_url text
        (@V1128.find_us_code_citations latin1 text)
      = (λ c, [(u "url", CellStr ppd_url); (u "citation", CellStr c);
               (u "context", CellStr (ctx c))])
          <$> @V1128.find_us_code_citations latin1 text
      ∧ first_occurrence c text i
      ∧ ctx c = V1128.get_context text (Match i (i + length c)).
Proof.
  cbn zeta.
  assert (Hc : u "7 U.S.C. 136" ∈ @V1128.find_us_code_citations latin1
    (u "In 7 U.S.C. 136 the Secretary is told to register each pesticide sold; see 7 U.S.C. 136 again.")).
  { vm_compute. left. }
  split_and!; [exact Hc|by vm_compute|].
  destruct (@C5_context_of_first_occurrence latin1 ppd_url
    (u "In 7 U.S.C. 136 the Secretary is told to register each pesticide sold; see 7 U.S.C. 136 again."))
    as (ctx & Hrows & Hctx).
  destruct (Hctx _ Hc) as (i & Hi & Hci).
  by exists ctx, i.
Defined.

(** A download that is not a PDF at all. *)
Lemma C7_not_a_pdf :
  let server := always (Reply 200 NotAPdf) in
  let d27 := @V1127.download_pdf server ppd_url (u "ppd.pdf") fresh in
  let d28 := @V1128.download_pdf server ppd_url (u "downloads/ppd.pdf") fresh in
  unopenable (files fresh !! u "ppd.pdf") = true
  ∧ d27.1 = true ∧ unopenable (files d27.2 !! u "ppd.pdf") = true
  ∧ d28.1 = Returns true
  ∧ unopenable (files d28.2 !! u "downloads/ppd.pdf") = true
  ∧ (V1127.extract_text_from_pdf (u "ppd.pdf") fresh).1 = []
  ∧ (V1128.extract_text_from_pdf (u "ppd.pdf") fresh).1 = []
  ∧ (@V1127.process_url latin1 server ppd_url [] fresh).1
    = [[(u "filename", CellStr (u "ppd.pdf")); (u "citations", CellList [])]]
  ∧ (@V1128.process_url latin1 server ppd_url [] fresh).1 = Returns [].
Proof.
  cbn zeta.
  pose proof (@C7_unreadable_document latin1 (always (Reply 200 NotAPdf))
    ppd_url [] [] fresh) as (Hx & H27 & H28). cbn zeta in Hx, H27, H28.
  assert (H0 : unopenable (files fresh !! u "ppd.pdf") = true)
    by (by vm_compute).
  assert (Hd27 : (@V1127.download_pdf (always (Reply 200 NotAPdf)) ppd_url
    (u "ppd.pdf") fresh).1 = true) by (by vm_compute).
  assert (Hp27 : unopenable (files (@V1127.download_pdf
    (always (Reply 200 NotAPdf)) ppd_url (u "ppd.pdf") fresh).2
    !! u "ppd.pdf") = true) by (by vm_compute).
  assert (Hd28 : (@V1128.download_pdf (always (Reply 200 NotAPdf)) ppd_url
    (u "downloads/ppd.pdf") fresh).1 = Returns true) by (by vm_compute).
  assert (Hp28 : unopenable (files (@V1128.download_pdf
    (always (Reply 200 NotAPdf)) ppd_url (u "downloads/ppd.pdf") fresh).2
    !! u "downloads/ppd.pdf") = true) by (by vm_compute).
  split_and!; [done..| | | |].
  - destruct (Hx (u "ppd.pdf") H0) as (-> & _). done.
  - destruct (Hx (u "ppd.pdf") H0) as (_ & ->). done.
  - destruct (H27 Hd27 Hp27) as (s' & -> & _). done.
  - destruct (H28 Hd28 Hp28) as (s' & -> & _). done.
Defined.

(** A server that answers 503 to every request. *)
Lemma C8_server_always_503 :
  let server := always (Reply 503 NotAPdf) in
  (∀ n : nat, ∃ body, server n ppd_url = Reply 503 body)
  ∧ (@V1127.download_pdf server ppd_url (u "ppd.pdf") fresh).1 = false
  ∧ (@V1128.download_pdf server ppd_url (u "downloads/ppd.pdf") fresh).1
    = Returns false
  ∧ (@V1127.process_url latin1 server ppd_url [] fresh).1 = []
  ∧ (@V1128.process_url latin1 server ppd_url [] fresh).1 = Returns []
  ∧ requests (@V1128.process_url latin1 server ppd_url [] fresh).2 = 6.
Proof.
  cbn zeta.
  pose proof (@C8_failed_download_is_skipped latin1
    (always (Reply 503 NotAPdf)) ppd_url [] [] fresh) as (H27 & H28 & H503).
  cbn zeta in H27, H28, H503.
  assert (Hsrv : ∀ n : nat, ∃ body,
            always (Reply 503 NotAPdf) n ppd_url = Reply 503 body)
    by (intros n; by exists NotAPdf).
  destruct (H503 Hsrv) as [Hd27 Hd28].
  split_and!; [exact Hsrv|exact Hd27|exact Hd28| | |by vm_compute].
  - destruct (H27 Hd27) as (evs & -> & _). done.
  - destruct (H28 Hd28) as (evs & -> & _). done.
Defined.

(** The file the 2024-11-27 script writes when nothing was downloaded. *)
Lemma C9_header_without_columns :
  let run := @V1127.main latin1 (always (Reply 503 NotAPdf)) [ppd_url] fresh in
  (@V1127.process_urls latin1 (always (Reply 503 NotAPdf)) [ppd_url] fresh).1
  = []
  ∧ files run.2 !! V1127.output_filename = Some (Csv [] [])
  ∧ files run.2 !! V1127.output_filename
    ≠ Some (Csv [u "filename"; u "citations"] []).
Proof.
  cbn zeta.
  assert (Hf : files (@V1127.main latin1 (always (Reply 503 NotAPdf))
                        [ppd_url] fresh).2 !! V1127.output_filename
               = Some (Csv [] [])) by (by vm_compute).
  split_and!; [by vm_compute|exact Hf|].
  rewrite Hf. discriminate.
Qed.

(** Both scripts at the end of a run without results. *)
Lemma C9_nothing_downloaded :
  let server := always (Reply 503 NotAPdf) in
  let timestamp := u "2024-11-28-0900" in
  let r28 := @V1128.collect latin1 server [ppd_url] fresh in
  let r27 := @V1127.process_urls latin1 server [ppd_url] fresh in
  r28.1 = Returns [] ∧ r27.1 = []
  ∧ @V1128.process_urls latin1 server timestamp [ppd_url] fresh
    = (Returns tt, after r28.2 [Log WARNING No_citations_found])
  ∧ files (@V1128.process_urls latin1 server timestamp [ppd_url] fresh).2 = ∅
  ∧ files (@V1127.main latin1 server [ppd_url] fresh).2
    = {[ V1127.output_filename := Csv [] [] ]}.
Proof.
  cbn zeta.
  pose proof (@C9_empty_results latin1 (always (Reply 503 NotAPdf))
    (u "2024-11-28-0900") [ppd_url] fresh) as (H28 & H27).
  cbn zeta in H28, H27.
  assert (Hr28 : (@V1128.collect latin1 (always (Reply 503 NotAPdf))
                    [ppd_url] fresh).1 = Returns []) by (by vm_compute).
  assert (Hr27 : (@V1127.process_urls latin1 (always (Reply 503 NotAPdf))
                    [ppd_url] fresh).1 = []) by (by vm_compute).
  split_and!; [exact Hr28|exact Hr27|exact (H28 Hr28)| |].
  - rewrite (H28 Hr28). by vm_compute.
  - rewrite (H27 Hr27). by vm_compute.
Defined.

(** With a record the header has the two column names. *)
Lemma header_from_records :
  to_csv [V1127.result_row (u "ppd.pdf") [u "7 U.S.C. 136"]]
  = Csv [u "filename"; u "citations"]
      [[Some (CellStr (u "ppd.pdf")); Some (CellList [u "7 U.S.C. 136"])]].
Proof. by vm_compute. Qed.

(** A document without citations still gets its row. *)
Lemma C10_row_without_citations :
  let server := always (Reply 200 (Pdf [PageText (u "No citation here.")])) in
  (@V1127.download_pdf server ppd_url (u "ppd.pdf") fresh).1 = true
  ∧ (@V1127.process_url latin1 server ppd_url [] fresh).1
    = [[(u "filename", CellStr (u "ppd.pdf")); (u "citations", CellList [])]]
  ∧ length (@V1127.process_urls latin1 server [ppd_url; ppd_url] fresh).1 = 2.
Proof.
  cbn zeta.
  pose proof (@C10_one_row_per_download latin1
    (always (Reply 200 (Pdf [PageText (u "No citation here.")])))
    ppd_url [ppd_url; ppd_url] [] fresh) as (Hok & _ & _).
  cbn zeta in Hok.
  assert (Hd : (@V1127.download_pdf
    (always (Reply 200 (Pdf [PageText (u "No citation here.")])))
    ppd_url (u "ppd.pdf") fresh).1 = true) by (by vm_compute).
  split_and!; [exact Hd| |by vm_compute].
  rewrite (Hok Hd). by vm_compute.
Defined.

(** * Further properties of the download *)

Section Download.
Context `{UnicodeData}.
Variable server : nat → list N → reply.

Ltac run_m :=
  repeat first
    [ rewrite bind_run
    | progress cbn [logging sleep emit mret M_ret open_file write_file
                    fst snd requests files trace after] ].

Lemma is_retry_not total resp :
  is_retry 1 resp = false → is_retry total resp = false.
Proof.
  destruct total as [|total]; [|exact id].
  destruct (is_retry 0 resp) eqn:H0; [|done].
  apply is_retry_0 in H0. congruence.
Qed.

Lemma redirect_status resp target :
  get_redirect_target resp = Some target →
  status_code resp ∈ REDIRECT_STATI.
Proof.
  unfold get_redirect_target. destruct (location resp) as [[|c l]|]; [done| |done].
  case_bool_decide; done.
Qed.

(** An error status is no redirect. *)
Lemma error_no_redirect resp :
  400 ≤ status_code resp → get_redirect_target resp = None.
Proof.
  intros Hst. destruct (get_redirect_target resp) as [target|] eqn:Ht; [|done].
  apply redirect_status in Ht. unfold REDIRECT_STATI in Ht.
  repeat (apply elem_of_cons in Ht as [Ht|Ht]; [lia|]).
  by apply elem_of_nil in Ht.
Qed.

(** Without redirects [session.get] is one [HTTPAdapter.send]. *)
Lemma session_get_direct url s :
  (∀ n u, redirect_target (server n u) = None) →
  session_get server url s = adapter_send server 5 url s.
Proof.
  intros Hno. unfold session_get. apply resolve_redirects_first.
  destruct (adapter_send_spec server 5 url s) as (n & _ & _ & _ & Hlast).
  destruct (adapter_send server 5 url s).1 as [e|resp]; [done|].
  destruct Hlast as [Hr _]. specialize (Hno (requests s + n) url).
  unfold redirect_target in Hno. by rewrite Hr in Hno.
Qed.

(** The [try] body when the first hop settles: retryable replies, then
    within the budget a response that is neither retried nor a redirect. *)
Lemma fetch_settled url path s k resp :
  k ≤ 5 →
  (∀ i, i < k → retryable (server (requests s + i) url) = true) →
  received (server (requests s + k) url) = Some resp →
  is_retry (5 - k) resp = false →
  get_redirect_target resp = None →
  let e := match raise_for_status (status_code resp) with
           | Some e => Some e
           | None => open_error path
           end in
  fetch server url path s
  = (e, State (requests s + S k)
          (match e with
           | None => <[path := Downloaded (resp_content resp)]> (files s)
           | Some _ => files s
           end)
          (trace s ++ fetch_events url path k (bool_decide (e = None)))).
Proof.
  intros Hk Hbefore Hr Hno Hnr. cbn zeta. rewrite fetch_eq. cbn zeta.
  unfold session_get.
  assert (Ha : adapter_send server 5 url (after s [Log INFO (Attempting url)])
    = (inr resp, State (requests s + S k) (files s)
         ((trace s ++ [Log INFO (Attempting url)])
            ++ replicate (S k) (HttpGet url)))).
  { by apply (adapter_send_settled server 5 url resp k
                (after s [Log INFO (Attempting url)])). }
  rewrite resolve_redirects_first by (by rewrite Ha).
  rewrite Ha. cbn [fst snd requests files trace]. unfold fetch_events.
  destruct (raise_for_status (status_code resp)) as [e|].
  - rewrite bool_decide_false by done. by rewrite app_nil_r, <-app_assoc.
  - destruct (open_error path) as [e|].
    + rewrite bool_decide_false by done. by rewrite app_nil_r, <-app_assoc.
    + rewrite bool_decide_true by done. by rewrite <-!app_assoc.
Qed.

(** The [try] body when the replies are retryable as long as the budget
    lasts. *)
Lemma fetch_exhausted url path s :
  (∀ i, i ≤ 5 → retryable (server (requests s + i) url) = true) →
  ∃ e, is_request_exception e = true
    ∧ fetch server url path s
      = (Some e, State (requests s + 6) (files s)
                   (trace s ++ fetch_events url path 5 false)).
Proof.
  intros Hall. rewrite fetch_eq. cbn zeta. unfold session_get.
  destruct (adapter_send_exhausted server 5 url
              (after s [Log INFO (Attempting url)]) Hall) as [Hs Hres].
  cbn [after requests files trace] in Hs.
  assert (Hfirst : resolve_redirects server DEFAULT_REDIRECT_LIMIT url
                     (after s [Log INFO (Attempting url)])
                   = adapter_send server 5 url
                       (after s [Log INFO (Attempting url)])).
  { apply resolve_redirects_first.
    destruct (adapter_send server 5 url _).1 as [e|resp]; [done|].
    apply error_no_redirect. lia. }
  rewrite Hfirst.
  destruct (adapter_send server 5 url _) as [[e|resp] s1];
    cbn [fst snd] in *; subst s1; unfold fetch_events;
    rewrite app_nil_r, <-app_assoc.
  - exists e. split; [|done]. by destruct Hres as [-> | ->].
  - exists (HTTPError 413). split; [done|].
    unfold raise_for_status. rewrite Hres. done.
Qed.

(** What each [download_pdf] adds to its [try] body: the verdict, and on
    an error the message, in the 2024-11-27 script with a pause of ten
    seconds after a timeout or a refused connection. *)
Lemma download_1127_fetch url path s :
  let f := fetch server url path s in
  let d := V1127.download_pdf server url path s in
  d.1 = bool_decide (f.1 = None)
  ∧ requests d.2 = requests f.2 ∧ files d.2 = files f.2
  ∧ ∃ evs, trace d.2 = trace f.2 ++ evs ∧ pauses evs = 0
           ∧ downloads_logged evs = 0
           ∧ match f.1 with None => evs = [] | Some _ => evs ≠ [] end.
Proof.
  cbn zeta. unfold V1127.download_pdf. run_m.
  destruct (fetch server url path s) as [[e|] s1]; cbn [fst snd].
  - destruct e; run_m; rewrite <-?app_assoc;
      (split_and!; [done..|]); eexists; by split_and!.
  - run_m. split_and!; [done..|]. exists []. by rewrite app_nil_r.
Qed.

(** In the 2024-11-28 script an exception of [open] leaves the function
    and nothing is logged. *)
Lemma download_1128_fetch url path s :
  let f := fetch server url path s in
  let d := V1128.download_pdf server url path s in
  d.1 = match f.1 with
        | None => Returns true
        | Some e => if is_request_exception e then Returns false else Raises e
        end
  ∧ requests d.2 = requests f.2 ∧ files d.2 = files f.2
  ∧ ∃ evs, trace d.2 = trace f.2 ++ evs ∧ pauses evs = 0
           ∧ downloads_logged evs = 0.
Proof.
  cbn zeta. unfold V1128.download_pdf. run_m.
  destruct (fetch server url path s) as [[e|] s1]; cbn [fst snd].
  - destruct (is_request_exception e); run_m; (split_and!; [done..|]).
    + exists [Log ERROR (Error_downloading url e)]. by split_and!.
    + exists []. by rewrite app_nil_r.
  - run_m. split_and!; [done..|]. exists []. by rewrite app_nil_r.
Qed.

(** X1. A call of [download_pdf] sends at least one request.  Every hop
    of the session takes at most six, the first attempt and five
    retries, and the session follows at most thirty redirects, so that
    the call sends at most 186 requests; when no reply is a redirect it
    sends at most six. *)
Theorem X1_download_request_budget (url path : list N) (s : state) :
  let d27 := V1127.download_pdf server url path s in
  let d28 := V1128.download_pdf server url path s in
  (requests s < requests d27.2 ∧ requests d27.2 ≤ requests s + 186)
  ∧ (requests s < requests d28.2 ∧ requests d28.2 ≤ requests s + 186)
  ∧ ((∀ n u, redirect_target (server n u) = None) →
     requests d27.2 ≤ requests s + 6 ∧ requests d28.2 ≤ requests s + 6).
Proof.
  cbn zeta.
  destruct (download_1127_fetch url path s) as (_ & Hr27 & _).
  destruct (download_1128_fetch url path s) as (_ & Hr28 & _).
  cbn zeta in Hr27, Hr28. rewrite Hr27, Hr28.
  destruct (fetch_spec server url path s) as (evs & _ & Hlen & Hreq & _).
  change request_limit with 186 in Hlen.
  split_and!; [lia..|].
  intros Hno. rewrite fetch_eq. cbn zeta. rewrite session_get_direct by done.
  destruct (adapter_send_spec server 5 url
              (after s [Log INFO (Attempting url)])) as (n & Hn & Hs & _).
  cbn [after requests files trace] in Hs.
  destruct (adapter_send server 5 url _) as [[e|resp] s1];
    cbn [fst snd] in *; subst s1.
  - cbn [requests]. lia.
  - destruct (raise_for_status _); [cbn [snd requests]; lia|].
    destruct (open_error path); cbn [snd requests]; lia.
Qed.

(** X2. [download_pdf] returns [True] exactly when it has written the
    file: then the name could be opened, and the file holds the content
    of the response to the last request of the call, a response whose
    status [raise_for_status] accepts; whatever was at that path before
    is replaced and the other files are as they were.  When it returns
    [False], or when in the 2024-11-28 script the exception of [open]
    leaves it, no file has changed. *)
Theorem X2_download_writes_on_success_only (url path : list N) (s : state) :
  let d27 := V1127.download_pdf server url path s in
  let d28 := V1128.download_pdf server url path s in
  (if d27.1
   then open_error path = None
        ∧ ∃ n u resp,
            requests d27.2 = requests s + S n
            ∧ received (server (requests s + n) u) = Some resp
            ∧ raise_for_status (status_code resp) = None
            ∧ files d27.2
              = <[path := Downloaded (resp_content resp)]> (files s)
   else files d27.2 = files s)
  ∧ match d28.1 with
    | Returns true =>
        open_error path = None
        ∧ ∃ n u resp,
            requests d28.2 = requests s + S n
            ∧ received (server (requests s + n) u) = Some resp
            ∧ raise_for_status (status_code resp) = None
            ∧ files d28.2
              = <[path := Downloaded (resp_content resp)]> (files s)
    | Returns false => files d28.2 = files s
    | Raises e => files d28.2 = files s ∧ open_error path = Some e
    end.
Proof.
  cbn zeta.
  destruct (download_1127_fetch url path s) as (Hd27 & Hr27 & Hf27 & _).
  destruct (download_1128_fetch url path s) as (Hd28 & Hr28 & Hf28 & _).
  cbn zeta in Hd27, Hr27, Hf27, Hd28, Hr28, Hf28.
  rewrite Hd27, Hr27, Hf27, Hd28, Hr28, Hf28.
  destruct (fetch_spec server url path s) as (evs & _ & _ & Hreq & Hres).
  destruct (fetch server url path s) as [[e|] s']; cbn [fst snd] in *.
  - rewrite bool_decide_false by done. destruct Hres as (Hf & _ & He).
    split; [done|].
    destruct (is_request_exception e) eqn:Hq; [done|]. auto.
  - rewrite bool_decide_true by done.
    destruct Hres as (Ho & (n & u0 & resp & Hn & Hr & _ & Hst & Hf) & _).
    split; (split; [done|]; exists n, u0, resp; split_and!; [lia|done..]).
Qed.

(** X3. A response with an error status that the adapter does not retry
    (a 404, say, or a 413 without [Retry-After] header) ends the call:
    one request, [False], no file written. *)
Theorem X3_download_client_error_not_retried
    (url path : list N) (s : state) (resp : response) :
  received (server (requests s) url) = Some resp →
  retryable (server (requests s) url) = false →
  400 ≤ status_code resp < 600 →
  let d27 := V1127.download_pdf server url path s in
  let d28 := V1128.download_pdf server url path s in
  (d27.1 = false ∧ requests d27.2 = requests s + 1 ∧ files d27.2 = files s)
  ∧ (d28.1 = Returns false ∧ requests d28.2 = requests s + 1
     ∧ files d28.2 = files s).
Proof.
  intros Hr Hno Hst. cbn zeta.
  destruct (download_1127_fetch url path s) as (Hd27 & Hr27 & Hf27 & _).
  destruct (download_1128_fetch url path s) as (Hd28 & Hr28 & Hf28 & _).
  cbn zeta in *. rewrite Hd27, Hr27, Hf27, Hd28, Hr28, Hf28.
  assert (Hraise : raise_for_status (status_code resp)
                   = Some (HTTPError (status_code resp))).
  { unfold raise_for_status.
    destruct (Nat.leb_spec 400 (status_code resp)); [|lia].
    destruct (Nat.ltb_spec (status_code resp) 600); [done|lia]. }
  unfold retryable in Hno. rewrite Hr in Hno.
  pose proof (fetch_settled url path s 0 resp) as Hf. cbn zeta in Hf.
  rewrite Hraise in Hf. rewrite Hf;
    [|lia|intros; lia|by rewrite Nat.add_0_r|by apply is_retry_not
     |apply error_no_redirect; lia].
  cbn [fst snd requests files is_request_exception].
  by rewrite bool_decide_false.
Qed.

(** X4. Retryable replies followed, within the budget, by a response with
    a good status that is no redirect: when the name can be opened,
    [download_pdf] returns [True] after exactly those requests and the
    file holds the content of the last response. *)
Theorem X4_download_recovers
    (url path : list N) (s : state) (k : nat) (resp : response) :
  k ≤ 5 →
  (∀ i, i < k → retryable (server (requests s + i) url) = true) →
  received (server (requests s + k) url) = Some resp →
  retryable (server (requests s + k) url) = false →
  status_code resp < 400 → get_redirect_target resp = None →
  open_error path = None →
  let d27 := V1127.download_pdf server url path s in
  let d28 := V1128.download_pdf server url path s in
  (d27.1 = true ∧ requests d27.2 = requests s + S k
   ∧ files d27.2 = <[path := Downloaded (resp_content resp)]> (files s))
  ∧ (d28.1 = Returns true ∧ requests d28.2 = requests s + S k
     ∧ files d28.2 = <[path := Downloaded (resp_content resp)]> (files s)).
Proof.
  intros Hk Hbefore Hr Hno Hst Hnr Ho. cbn zeta.
  destruct (download_1127_fetch url path s) as (Hd27 & Hr27 & Hf27 & _).
  destruct (download_1128_fetch url path s) as (Hd28 & Hr28 & Hf28 & _).
  cbn zeta in *. rewrite Hd27, Hr27, Hf27, Hd28, Hr28, Hf28.
  assert (Hraise : raise_for_status (status_code resp) = None).
  { unfold raise_for_status.
    destruct (Nat.leb_spec 400 (status_code resp)); [lia|done]. }
  unfold retryable in Hno. rewrite Hr in Hno.
  pose proof (fetch_settled url path s k resp) as Hf. cbn zeta in Hf.
  rewrite Hraise, Ho in Hf.
  rewrite Hf; [|done|done|done|by apply is_retry_not|done].
  cbn [fst snd requests files]. by rewrite bool_decide_true.
Qed.

(** X5. Six retryable replies in a row, of whatever kind (a status of the
    retry list, a 413, 429 or 503 with a [Retry-After] header, a refused
    connection, a timeout): [download_pdf] gives up after exactly six
    requests, returns [False] and writes nothing. *)
Theorem X5_download_gives_up (url path : list N) (s : state) :
  (∀ i, i ≤ 5 → retryable (server (requests s + i) url) = true) →
  let d27 := V1127.download_pdf server url path s in
  let d28 := V1128.download_pdf server url path s in
  (d27.1 = false ∧ requests d27.2 = requests s + 6 ∧ files d27.2 = files s)
  ∧ (d28.1 = Returns false ∧ requests d28.2 = requests s + 6
     ∧ files d28.2 = files s).
Proof.
  intros Hall. cbn zeta.
  destruct (download_1127_fetch url path s) as (Hd27 & Hr27 & Hf27 & _).
  destruct (download_1128_fetch url path s) as (Hd28 & Hr28 & Hf28 & _).
  cbn zeta in *. rewrite Hd27, Hr27, Hf27, Hd28, Hr28, Hf28.
  destruct (fetch_exhausted url path s Hall) as (e & He & ->).
  cbn [fst snd requests files]. rewrite He. by rewrite bool_decide_false.
Qed.

(** The [try] body when the first response is a redirect and the
    response of its target is not. *)
Lemma fetch_redirected url target path s r0 resp :
  received (server (requests s) url) = Some r0 →
  retryable (server (requests s) url) = false →
  get_redirect_target r0 = Some target →
  received (server (requests s + 1) target) = Some resp →
  retryable (server (requests s + 1) target) = false →
  get_redirect_target resp = None →
  status_code resp < 400 → open_error path = None →
  fetch server url path s
  = (None, State (requests s + 2)
             (<[path := Downloaded (resp_content resp)]> (files s))
             (trace s ++ [Log INFO (Attempting url); HttpGet url;
                          HttpGet target; FileWrite path;
                          Log INFO (Successfully_downloaded url)])).
Proof.
  intros Hr0 Hno0 Ht Hr Hno Hnr Hst Ho.
  unfold retryable in Hno0, Hno. rewrite Hr0 in Hno0. rewrite Hr in Hno.
  rewrite fetch_eq. cbn zeta. unfold session_get.
  change DEFAULT_REDIRECT_LIMIT with (S 29).
  rewrite resolve_redirects_eq. cbn zeta.
  rewrite (adapter_send_settled server 5 url r0 0);
    [|lia|intros; lia|by rewrite Nat.add_0_r|by apply is_retry_not].
  cbn [fst snd after requests files trace]. rewrite Ht.
  assert (Ha : adapter_send server 5 target
      (State (requests s + 1) (files s)
         ((trace s ++ [Log INFO (Attempting url)])
            ++ replicate 1 (HttpGet url)))
    = (inr resp, State (requests s + 1 + 1) (files s)
         (((trace s ++ [Log INFO (Attempting url)])
             ++ replicate 1 (HttpGet url)) ++ replicate 1 (HttpGet target)))).
  { apply (adapter_send_settled server 5 target resp 0);
      cbn [requests]; [lia|intros; lia|by rewrite Nat.add_0_r
                      |by apply is_retry_not]. }
  rewrite resolve_redirects_first by (by rewrite Ha).
  rewrite Ha. cbn [fst snd requests files trace].
  assert (raise_for_status (status_code resp) = None) as ->.
  { unfold raise_for_status.
    destruct (Nat.leb_spec 400 (status_code resp)); [lia|done]. }
  rewrite Ho. f_equal. f_equal; [lia|]. cbn [replicate].
  by rewrite <-!app_assoc.
Qed.

(** X24. A redirect is followed: when the first response is a redirect
    and the response of its target has a good status and is no redirect,
    [download_pdf] returns [True] after the two requests, and the file
    holds the content of the second response; the messages name the URL
    the script asked for. *)
Theorem X24_redirect_is_followed
    (url target path : list N) (s : state) (r0 resp : response) :
  received (server (requests s) url) = Some r0 →
  retryable (server (requests s) url) = false →
  get_redirect_target r0 = Some target →
  received (server (requests s + 1) target) = Some resp →
  retryable (server (requests s + 1) target) = false →
  get_redirect_target resp = None →
  status_code resp < 400 → open_error path = None →
  let s' := State (requests s + 2)
              (<[path := Downloaded (resp_content resp)]> (files s))
              (trace s ++ [Log INFO (Attempting url); HttpGet url;
                           HttpGet target; FileWrite path;
                           Log INFO (Successfully_downloaded url)]) in
  V1127.download_pdf server url path s = (true, s')
  ∧ V1128.download_pdf server url path s = (Returns true, s').
Proof.
  intros Hr0 Hno0 Ht Hr Hno Hnr Hst Ho. cbn zeta.
  pose proof (fetch_redirected url target path s r0 resp
                Hr0 Hno0 Ht Hr Hno Hnr Hst Ho) as Hf.
  unfold V1127.download_pdf, V1128.download_pdf. rewrite !bind_run, Hf.
  done.
Qed.

End Download.

(** * Further properties of the extraction and of the loops *)

Section Loop.
Context `{UnicodeData}.
Variable server : nat → list N → reply.

Ltac run_m :=
  repeat first
    [ rewrite bind_run
    | progress cbn [logging sleep emit mret M_ret open_file write_file
                    fst snd requests files trace after] ].

Lemma read_pages_texts texts : ∀ acc,
  V1127.read_pages (PageText <$> texts) acc = (acc ++ concat texts, true).
Proof.
  induction texts as [|t texts IH]; intros acc; cbn.
  - by rewrite app_nil_r.
  - by rewrite IH, <-app_assoc.
Qed.

Lemma read_pages_until_error texts rest : ∀ acc,
  V1127.read_pages ((PageText <$> texts) ++ PageError :: rest) acc
  = (acc ++ concat texts, false).
Proof.
  induction texts as [|t texts IH]; intros acc; cbn.
  - by rewrite app_nil_r.
  - by rewrite IH, <-app_assoc.
Qed.

Lemma page_texts_texts texts :
  V1128.page_texts (PageText <$> texts) = Some (filter (λ t, t ≠ []) texts).
Proof.
  induction texts as [|t texts IH]; [done|]. cbn. rewrite IH. cbn.
  destruct t as [|c t]; case_decide; first [done | congruence].
Qed.

Lemma page_texts_error texts rest :
  V1128.page_texts ((PageText <$> texts) ++ PageError :: rest) = None.
Proof. induction texts as [|t texts IH]; [done|]. cbn. by rewrite IH. Qed.

Lemma extract_1128_run path s :
  V1128.extract_text_from_pdf path s
  = (default [] (joined_text (files s !! path)),
     after s (FileOpen path ::
              match joined_text (files s !! path) with
              | Some _ => []
              | None => [Log ERROR (Error_extracting path)]
              end)).
Proof.
  unfold V1128.extract_text_from_pdf. run_m. unfold joined_text.
  destruct (files s !! path) as [[[|pages]|cols body]|].
  2:{ destruct (V1128.page_texts pages) as [texts|]; run_m; [done|].
      by rewrite <-app_assoc. }
  all: run_m; by rewrite <-app_assoc.
Qed.

(** One turn of the 2024-11-28 loop. *)
Lemma process_url_1128_run url results s :
  let filepath := u "downloads/" ++ last_segment url in
  let d := V1128.download_pdf server url filepath s in
  let x := V1128.extract_text_from_pdf filepath
             (after d.2 [Log INFO (Processing_file filepath)]) in
  V1128.process_url server url results s
  = match d.1 with
    | Returns true =>
        (Returns
           (results ++
              match x.1 with
              | [] => []
              | _ :: _ =>
                  V1128.citation_rows url (V1128.normalize_text x.1)
                    (V1128.find_us_code_citations (V1128.normalize_text x.1))
              end),
         after x.2 [Sleep (Uniform 2 5)])
    | Returns false => (Returns results, after d.2 [Sleep (Uniform 2 5)])
    | Raises e => (Raises e, d.2)
    end.
Proof.
  cbn zeta. unfold V1128.process_url. rewrite bind_run.
  destruct (V1128.download_pdf server url _ s) as [[[]|e] s1]; cbn [fst snd];
    [|by run_m|done].
  run_m.
  destruct (V1128.extract_text_from_pdf _ _) as [[|c text] s2]; run_m;
    [by rewrite app_nil_r|done].
Qed.

Lemma pauses_app evs1 evs2 : pauses (evs1 ++ evs2) = pauses evs1 + pauses evs2.
Proof.
  induction evs1 as [|e evs1 IH]; [done|].
  destruct e as [| | | |[|[|[|[|]]] [|[|[|[|[|[|]]]]]]]]; cbn; by rewrite ?IH.
Qed.

Lemma requests_only_pauses evs : requests_only evs → pauses evs = 0.
Proof. induction 1 as [|e evs [url ->] _ IH]; [done|exact IH]. Qed.

(** The part of a turn that is the download: some requests, no pause
    between documents. *)
Lemma fetch_turn b url path s :
  request_budget server b →
  ∃ evs, trace (fetch server url path s).2 = trace s ++ evs ∧ pauses evs = 0
    ∧ requests s < requests (fetch server url path s).2
    ∧ requests (fetch server url path s).2 ≤ requests s + b.
Proof.
  intros Hb.
  assert (Hhi : requests (fetch server url path s).2 ≤ requests s + b).
  { destruct Hb as [->|[-> Hno]].
    - destruct (fetch_spec server url path s) as (evs & _ & Hlen & -> & _).
      lia.
    - rewrite fetch_eq. cbn zeta. rewrite session_get_direct by done.
      destruct (adapter_send_spec server 5 url
                  (after s [Log INFO (Attempting url)])) as (n & Hn & Hs & _).
      cbn [after requests files trace] in Hs.
      destruct (adapter_send server 5 url _) as [[e|resp] s1];
        cbn [fst snd] in *; subst s1; [cbn [requests]; lia|].
      destruct (raise_for_status _); [cbn [snd requests]; lia|].
      destruct (open_error path); cbn [snd requests]; lia. }
  destruct (fetch_spec server url path s) as (evs & Hev & Hlen & Hreq & Hres).
  destruct (fetch server url path s) as [[e|] s']; cbn [fst snd] in *.
  - destruct Hres as (_ & -> & _). eexists.
    split_and!; [done| |lia|done].
    cbn [pauses]. by apply requests_only_pauses.
  - destruct Hres as (_ & _ & ->). eexists.
    split_and!; [done| |lia|done].
    cbn [pauses]. rewrite pauses_app. by rewrite requests_only_pauses.
Qed.

Lemma process_url_1127_turn b url acc s :
  request_budget server b →
  ∃ evs, trace (V1127.process_url server url acc s).2 = trace s ++ evs
    ∧ pauses evs = 1
    ∧ requests s < requests (V1127.process_url server url acc s).2
    ∧ requests (V1127.process_url server url acc s).2 ≤ requests s + b.
Proof.
  intros Hb.
  pose proof (process_url_1127_run server url acc s) as Hrun.
  cbn zeta in Hrun. rewrite Hrun. clear Hrun.
  destruct (download_1127_fetch server url (last_segment url) s)
    as (_ & Hr & _ & evs2 & Ht & Hp & _).
  destruct (fetch_turn b url (last_segment url) s Hb)
    as (evs1 & Ht1 & Hp1 & Hlo & Hhi).
  cbn zeta in Hr, Ht. rewrite Ht1 in Ht. rewrite <-Hr in Hlo, Hhi.
  destruct (V1127.download_pdf server url (last_segment url) s) as [[] s1];
    cbn [fst snd after trace requests] in *; rewrite Ht.
  - eexists (evs1 ++ evs2 ++ _). rewrite <-!app_assoc.
    split_and!; [reflexivity| |done..].
    rewrite !pauses_app, Hp1, Hp. by destruct (parses _).
  - exists (evs1 ++ evs2 ++ [Sleep (Uniform 2 5)]). rewrite <-!app_assoc.
    split_and!; [done| |done..].
    by rewrite !pauses_app, Hp1, Hp.
Qed.

(** A turn of the 2024-11-28 loop ends with the pause unless an
    exception leaves it. *)
Lemma process_url_1128_turn b url acc s :
  request_budget server b →
  ∃ evs, trace (V1128.process_url server url acc s).2 = trace s ++ evs
    ∧ pauses evs = match (V1128.process_url server url acc s).1 with
                   | Returns _ => 1
                   | Raises _ => 0
                   end
    ∧ requests s < requests (V1128.process_url server url acc s).2
    ∧ requests (V1128.process_url server url acc s).2 ≤ requests s + b.
Proof.
  intros Hb.
  pose proof (process_url_1128_run url acc s) as Hrun.
  cbn zeta in Hrun. rewrite Hrun. clear Hrun.
  rewrite extract_1128_run.
  destruct (download_1128_fetch server url (u "downloads/" ++ last_segment url) s)
    as (_ & Hr & _ & evs2 & Ht & Hp & _).
  destruct (fetch_turn b url (u "downloads/" ++ last_segment url) s Hb)
    as (evs1 & Ht1 & Hp1 & Hlo & Hhi).
  cbn zeta in Hr, Ht. rewrite Ht1 in Ht. rewrite <-Hr in Hlo, Hhi.
  destruct (V1128.download_pdf server url _ s) as [[[]|e] s1];
    cbn [fst snd after trace requests files] in *; rewrite Ht.
  - eexists (evs1 ++ evs2 ++ _). rewrite <-!app_assoc.
    split_and!; [reflexivity| |done..].
    rewrite !pauses_app, Hp1, Hp. by destruct (joined_text _).
  - exists (evs1 ++ evs2 ++ [Sleep (Uniform 2 5)]). rewrite <-!app_assoc.
    split_and!; [done| |done..].
    by rewrite !pauses_app, Hp1, Hp.
  - exists (evs1 ++ evs2). rewrite <-!app_assoc.
    split_and!; [done| |done..].
    by rewrite !pauses_app, Hp1, Hp.
Qed.

Lemma for_each_turns {X} b (body : X → list row → M (list row)) :
  (∀ x acc s, ∃ evs, trace (body x acc s).2 = trace s ++ evs
     ∧ pauses evs = 1
     ∧ requests s < requests (body x acc s).2
     ∧ requests (body x acc s).2 ≤ requests s + b) →
  ∀ xs acc s,
    ∃ evs, trace (for_each xs body acc s).2 = trace s ++ evs
      ∧ pauses evs = length xs
      ∧ requests s + length xs ≤ requests (for_each xs body acc s).2
      ∧ requests (for_each xs body acc s).2 ≤ requests s + b * length xs.
Proof.
  intros Hbody. induction xs as [|x xs IH]; intros acc s.
  - exists []. cbn. rewrite app_nil_r. split_and!; [done..|lia|lia].
  - rewrite for_each_cons.
    destruct (Hbody x acc s) as (evs1 & Ht1 & Hp1 & Hlo1 & Hhi1).
    destruct (IH (body x acc s).1 (body x acc s).2)
      as (evs2 & Ht2 & Hp2 & Hlo2 & Hhi2).
    exists (evs1 ++ evs2). cbn [length].
    split_and!; [by rewrite Ht2, Ht1, app_assoc
                |rewrite pauses_app; lia|lia..].
Qed.

(** The loop that an exception can end: a pause for every URL when it
    returns, for fewer when it does not. *)
Lemma for_each_try_turns {X} b
    (body : X → list row → M (outcome (list row))) :
  (∀ x acc s, ∃ evs, trace (body x acc s).2 = trace s ++ evs
     ∧ pauses evs = match (body x acc s).1 with
                    | Returns _ => 1
                    | Raises _ => 0
                    end
     ∧ requests s < requests (body x acc s).2
     ∧ requests (body x acc s).2 ≤ requests s + b) →
  ∀ xs acc s,
    ∃ evs, trace (for_each_try xs body acc s).2 = trace s ++ evs
      ∧ requests (for_each_try xs body acc s).2 ≤ requests s + b * length xs
      ∧ match (for_each_try xs body acc s).1 with
        | Returns _ =>
            pauses evs = length xs
            ∧ requests s + length xs
              ≤ requests (for_each_try xs body acc s).2
        | Raises _ => pauses evs < length xs
        end.
Proof.
  intros Hbody. induction xs as [|x xs IH]; intros acc s.
  - exists []. cbn. rewrite app_nil_r. split_and!; [done|lia|done|lia].
  - rewrite for_each_try_cons.
    destruct (Hbody x acc s) as (evs1 & Ht1 & Hp1 & Hlo1 & Hhi1).
    destruct (body x acc s) as [[acc'|e] s1]; cbn [fst snd] in *.
    + destruct (IH acc' s1) as (evs2 & Ht2 & Hhi2 & Hres).
      exists (evs1 ++ evs2). cbn [length].
      split_and!; [by rewrite Ht2, Ht1, app_assoc|lia|].
      rewrite pauses_app.
      destruct (for_each_try xs body acc' s1).1; [|lia].
      destruct Hres. split; lia.
    + exists evs1. cbn [length fst snd]. split_and!; [done|lia|lia].
Qed.

Lemma for_each_append {X} (body : X → list row → M (list row)) :
  (∀ x acc s, body x acc s = (acc ++ (body x [] s).1, (body x [] s).2)) →
  ∀ xs acc s,
    for_each xs body acc s
    = (acc ++ (for_each xs body [] s).1, (for_each xs body [] s).2).
Proof.
  intros Hbody. induction xs as [|x xs IH]; intros acc s.
  - cbn. by rewrite app_nil_r.
  - rewrite !for_each_cons, (Hbody x acc s). cbn [fst snd].
    rewrite (IH (acc ++ (body x [] s).1) (body x [] s).2).
    rewrite (IH (body x [] s).1 (body x [] s).2). cbn [fst snd].
    by rewrite <-app_assoc.
Qed.

Lemma prepend_prepend acc rows r :
  prepend (acc ++ rows) r = prepend acc (prepend rows r).
Proof. destruct r; cbn; by rewrite <-?app_assoc. Qed.

Lemma for_each_try_append {X}
    (body : X → list row → M (outcome (list row))) :
  (∀ x acc s, body x acc s = (prepend acc (body x [] s).1, (body x [] s).2)) →
  ∀ xs acc s,
    for_each_try xs body acc s
    = (prepend acc (for_each_try xs body [] s).1,
       (for_each_try xs body [] s).2).
Proof.
  intros Hbody. induction xs as [|x xs IH]; intros acc s.
  - cbn. by rewrite app_nil_r.
  - rewrite !for_each_try_cons, (Hbody x acc s). cbn [fst snd].
    destruct (body x [] s) as [[rows|e] s1]; cbn [fst snd prepend]; [|done].
    rewrite (IH (acc ++ rows) s1), (IH rows s1). cbn [fst snd].
    by rewrite prepend_prepend.
Qed.

(** X6. The result list only grows: a run of either loop that starts
    with results already gathered returns them followed by what the run
    from an empty list returns, and leaves the same state; a run of the
    2024-11-28 loop that an exception ends is ended by it all the
    same. *)
Theorem X6_results_append_only
    (urls : list (list N)) (acc : list row) (s : state) :
  for_each urls (V1127.process_url server) acc s
  = (acc ++ (V1127.process_urls server urls s).1,
     (V1127.process_urls server urls s).2)
  ∧ for_each_try urls (V1128.process_url server) acc s
    = (match (V1128.collect server urls s).1 with
       | Returns rows => Returns (acc ++ rows)
       | Raises e => Raises e
       end,
       (V1128.collect server urls s).2).
Proof.
  split.
  - apply for_each_append. intros url a st.
    pose proof (process_url_1127_run server url a st) as Ha.
    pose proof (process_url_1127_run server url [] st) as He.
    cbn zeta in Ha, He. rewrite Ha, He.
    destruct (V1127.download_pdf server url _ st).1; cbn [fst snd app];
      by rewrite ?app_nil_r.
  - apply (for_each_try_append (V1128.process_url server)). intros url a st.
    pose proof (process_url_1128_run url a st) as Ha.
    pose proof (process_url_1128_run url [] st) as He.
    cbn zeta in Ha, He. rewrite Ha, He.
    destruct (V1128.download_pdf server url _ st).1 as [[]|e];
      cbn [fst snd app prepend]; by rewrite ?app_nil_r.
Qed.

(** X7. A run over a list of URLs sends at most 186 requests for each URL
    (six for each hop of the session, which follows at most thirty
    redirects), and at most six for each URL when no reply is a
    redirect.  The 2024-11-27 loop sends at least one request for each
    URL, and so does the 2024-11-28 loop when no exception ends it. *)
Theorem X7_run_request_budget (urls : list (list N)) (s : state) :
  let r27 := V1127.process_urls server urls s in
  let r28 := V1128.collect server urls s in
  (requests s + length urls ≤ requests r27.2
   ∧ requests r27.2 ≤ requests s + 186 * length urls)
  ∧ (requests r28.2 ≤ requests s + 186 * length urls
     ∧ (∀ rows, r28.1 = Returns rows →
          requests s + length urls ≤ requests r28.2))
  ∧ ((∀ n u, redirect_target (server n u) = None) →
     requests r27.2 ≤ requests s + 6 * length urls
     ∧ requests r28.2 ≤ requests s + 6 * length urls).
Proof.
  cbn zeta.
  assert (H186 : request_budget server 186) by (by left).
  split_and!.
  - destruct (for_each_turns 186 _
                (λ x acc st, process_url_1127_turn 186 x acc st H186) urls [] s)
      as (_ & _ & _ & Hlo & Hhi). done.
  - destruct (for_each_turns 186 _
                (λ x acc st, process_url_1127_turn 186 x acc st H186) urls [] s)
      as (_ & _ & _ & Hlo & Hhi). done.
  - destruct (for_each_try_turns 186 _
                (λ x acc st, process_url_1128_turn 186 x acc st H186) urls [] s)
      as (_ & _ & Hhi & _). done.
  - intros rows Hrows.
    destruct (for_each_try_turns 186 _
                (λ x acc st, process_url_1128_turn 186 x acc st H186) urls [] s)
      as (evs & _ & _ & Hres).
    unfold V1128.collect in Hrows. rewrite Hrows in Hres. by destruct Hres.
  - intros Hno.
    assert (H6 : request_budget server 6) by (by right).
    split.
    + destruct (for_each_turns 6 _
                  (λ x acc st, process_url_1127_turn 6 x acc st H6) urls [] s)
        as (_ & _ & _ & _ & Hhi). done.
    + destruct (for_each_try_turns 6 _
                  (λ x acc st, process_url_1128_turn 6 x acc st H6) urls [] s)
        as (_ & _ & Hhi & _). done.
Qed.

(** X8. The 2024-11-27 loop pauses for [random.uniform(2, 5)] seconds
    exactly once for each URL, whether its download succeeded or not, the
    last URL included.  So does the 2024-11-28 loop when it returns; when
    an exception of [open] ends it, the turn of that URL has no pause and
    the URLs after it have no turn. *)
Theorem X8_one_pause_per_url (urls : list (list N)) (s : state) :
  (∃ evs, trace (V1127.process_urls server urls s).2 = trace s ++ evs
          ∧ pauses evs = length urls)
  ∧ (∃ evs, trace (V1128.collect server urls s).2 = trace s ++ evs
            ∧ match (V1128.collect server urls s).1 with
              | Returns _ => pauses evs = length urls
              | Raises _ => pauses evs < length urls
              end).
Proof.
  assert (H186 : request_budget server 186) by (by left).
  split.
  - destruct (for_each_turns 186 _
                (λ x acc st, process_url_1127_turn 186 x acc st H186) urls [] s)
      as (evs & Ht & Hp & _). by exists evs.
  - destruct (for_each_try_turns 186 _
                (λ x acc st, process_url_1128_turn 186 x acc st H186) urls [] s)
      as (evs & Ht & _ & Hres). exists evs. split; [done|].
    unfold V1128.collect.
    destruct (for_each_try urls _ [] s).1; [by destruct Hres|done].
Qed.

(** X9. On a PDF whose pages can all be read the 2024-11-27 extraction
    returns the page texts one after the other with nothing in between,
    and logs that the text was extracted. *)
Theorem X9_extract_1127_concatenates
    (path : list N) (texts : list (list N)) (s : state) :
  files s !! path = Some (Downloaded (Pdf (PageText <$> texts))) →
  V1127.extract_text_from_pdf path s
  = (concat texts, after s [FileOpen path; Log INFO (Text_extracted path)]).
Proof.
  intros Hfile. rewrite extract_1127_run, Hfile.
  unfold text_read, parses.
  rewrite <-(read_pages_ok (PageText <$> texts) []), read_pages_texts.
  done.
Qed.

(** X10. On a PDF whose pages can all be read the 2024-11-28 extraction
    returns the texts of the pages that have text, joined by one blank; a
    page without text adds nothing, no blank either, and nothing is
    logged. *)
Theorem X10_extract_1128_joins
    (path : list N) (texts : list (list N)) (s : state) :
  files s !! path = Some (Downloaded (Pdf (PageText <$> texts))) →
  V1128.extract_text_from_pdf path s
  = (join (u " ") (filter (λ t, t ≠ []) texts), after s [FileOpen path]).
Proof.
  intros Hfile. rewrite extract_1128_run, Hfile.
  unfold joined_text. by rewrite page_texts_texts.
Qed.

(** X11. In the 2024-11-28 script a downloaded PDF none of whose pages
    has text (a scan) adds no row and logs neither error nor warning for
    the document. *)
Theorem X11_pdf_without_text_is_skipped
    (url : list N) (texts : list (list N)) (results : list row) (s : state) :
  let filepath := u "downloads/" ++ last_segment url in
  let d := V1128.download_pdf server url filepath s in
  d.1 = Returns true →
  files d.2 !! filepath = Some (Downloaded (Pdf (PageText <$> texts))) →
  Forall (λ t, t = []) texts →
  V1128.process_url server url results s
  = (Returns results,
     after d.2 [Log INFO (Processing_file filepath); FileOpen filepath;
                Sleep (Uniform 2 5)]).
Proof.
  cbn zeta. intros Hd Hfile Hempty.
  pose proof (process_url_1128_run url results s) as Hrun.
  cbn zeta in Hrun. rewrite Hrun, Hd. clear Hrun.
  rewrite extract_1128_run. cbn [after files].
  rewrite Hfile. unfold joined_text. rewrite page_texts_texts.
  assert (filter (λ t : list N, t ≠ []) texts = []) as ->.
  { clear Hfile. induction Hempty as [|t texts -> _ IH]; [done|].
    rewrite filter_cons_False; [exact IH|intros Hne; by apply Hne]. }
  cbn. unfold after. cbn. by rewrite app_nil_r, <-!app_assoc.
Qed.

(** X22. A PDF one of whose pages cannot be read.  The 2024-11-27
    extraction has gathered the text of the pages before it when the
    exception is caught, and returns that text; the 2024-11-28
    extraction, whose [return] is inside the [try], returns the empty
    string.  Both log the error, and neither looks at the pages after
    the failing one. *)
Theorem X22_page_that_cannot_be_read
    (path : list N) (texts : list (list N)) (rest : list page) (s : state) :
  files s !! path
  = Some (Downloaded (Pdf ((PageText <$> texts) ++ PageError :: rest))) →
  V1127.extract_text_from_pdf path s
  = (concat texts, after s [FileOpen path; Log ERROR (Error_extracting path)])
  ∧ V1128.extract_text_from_pdf path s
    = ([], after s [FileOpen path; Log ERROR (Error_extracting path)]).
Proof.
  intros Hfile. split.
  - rewrite extract_1127_run, Hfile. unfold text_read, parses.
    rewrite <-(read_pages_ok _ []), read_pages_until_error. done.
  - rewrite extract_1128_run, Hfile. unfold joined_text.
    by rewrite page_texts_error.
Qed.

Lemma last_segment_no_slash url :
  existsb (N.eqb 47) (last_segment url) = false.
Proof.
  induction url as [|c url IH]; [done|]. cbn [last_segment].
  destruct (c =? 47)%N eqn:Hc; [done|].
  destruct (existsb (N.eqb 47) url) eqn:He; [done|].
  cbn [existsb]. by rewrite N.eqb_sym, Hc, He.
Qed.

Lemma last_segment_id name :
  existsb (N.eqb 47) name = false → last_segment name = name.
Proof.
  destruct name as [|c name]; [done|]. cbn [existsb last_segment].
  intros [Hc He]%orb_false_iff. by rewrite N.eqb_sym, Hc, He.
Qed.

(** [os.path.join("downloads", name)] can be opened when [name] can. *)
Lemma open_error_downloads url :
  open_error (u "downloads/" ++ last_segment url)
  = open_error (last_segment url).
Proof.
  pose proof (last_segment_no_slash url) as Hno.
  assert (Hseg : last_segment (u "downloads/" ++ last_segment url)
                 = last_segment (last_segment url)).
  { change (u "downloads/") with (u "downloads" ++ [47%N]).
    rewrite <-app_assoc.
    assert (Hin : ∀ p : list N,
      last_segment (p ++ [47%N] ++ last_segment url)
      = last_segment (last_segment url)).
    { induction p as [|c p IHp]; [done|]. cbn [app last_segment].
      destruct (c =? 47)%N; [exact IHp|].
      rewrite existsb_app. cbn [app existsb].
      change (47 =? 47)%N with true. cbn [orb]. rewrite orb_true_r.
      exact IHp. }
    apply Hin. }
  unfold open_error. rewrite Hseg, existsb_app.
  assert (existsb (N.eqb 0) (u "downloads/") = false) as -> by reflexivity.
  by rewrite (last_segment_id _ Hno).
Qed.

Lemma open_error_kind path e :
  open_error path = Some e → e = ValueError ∨ e = OSError.
Proof.
  unfold open_error. destruct (existsb _ _); [intros [= <-]; by left|].
  case_bool_decide; [intros [= <-]; by right|done].
Qed.

(** X23. A URL whose last part cannot name a file (the URL ends with a
    slash, say) and whose response is good.  [open] raises after the
    one request.  The 2024-11-27 script catches it with
    [except Exception], logs it as unexpected and goes on to the pause
    without a row.  In the 2024-11-28 script the exception is no
    [RequestException]: it leaves [download_pdf] and ends the run then
    and there, without pause, without the URLs that follow, and without
    output file or warning. *)
Theorem X23_url_that_names_no_file
    (timestamp url : list N) (urls : list (list N)) (results : list row)
    (s : state) (e : exn) (resp : response) :
  open_error (last_segment url) = Some e →
  received (server (requests s) url) = Some resp →
  retryable (server (requests s) url) = false →
  get_redirect_target resp = None →
  status_code resp < 400 →
  let s1 := State (requests s + 1) (files s)
              (trace s ++ [Log INFO (Attempting url); HttpGet url]) in
  V1127.process_url server url results s
  = (results,
     after s1 [Log ERROR (Unexpected_error e); Sleep (Uniform 2 5)])
  ∧ V1128.collect server (url :: urls) s = (Raises e, s1)
  ∧ V1128.process_urls server timestamp (url :: urls) s = (Raises e, s1).
Proof.
  intros Ho Hr Hno Hnr Hst. cbn zeta.
  assert (Hraise : raise_for_status (status_code resp) = None).
  { unfold raise_for_status.
    destruct (Nat.leb_spec 400 (status_code resp)); [lia|done]. }
  unfold retryable in Hno. rewrite Hr in Hno.
  assert (Hfetch : ∀ path, open_error path = Some e →
    fetch server url path s
    = (Some e, State (requests s + 1) (files s)
                 (trace s ++ [Log INFO (Attempting url); HttpGet url]))).
  { intros path Hp.
    pose proof (fetch_settled server url path s 0 resp) as Hf.
    cbn zeta in Hf. rewrite Hraise, Hp in Hf.
    rewrite Hf; [|lia|intros; lia|by rewrite Nat.add_0_r
                 |by apply is_retry_not|done].
    by rewrite bool_decide_false. }
  assert (H28 : V1128.process_url server url [] s
    = (Raises e, State (requests s + 1) (files s)
                   (trace s ++ [Log INFO (Attempting url); HttpGet url]))).
  { unfold V1128.process_url, V1128.download_pdf. rewrite !bind_run.
    rewrite Hfetch by (by rewrite open_error_downloads).
    by destruct (open_error_kind _ _ Ho) as [-> | ->]. }
  split_and!.
  - unfold V1127.process_url, V1127.download_pdf. rewrite !bind_run.
    rewrite (Hfetch _ Ho).
    destruct (open_error_kind _ _ Ho) as [-> | ->]; run_m; unfold after;
      cbn [requests files trace]; by rewrite <-!app_assoc.
  - unfold V1128.collect. by rewrite for_each_try_cons, H28.
  - unfold V1128.process_urls. cbn zeta. rewrite bind_run.
    unfold V1128.collect. by rewrite for_each_try_cons, H28.
Qed.

End Loop.

(** * Further properties of the matchers and of the text functions *)

Section Text.
Context `{UnicodeData}.

Lemma rmatch_requires {A} c r : requires c r = true →
  ∀ bef aft (k : list N → list N → option A) x,
    rmatch r bef aft k = Some x → c ∈ aft.
Proof.
  induction r as [s|cs| |r1 IH1 r2 IH2|r1 IH1 r2 IH2|cs lo hi];
    cbn [requires]; try done.
  - intros Hc%bool_decide_eq_true bef aft k x. cbn [rmatch].
    destruct (str_prefix s aft) as [a'|] eqn:Hp; [|done].
    apply str_prefix_Some in Hp as ->. intros _.
    apply elem_of_app. by left.
  - intros Hc bef aft k x. cbn [rmatch]. intros Hm.
    apply orb_true_iff in Hc as [Hc|Hc].
    + by eapply IH1.
    + apply rmatch_fwd in Hm as (l & a' & -> & _ & Hm).
      apply elem_of_app. right. by eapply IH2.
  - intros [Hc1 Hc2]%andb_true_iff bef aft k x. cbn [rmatch].
    destruct (rmatch r1 bef aft k) as [y|] eqn:Hm1.
    + intros _. by eapply IH1.
    + intros Hm2. by eapply IH2.
Qed.

Lemma sre_search_requires c r : requires c r = true →
  ∀ aft ma bef, c ∉ aft → sre_search r ma bef aft = None.
Proof.
  intros Hc. induction aft as [|c' aft IH]; intros ma bef Hnot;
    rewrite sre_search_eq.
  - destruct (sre_match r ma bef []) as [e|] eqn:Hm; [|done].
    unfold sre_match in Hm. by apply (rmatch_requires c r Hc) in Hm.
  - destruct (sre_match r ma bef (c' :: aft)) as [e|] eqn:Hm.
    + unfold sre_match in Hm. by apply (rmatch_requires c r Hc) in Hm.
    + apply IH. intros Hin. apply Hnot. by right.
Qed.

Lemma re_findall_requires c r text :
  requires c r = true → c ∉ text → re_findall r text = [].
Proof.
  intros Hc Hnot. unfold re_findall, finditer.
  replace (2 * length text + 2) with (S (2 * length text + 1)) by lia.
  cbn [scan]. by rewrite (sre_search_requires c r Hc).
Qed.

(** X12. A text without the capital letter U holds no citation for
    either matcher; the empty text is one such. *)
Theorem X12_no_capital_U_no_citation (text : list N) (s : state) :
  85%N ∉ text →
  (V1127.find_us_code_citations text s).1 = []
  ∧ V1128.find_us_code_citations text = [].
Proof.
  intros Hnot. split.
  - cbn. by apply (re_findall_requires 85).
  - unfold V1128.find_us_code_citations.
    by rewrite (re_findall_requires 85).
Qed.

Lemma group0_occurs text m :
  m_start m ≤ length text → occurs_at (group0 text m) text (m_start m).
Proof.
  intros Hs. split; [done|]. unfold group0. rewrite length_take.
  destruct (decide (m_end m - m_start m ≤ length (drop (m_start m) text))).
  - f_equal. lia.
  - rewrite !take_ge; [done|lia..].
Qed.

(** X13. Every citation a matcher returns stands in the text it was given;
    those of the 2024-11-27 matcher are never empty. *)
Theorem X13_citations_stand_in_text (text : list N) (s : state) (c : list N) :
  (c ∈ (V1127.find_us_code_citations text s).1 →
     c ≠ [] ∧ ∃ i, occurs_at c text i)
  ∧ (c ∈ V1128.find_us_code_citations text → ∃ i, occurs_at c text i).
Proof.
  split.
  - cbn. intros (m & -> & Hm)%list_elem_of_fmap.
    destruct (finditer_occurrences V1127.pattern text min_len_pattern_1127)
      as (Hord & Hall & _).
    rewrite Forall_forall in Hall. destruct (Hall m Hm) as [_ Hle].
    destruct (in_order_elem _ _ _ Hord Hm) as [_ Hlt].
    split.
    + intros Hnil. apply (f_equal length) in Hnil.
      unfold group0 in Hnil. rewrite length_take, length_drop in Hnil.
      simpl in Hnil. lia.
    + exists (m_start m). apply group0_occurs. lia.
  - intros Hc. by eapply citation_occurs, Hc; apply min_len_pattern_1128.
Qed.

Lemma str_replace_no_em_dash s : EM_DASH ∉ str_replace EM_DASH (u "-") s.
Proof.
  induction s as [|c s IH]; cbn [str_replace]; [by apply not_elem_of_nil|].
  destruct (N.eqb_spec c EM_DASH) as [->|Hne].
  - change (u "-" ++ ?l) with (45%N :: l).
    apply not_elem_of_cons. by split.
  - cbn [app]. apply not_elem_of_cons. by split.
Qed.

Lemma str_replace_length s :
  length (str_replace EM_DASH (u "-") s) = length s.
Proof.
  induction s as [|c s IH]; [done|]. cbn [str_replace].
  destruct (c =? EM_DASH)%N;
    [change (u "-" ++ ?l) with (45%N :: l)|cbn [app]];
    cbn [length]; by rewrite IH.
Qed.

Lemma collapse_ws_length b s : length (collapse_ws b s) ≤ length s.
Proof.
  revert b. induction s as [|c s IH]; intros b; [cbn; lia|].
  pose proof (IH true). pose proof (IH false). cbn [collapse_ws].
  destruct (Py_UNICODE_ISSPACE c); [destruct b|]; cbn [length]; lia.
Qed.

Lemma str_replace_id s :
  EM_DASH ∉ s → str_replace EM_DASH (u "-") s = s.
Proof.
  induction s as [|c s IH]; [done|]. intros [Hc Hs]%not_elem_of_cons.
  cbn [str_replace]. destruct (N.eqb_spec c EM_DASH); [done|].
  cbn [app]. by rewrite IH.
Qed.

(** X14. The text [normalize_text] returns has no em dash, no white space
    but the blank, no two blanks in a row, and is not longer than the
    text given. *)
Theorem X14_normalize_text_clean (text : list N) :
  single_blanks false (V1128.normalize_text text)
  ∧ (EM_DASH ∉ V1128.normalize_text text)
  ∧ length (V1128.normalize_text text) ≤ length text.
Proof.
  unfold V1128.normalize_text. rewrite re_sub_space. split_and!.
  - apply str_replace_single_blanks, collapse_ws_single_blanks.
  - apply str_replace_no_em_dash.
  - rewrite str_replace_length. apply collapse_ws_length.
Qed.

(** X15. [normalize_text] leaves a text as it is when the text has no em
    dash and no white space but single blanks. *)
Theorem X15_normalize_text_fixed (text : list N) :
  single_blanks false text → EM_DASH ∉ text →
  V1128.normalize_text text = text.
Proof.
  intros Hb Hd. unfold V1128.normalize_text.
  rewrite re_sub_space, (single_blanks_collapse false) by done.
  by apply str_replace_id.
Qed.

Lemma single_blanks_only b s : single_blanks b s → blanks_only s.
Proof.
  revert b. induction s as [|c s IH]; intros b; [constructor|]. cbn.
  destruct (Py_UNICODE_ISSPACE c) eqn:Hc.
  - intros (-> & _ & Hs). constructor; [done|by eapply IH].
  - intros Hs. constructor; [congruence|by eapply IH].
Qed.

(** X16. A citation found in a normalized text has no line break, tab or
    other white space but the blank, and no em dash, whatever the text of
    the PDF had. *)
Theorem X16_citations_of_normalized_text (raw c : list N) :
  c ∈ V1128.find_us_code_citations (V1128.normalize_text raw) →
  blanks_only c ∧ EM_DASH ∉ c.
Proof.
  intros Hc.
  destruct (citation_occurs _ _ _ min_len_pattern_1128 Hc) as (i & _ & Hi).
  assert (Hb : single_blanks false (V1128.normalize_text raw)).
  { unfold V1128.normalize_text. rewrite re_sub_space.
    apply str_replace_single_blanks, collapse_ws_single_blanks. }
  assert (Hd : EM_DASH ∉ V1128.normalize_text raw)
    by apply str_replace_no_em_dash.
  rewrite <-Hi. split.
  - apply Forall_take, Forall_drop. by eapply single_blanks_only.
  - intros Hin. apply Hd.
    by eapply subseteq_drop, subseteq_take.
Qed.

Lemma lstrip_no_space s : starts_with_space (lstrip s) = false.
Proof.
  induction s as [|c s IH]; [done|]. cbn [lstrip].
  destruct (Py_UNICODE_ISSPACE c) eqn:Hc; [done|]. cbn. exact Hc.
Qed.

Lemma rstrip_prefix s : ∃ l, s = rstrip s ++ l.
Proof.
  destruct (lstrip_suffix (reverse s)) as [l Hl]. exists (reverse l).
  unfold rstrip. by rewrite <-reverse_app, <-Hl, reverse_involutive.
Qed.

Lemma strip_no_space s :
  starts_with_space (strip s) = false
  ∧ starts_with_space (reverse (strip s)) = false.
Proof.
  unfold strip. split.
  - destruct (rstrip_prefix (lstrip s)) as [l Hl].
    pose proof (lstrip_no_space s) as Hs. rewrite Hl in Hs.
    by destruct (rstrip (lstrip s)).
  - unfold rstrip. rewrite reverse_involutive. apply lstrip_no_space.
Qed.

Lemma strip_length s : length (strip s) ≤ length s.
Proof.
  destruct (strip_infix s) as (l1 & l2 & Hs).
  rewrite Hs at 2. rewrite !length_app. lia.
Qed.

(** X17. The context [get_context] returns neither starts nor ends with
    white space, and is at most 80 characters longer than the match. *)
Theorem X17_get_context_shape (text : list N) (m : match_obj) :
  length (V1128.get_context text m) ≤ (m_end m - m_start m) + 80
  ∧ starts_with_space (V1128.get_context text m) = false
  ∧ starts_with_space (reverse (V1128.get_context text m)) = false.
Proof.
  unfold V1128.get_context. cbn zeta. split; [|apply strip_no_space].
  etrans; [apply strip_length|].
  unfold py_slice, slice_index. rewrite length_take.
  destruct (Z.ltb_spec (Z.max (Z.of_nat (m_start m) - 40) 0) 0); [lia|].
  destruct (Z.ltb_spec (Z.min (Z.of_nat (m_end m) + 40)
              (Z.of_nat (length text))) 0); lia.
Qed.

Lemma lstrip_app l x :
  x ≠ [] → starts_with_space x = false → lstrip (l ++ x) = lstrip l ++ x.
Proof.
  intros Hx Hs. induction l as [|c l IH]; cbn [app lstrip].
  - destruct x as [|c x]; [done|]. cbn in Hs. cbn [lstrip]. by rewrite Hs.
  - by destruct (Py_UNICODE_ISSPACE c).
Qed.

Lemma strip_around before g after :
  g ≠ [] → starts_with_space g = false →
  starts_with_space (reverse g) = false →
  strip (before ++ g ++ after) = lstrip before ++ g ++ rstrip after.
Proof.
  intros Hg Hl Hr. unfold strip.
  rewrite lstrip_app; [| |].
  - unfold rstrip. rewrite !reverse_app, <-app_assoc.
    rewrite lstrip_app; [| |].
    + by rewrite !reverse_app, !reverse_involutive, <-app_assoc.
    + intros Hnil. apply app_eq_nil in Hnil as [Hnil _].
      apply (f_equal reverse) in Hnil. by rewrite reverse_involutive in Hnil.
    + destruct (reverse g) as [|c g'] eqn:Hrev; [|exact Hr].
      apply (f_equal reverse) in Hrev. by rewrite reverse_involutive in Hrev.
  - intros Hnil. by apply app_eq_nil in Hnil as [Hnil _].
  - by destruct g.
Qed.

(** X18. For a match inside the text that neither starts nor ends with
    white space the context holds the match whole: it is the match
    between the 40 characters before it, white space trimmed on the
    left, and the 40 characters after it, trimmed on the right. *)
Theorem X18_context_holds_the_match (text : list N) (m : match_obj) :
  m_start m < m_end m ≤ length text →
  starts_with_space (group0 text m) = false →
  starts_with_space (reverse (group0 text m)) = false →
  V1128.get_context text m
  = lstrip (drop (m_start m - 40) (take (m_start m) text))
      ++ group0 text m
      ++ rstrip (take 40 (drop (m_end m) text)).
Proof.
  destruct m as [b e]. cbn [m_start m_end]. intros [Hb He] Hl Hr.
  unfold V1128.get_context, py_slice, slice_index. cbn [m_start m_end].
  destruct (Z.ltb_spec (Z.max (Z.of_nat b - 40) 0) 0) as [?|_]; [lia|].
  destruct (Z.ltb_spec (Z.min (Z.of_nat e + 40) (Z.of_nat (length text))) 0)
    as [?|_]; [lia|].
  set (hi := (e + 40) `min` length text).
  replace (Z.to_nat (Z.min (Z.max (Z.of_nat b - 40) 0)
             (Z.of_nat (length text)))) with (b - 40) by lia.
  replace (Z.to_nat (_ - _)) with (hi - (b - 40)) by lia.
  rewrite (slice_parts text (b - 40) b e hi) by lia.
  assert (take (hi - e) (drop e text) = take 40 (drop e text)) as ->.
  { subst hi. destruct (decide (e + 40 ≤ length text)).
    - f_equal. lia.
    - rewrite !take_ge; [done|rewrite length_drop; lia..]. }
  fold (group0 text (Match b e)).
  apply strip_around; [|done..].
  intros Hnil. apply (f_equal length) in Hnil. unfold group0 in Hnil.
  rewrite length_take, length_drop in Hnil. cbn in Hnil. lia.
Qed.

Lemma has_slash (s : list N) : existsb (N.eqb 47) s = true ↔ 47%N ∈ s.
Proof.
  rewrite existsb_exists. split.
  - intros (x & Hx & ->%N.eqb_eq). by apply list_elem_of_In.
  - intros Hin. exists 47%N. split; [by apply list_elem_of_In|apply N.eqb_refl].
Qed.

(** X19. The local file name taken from a URL has no slash, and the URL
    is that name after a part that is empty or ends with a slash: the
    name is copied as it stands in the URL, percent signs and all. *)
Theorem X19_last_segment (url : list N) :
  (47%N ∉ last_segment url)
  ∧ ∃ dir, url = dir ++ last_segment url
           ∧ (dir = [] ∨ ∃ d, dir = d ++ [47%N]).
Proof.
  induction url as [|c url (IHno & dir & IHurl & IHdir)].
  - split; [apply not_elem_of_nil|]. exists []. by split; [|left].
  - cbn [last_segment]. destruct (N.eqb_spec c 47) as [->|Hne].
    + split; [done|]. exists (47%N :: dir).
      split; [cbn; by rewrite <-IHurl|]. right.
      destruct IHdir as [->|[d ->]]; [by exists []|by exists (47%N :: d)].
    + destruct (existsb (N.eqb 47) url) eqn:Hex.
      * split; [done|]. exists (c :: dir).
        split; [cbn; by rewrite <-IHurl|]. right.
        destruct IHdir as [->|[d ->]]; [|by exists (c :: d)].
        cbn in IHurl. apply has_slash in Hex. by rewrite IHurl in Hex.
      * split.
        -- apply not_elem_of_cons. split; [done|]. intros Hin.
           apply has_slash in Hin. congruence.
        -- exists []. by split; [|left].
Qed.

End Text.

(** * Further properties of the output file *)

Section Output.
Context `{UnicodeData}.
Variable server : nat → list N → reply.

Ltac run_m :=
  repeat first
    [ rewrite bind_run
    | progress cbn [logging sleep emit mret M_ret open_file write_file
                    fst snd requests files trace after] ].

Lemma add_keys_known (ks cols : list (list N)) :
  (∀ k, k ∈ ks → k ∈ cols) →
  foldl (λ cols k, if bool_decide (k ∈ cols) then cols else cols ++ [k])
    cols ks = cols.
Proof.
  induction ks as [|k ks IH]; intros Hin; [done|]. cbn [foldl].
  rewrite bool_decide_true by (apply Hin; left).
  apply IH. intros k' Hk'. apply Hin. by right.
Qed.

Lemma add_keys_new (ks : list (list N)) : ∀ cols,
  NoDup (cols ++ ks) →
  foldl (λ cols k, if bool_decide (k ∈ cols) then cols else cols ++ [k])
    cols ks = cols ++ ks.
Proof.
  induction ks as [|k ks IH]; intros cols Hnd; [by rewrite app_nil_r|].
  cbn [foldl]. rewrite bool_decide_false.
  - rewrite IH; [by rewrite <-app_assoc|]. by rewrite <-app_assoc.
  - apply NoDup_app in Hnd as (_ & Hdis & _). intros Hin.
    apply (Hdis _ Hin). left.
Qed.

(** Records that all have the keys [ks] give the columns [ks]. *)
Lemma dataframe_columns_same (ks : list (list N)) (rows : list row) :
  NoDup ks → rows ≠ [] → Forall (λ r : row, r.*1 = ks) rows →
  dataframe_columns rows = ks.
Proof.
  intros Hnd Hne Hall. destruct rows as [|r rows]; [done|].
  apply Forall_cons in Hall as [Hr Hrows].
  unfold dataframe_columns. cbn [mbind list_bind]. rewrite Hr, foldl_app.
  rewrite (add_keys_new ks []) by done. cbn [app].
  apply add_keys_known. intros k Hk.
  induction Hrows as [|r' rows' Hr' _ IH]; cbn in Hk.
  - by apply elem_of_nil in Hk.
  - apply elem_of_app in Hk as [Hk|Hk]; [by rewrite Hr' in Hk|by apply IH].
Qed.

Lemma rows_of_shape {T} (f : T → row) (rows : list row) :
  Forall (λ r, ∃ t, r = f t) rows → ∃ ts, rows = f <$> ts.
Proof.
  induction 1 as [|r rows [t ->] _ [ts ->]]; [by exists []|].
  by exists (t :: ts).
Qed.

Lemma for_each_Forall {X} (P : row → Prop) (body : X → list row → M (list row)) :
  (∀ x acc s, Forall P acc → Forall P (body x acc s).1) →
  ∀ xs acc s, Forall P acc → Forall P (for_each xs body acc s).1.
Proof.
  intros Hbody. induction xs as [|x xs IH]; intros acc s Hacc; [done|].
  rewrite for_each_cons. by apply IH, Hbody.
Qed.

Lemma process_urls_1127_rows urls s :
  Forall (λ r, ∃ t : list N * list (list N), r = V1127.result_row t.1 t.2)
    (V1127.process_urls server urls s).1.
Proof.
  apply for_each_Forall; [|done]. intros url acc st Hacc.
  pose proof (process_url_1127_run server url acc st) as Hrun.
  cbn zeta in Hrun. rewrite Hrun.
  destruct (V1127.download_pdf server url _ st).1; cbn [fst]; [|done].
  apply Forall_app. split; [done|].
  constructor; [|done]. by eexists (_, _).
Qed.

Lemma citation_rows_shape url text citations :
  Forall (λ r, ∃ t : list N * list N * list N,
            r = V1128.result_row t.1.1 t.1.2 t.2)
    (V1128.citation_rows url text citations).
Proof.
  unfold V1128.citation_rows.
  induction citations as [|c cs IH]; [done|]. cbn [mbind list_bind].
  apply Forall_app. split; [|exact IH].
  destruct (re_search _ _); [|done].
  constructor; [|done]. by eexists (_, _, _).
Qed.

Lemma for_each_try_Forall {X} (P : row → Prop)
    (body : X → list row → M (outcome (list row))) :
  (∀ x acc s, Forall P acc →
     match (body x acc s).1 with
     | Returns acc' => Forall P acc'
     | Raises _ => True
     end) →
  ∀ xs acc s, Forall P acc →
    match (for_each_try xs body acc s).1 with
    | Returns rows => Forall P rows
    | Raises _ => True
    end.
Proof.
  intros Hbody. induction xs as [|x xs IH]; intros acc s Hacc; [done|].
  rewrite for_each_try_cons. specialize (Hbody x acc s Hacc).
  destruct (body x acc s) as [[acc'|e] s1]; cbn [fst snd] in *; [|done].
  by apply IH.
Qed.

Lemma collect_rows urls s rows :
  (V1128.collect server urls s).1 = Returns rows →
  Forall (λ r, ∃ t : list N * list N * list N,
            r = V1128.result_row t.1.1 t.1.2 t.2) rows.
Proof.
  intros Hrows.
  pose proof (for_each_try_Forall
    (λ r, ∃ t : list N * list N * list N,
       r = V1128.result_row t.1.1 t.1.2 t.2)
    (V1128.process_url server)) as Hall.
  specialize (Hall ltac:(
    intros url acc st Hacc;
    pose proof (process_url_1128_run server url acc st) as Hrun;
    cbn zeta in Hrun; rewrite Hrun;
    destruct (V1128.download_pdf server url _ st).1 as [[]|e]; cbn [fst];
    [|done|done];
    apply Forall_app; split; [done|];
    destruct (V1128.extract_text_from_pdf _ _).1; [done|];
    apply citation_rows_shape) urls [] s ltac:(done)).
  unfold V1128.collect in Hrows. by rewrite Hrows in Hall.
Qed.

(** X20. When the 2024-11-27 run ends with results, the file
    us_code_citations.csv has the columns filename and citations and one
    line for each result, in their order, with the file name and the list
    of citations of that result. *)
Theorem X20_csv_of_1127 (urls : list (list N)) (s : state) :
  (V1127.process_urls server urls s).1 ≠ [] →
  ∃ pairs : list (list N * list (list N)),
    (V1127.process_urls server urls s).1
    = (λ t, V1127.result_row t.1 t.2) <$> pairs
    ∧ files (V1127.main server urls s).2 !! V1127.output_filename
      = Some (Csv [u "filename"; u "citations"]
                ((λ t, [Some (CellStr t.1); Some (CellList t.2)]) <$> pairs)).
Proof.
  intros Hne.
  destruct (rows_of_shape _ _ (process_urls_1127_rows urls s)) as [pairs Hrows].
  exists pairs. split; [done|].
  unfold V1127.main. rewrite bind_run.
  destruct (V1127.process_urls server urls s) as [rows s1].
  cbn [fst] in Hne, Hrows. run_m. unfold logging, emit. cbn [files].
  rewrite lookup_insert_eq. f_equal. unfold to_csv.
  rewrite (dataframe_columns_same [u "filename"; u "citations"]);
    [|by apply (bool_decide_unpack _)|done|].
  - f_equal. rewrite Hrows, <-list_fmap_compose.
    apply list_fmap_ext. intros _ [a b] _. reflexivity.
  - rewrite Hrows. apply Forall_fmap, Forall_forall. by intros [a b] _.
Qed.

(** X21. When the 2024-11-28 run ends with results, the output file, named
    from the time stamp, has the columns url, citation and context and one
    line for each citation found, in their order. *)
Theorem X21_csv_of_1128
    (timestamp : list N) (urls : list (list N)) (s : state)
    (results : list row) :
  (V1128.collect server urls s).1 = Returns results → results ≠ [] →
  ∃ rows : list (list N * list N * list N),
    results = (λ t, V1128.result_row t.1.1 t.1.2 t.2) <$> rows
    ∧ files (V1128.process_urls server timestamp urls s).2
        !! (u "us_code_citations_" ++ timestamp ++ u ".csv")
      = Some (Csv [u "url"; u "citation"; u "context"]
                ((λ t, [Some (CellStr t.1.1); Some (CellStr t.1.2);
                        Some (CellStr t.2)]) <$> rows)).
Proof.
  intros Hres Hne.
  destruct (rows_of_shape _ _ (collect_rows urls s results Hres))
    as [triples Hrows].
  exists triples. split; [done|].
  unfold V1128.process_urls. cbn zeta. rewrite bind_run.
  destruct (V1128.collect server urls s) as [r s1].
  cbn [fst] in Hres. subst r.
  destruct results as [|r rows]; [done|].
  run_m. unfold logging, emit. cbn [files].
  unfold V1128.generate_output_filename.
  rewrite lookup_insert_eq. f_equal. unfold to_csv.
  rewrite (dataframe_columns_same [u "url"; u "citation"; u "context"]);
    [|by apply (bool_decide_unpack _)|done|].
  - f_equal. rewrite Hrows, <-list_fmap_compose.
    apply list_fmap_ext. intros _ [[a b] c] _. reflexivity.
  - rewrite Hrows. apply Forall_fmap, Forall_forall. by intros [[a b] c] _.
Qed.

End Output.

(** * The further properties on concrete runs *)

(** A server that sends the document at once, and one that answers 503
    five times, then redirects, then sends the document. *)
Lemma X1_with_and_without_redirects :
  let doc := Pdf [PageText (u "See 7 U.S.C. 136")] in
  let direct := always (Reply 200 doc) in
  let busy :=
    scripted (replicate 5 (Reply 503 NotAPdf) ++ [found ppd_url])
      (Reply 200 doc) in
  (∀ n u, redirect_target (direct n u) = None)
  ∧ requests (V1127.download_pdf direct ppd_url (u "ppd.pdf") fresh).2
    ≤ requests fresh + 6
  ∧ requests (V1128.download_pdf direct ppd_url (u "ppd.pdf") fresh).2
    ≤ requests fresh + 6
  ∧ requests (V1127.download_pdf busy ppd_url (u "ppd.pdf") fresh).2 = 7
  ∧ requests (V1128.download_pdf busy ppd_url (u "ppd.pdf") fresh).2 = 7.
Proof.
  cbn zeta.
  assert (Hno : ∀ (n : nat) (url : list N),
    redirect_target
      (always (Reply 200 (Pdf [PageText (u "See 7 U.S.C. 136")])) n url)
    = None) by (intros; reflexivity).
  pose proof (X1_download_request_budget
    (always (Reply 200 (Pdf [PageText (u "See 7 U.S.C. 136")])))
    ppd_url (u "ppd.pdf") fresh) as (_ & _ & H6). cbn zeta in H6.
  destruct (H6 Hno) as [H27 H28].
  split_and!; [exact Hno|exact H27|exact H28|by vm_compute..].
Defined.

(** A server that answers 404; a 413 with a [Retry-After] header would
    be tried again. *)
Lemma X3_not_found_once :
  let server := always (Reply 404 NotAPdf) in
  let resp := Response 404 None false NotAPdf in
  let d27 := V1127.download_pdf server ppd_url (u "ppd.pdf") fresh in
  let d28 := V1128.download_pdf server ppd_url (u "ppd.pdf") fresh in
  received (server (requests fresh) ppd_url) = Some resp
  ∧ retryable (server (requests fresh) ppd_url) = false
  ∧ 400 ≤ status_code resp < 600
  ∧ (d27.1 = false ∧ requests d27.2 = requests fresh + 1
     ∧ files d27.2 = files fresh)
  ∧ (d28.1 = Returns false ∧ requests d28.2 = requests fresh + 1
     ∧ files d28.2 = files fresh)
  ∧ retryable (ReplyWith (Response 413 None true NotAPdf)) = true
  ∧ retryable (Reply 413 NotAPdf) = false.
Proof.
  cbn zeta.
  assert (Hst : 400 ≤ status_code (Response 404 None false NotAPdf) < 600)
    by (cbn; lia).
  pose proof (X3_download_client_error_not_retried
                (always (Reply 404 NotAPdf)) ppd_url (u "ppd.pdf") fresh
                (Response 404 None false NotAPdf) eq_refl eq_refl Hst)
    as [H27 H28].
  cbn zeta in H27, H28.
  refine (conj eq_refl (conj eq_refl (conj Hst (conj H27 (conj H28
            (conj eq_refl eq_refl)))))).
Defined.

(** Two answers 503, then the document. *)
Lemma X4_third_request_succeeds :
  let doc := Pdf [PageText (u "See 7 U.S.C. 136")] in
  let server := flaky 2 doc in
  let resp := Response 200 None false doc in
  let d27 := V1127.download_pdf server ppd_url (u "ppd.pdf") fresh in
  let d28 := V1128.download_pdf server ppd_url (u "ppd.pdf") fresh in
  2 ≤ 5
  ∧ (∀ i, i < 2 → retryable (server (requests fresh + i) ppd_url) = true)
  ∧ received (server (requests fresh + 2) ppd_url) = Some resp
  ∧ retryable (server (requests fresh + 2) ppd_url) = false
  ∧ status_code resp < 400 ∧ get_redirect_target resp = None
  ∧ open_error (u "ppd.pdf") = None
  ∧ (d27.1 = true ∧ requests d27.2 = requests fresh + 3
     ∧ files d27.2 = <[u "ppd.pdf" := Downloaded doc]> (files fresh))
  ∧ (d28.1 = Returns true ∧ requests d28.2 = requests fresh + 3
     ∧ files d28.2 = <[u "ppd.pdf" := Downloaded doc]> (files fresh)).
Proof.
  cbn zeta.
  assert (Hk : 2 ≤ 5) by lia.
  assert (Hbefore : ∀ i, i < 2 →
    retryable (flaky 2 (Pdf [PageText (u "See 7 U.S.C. 136")])
                 (requests fresh + i) ppd_url) = true).
  { intros [|[|i]] Hi; [reflexivity|reflexivity|lia]. }
  assert (Hst : status_code
    (Response 200 None false (Pdf [PageText (u "See 7 U.S.C. 136")])) < 400)
    by (cbn; lia).
  assert (Ho : open_error (u "ppd.pdf") = None) by reflexivity.
  pose proof (X4_download_recovers
                (flaky 2 (Pdf [PageText (u "See 7 U.S.C. 136")]))
                ppd_url (u "ppd.pdf") fresh 2
                (Response 200 None false (Pdf [PageText (u "See 7 U.S.C. 136")]))
                Hk Hbefore eq_refl eq_refl Hst eq_refl Ho) as [H27 H28].
  cbn zeta in H27, H28.
  refine (conj Hk (conj Hbefore (conj eq_refl (conj eq_refl (conj Hst
            (conj eq_refl (conj Ho (conj H27 H28)))))))).
Defined.

(** A server that cannot be reached. *)
Lemma X5_no_connection :
  let server := always NoConnection in
  let d27 := V1127.download_pdf server ppd_url (u "ppd.pdf") fresh in
  let d28 := V1128.download_pdf server ppd_url (u "ppd.pdf") fresh in
  (∀ i, i ≤ 5 → retryable (server (requests fresh + i) ppd_url) = true)
  ∧ (d27.1 = false ∧ requests d27.2 = requests fresh + 6
     ∧ files d27.2 = files fresh)
  ∧ (d28.1 = Returns false ∧ requests d28.2 = requests fresh + 6
     ∧ files d28.2 = files fresh).
Proof.
  cbn zeta.
  assert (Hall : ∀ i, i ≤ 5 →
    retryable (always NoConnection (requests fresh + i) ppd_url) = true)
    by (intros; reflexivity).
  split; [exact Hall|].
  apply (X5_download_gives_up (always NoConnection) ppd_url (u "ppd.pdf")
           fresh Hall).
Defined.

(** Two documents from a server that sends them at once. *)
Lemma X7_two_documents :
  let server := always (Reply 200 (Pdf [PageText (u "See 7 U.S.C. 136")])) in
  let urls := [ppd_url; ppd_url] in
  let r27 := @V1127.process_urls latin1 server urls fresh in
  let r28 := @V1128.collect latin1 server urls fresh in
  (∀ n u, redirect_target (server n u) = None)
  ∧ (∃ rows, r28.1 = Returns rows)
  ∧ requests fresh + length urls ≤ requests r28.2
  ∧ requests r27.2 ≤ requests fresh + 6 * length urls
  ∧ requests r28.2 ≤ requests fresh + 6 * length urls
  ∧ requests r27.2 = 2 ∧ requests r28.2 = 2.
Proof.
  cbn zeta.
  assert (Hno : ∀ (n : nat) (url : list N),
    redirect_target
      (always (Reply 200 (Pdf [PageText (u "See 7 U.S.C. 136")])) n url)
    = None) by (intros; reflexivity).
  assert (Hrows : ∃ rows,
    (@V1128.collect latin1
       (always (Reply 200 (Pdf [PageText (u "See 7 U.S.C. 136")])))
       [ppd_url; ppd_url] fresh).1 = Returns rows)
    by (eexists; by vm_compute).
  pose proof (@X7_run_request_budget latin1
    (always (Reply 200 (Pdf [PageText (u "See 7 U.S.C. 136")])))
    [ppd_url; ppd_url] fresh) as (_ & (_ & Hlo) & H6). cbn zeta in Hlo, H6.
  destruct Hrows as [rows Hrows]. destruct (H6 Hno) as [H27 H28].
  refine (conj Hno (conj (ex_intro _ rows Hrows) (conj (Hlo rows Hrows)
            (conj H27 (conj H28 (conj _ _)))))); by vm_compute.
Defined.

(** A citation cut by a page break: the 2024-11-27 extraction glues the
    two pages. *)
Lemma X9_two_pages_glued :
  let texts := [u "See 7 U.S.C. "; u "136"] in
  let s := State 0 {[ u "ppd.pdf" := Downloaded (Pdf (PageText <$> texts)) ]} [] in
  files s !! u "ppd.pdf" = Some (Downloaded (Pdf (PageText <$> texts)))
  ∧ V1127.extract_text_from_pdf (u "ppd.pdf") s
    = (concat texts,
       after s [FileOpen (u "ppd.pdf"); Log INFO (Text_extracted (u "ppd.pdf"))])
  ∧ concat texts = u "See 7 U.S.C. 136".
Proof.
  cbn zeta.
  assert (Hfile : files (State 0 {[ u "ppd.pdf" := Downloaded
              (Pdf (PageText <$> [u "See 7 U.S.C. "; u "136"])) ]} [])
            !! u "ppd.pdf"
          = Some (Downloaded (Pdf (PageText <$> [u "See 7 U.S.C. "; u "136"]))))
    by (by vm_compute).
  split_and!; [exact Hfile| |reflexivity].
  exact (X9_extract_1127_concatenates _ _ _ Hfile).
Defined.

(** A page without text between two pages with text. *)
Lemma X10_empty_page_between :
  let texts := [u "See 7 U.S.C."; []; u "136"] in
  let s := State 0 {[ u "ppd.pdf" := Downloaded (Pdf (PageText <$> texts)) ]} [] in
  files s !! u "ppd.pdf" = Some (Downloaded (Pdf (PageText <$> texts)))
  ∧ V1128.extract_text_from_pdf (u "ppd.pdf") s
    = (join (u " ") (filter (λ t, t ≠ []) texts),
       after s [FileOpen (u "ppd.pdf")])
  ∧ join (u " ") (filter (λ t, t ≠ []) texts) = u "See 7 U.S.C. 136".
Proof.
  cbn zeta.
  assert (Hfile : files (State 0 {[ u "ppd.pdf" := Downloaded
              (Pdf (PageText <$> [u "See 7 U.S.C."; []; u "136"])) ]} [])
            !! u "ppd.pdf"
          = Some (Downloaded
                    (Pdf (PageText <$> [u "See 7 U.S.C."; []; u "136"]))))
    by (by vm_compute).
  split_and!; [exact Hfile| |by vm_compute].
  exact (X10_extract_1128_joins _ _ _ Hfile).
Defined.

(** A scanned document of two pages. *)
Lemma X11_scan_of_two_pages :
  let texts : list (list N) := [[]; []] in
  let server := always (Reply 200 (Pdf (PageText <$> texts))) in
  let filepath := u "downloads/ppd.pdf" in
  let d := V1128.download_pdf server ppd_url filepath fresh in
  d.1 = Returns true
  ∧ files d.2 !! filepath = Some (Downloaded (Pdf (PageText <$> texts)))
  ∧ Forall (λ t, t = []) texts
  ∧ @V1128.process_url latin1 server ppd_url [] fresh
    = (Returns [],
       after d.2 [Log INFO (Processing_file filepath); FileOpen filepath;
                  Sleep (Uniform 2 5)]).
Proof.
  cbn zeta.
  assert (Hd : (V1128.download_pdf
    (always (Reply 200 (Pdf (PageText <$> [[]; []]))))
    ppd_url (u "downloads/ppd.pdf") fresh).1 = Returns true)
    by (by vm_compute).
  assert (Hfile : files (V1128.download_pdf
    (always (Reply 200 (Pdf (PageText <$> [[]; []]))))
    ppd_url (u "downloads/ppd.pdf") fresh).2 !! u "downloads/ppd.pdf"
    = Some (Downloaded (Pdf (PageText <$> [[]; []])))) by (by vm_compute).
  assert (Hempty : Forall (λ t : list N, t = []) [[]; []])
    by (by repeat constructor).
  split_and!; [exact Hd|exact Hfile|exact Hempty|].
  exact (@X11_pdf_without_text_is_skipped latin1 _ ppd_url _ [] fresh
           Hd Hfile Hempty).
Defined.

(** A text without the letter U. *)
Lemma X12_no_citation_here :
  let text := u "no citation here, see title 7" in
  (85%N ∉ text)
  ∧ (@V1127.find_us_code_citations latin1 text fresh).1 = []
  ∧ @V1128.find_us_code_citations latin1 text = [].
Proof.
  cbn zeta.
  assert (Hnot : 85%N ∉ u "no citation here, see title 7")
    by (by apply (bool_decide_unpack _)).
  split; [exact Hnot|].
  exact (@X12_no_capital_U_no_citation latin1 _ fresh Hnot).
Defined.

(** The citation of a short text, for both matchers. *)
Lemma X13_citation_in_its_text :
  let text := u "see 7 U.S.C. 136" in
  let c := u "7 U.S.C. 136" in
  c ∈ (@V1127.find_us_code_citations latin1 text fresh).1
  ∧ c ∈ @V1128.find_us_code_citations latin1 text
  ∧ (c ≠ [] ∧ ∃ i, occurs_at c text i)
  ∧ ∃ i, occurs_at c text i.
Proof.
  cbn zeta.
  assert (H27 : u "7 U.S.C. 136"
    ∈ (@V1127.find_us_code_citations latin1 (u "see 7 U.S.C. 136") fresh).1)
    by (vm_compute; left).
  assert (H28 : u "7 U.S.C. 136"
    ∈ @V1128.find_us_code_citations latin1 (u "see 7 U.S.C. 136"))
    by (vm_compute; left).
  refine (conj H27 (conj H28 (conj _ _))).
  - exact (proj1 (@X13_citations_stand_in_text latin1 _ fresh _) H27).
  - exact (proj2 (@X13_citations_stand_in_text latin1 _ fresh _) H28).
Defined.

(** A text that is already normal. *)
Lemma X15_normal_text_kept :
  let text := u "under 7 U.S.C. 136 - as amended" in
  single_blanks false text ∧ (EM_DASH ∉ text)
  ∧ @V1128.normalize_text latin1 text = text.
Proof.
  cbn zeta.
  assert (Hb : single_blanks false (u "under 7 U.S.C. 136 - as amended"))
    by (vm_compute; tauto).
  assert (Hd : EM_DASH ∉ u "under 7 U.S.C. 136 - as amended")
    by (by apply (bool_decide_unpack _)).
  split_and!; [exact Hb|exact Hd|].
  exact (@X15_normalize_text_fixed latin1 _ Hb Hd).
Defined.

(** A citation broken by a tab and a line break in the PDF text. *)
Lemma X16_citation_across_a_line_break :
  let raw := u "see 7" ++ [9%N] ++ u "U.S.C." ++ [10%N] ++ u "136" in
  let c := u "7 U.S.C. 136" in
  c ∈ @V1128.find_us_code_citations latin1 (@V1128.normalize_text latin1 raw)
  ∧ blanks_only c ∧ (EM_DASH ∉ c).
Proof.
  cbn zeta.
  assert (Hc : u "7 U.S.C. 136"
    ∈ @V1128.find_us_code_citations latin1
        (@V1128.normalize_text latin1
           (u "see 7" ++ [9%N] ++ u "U.S.C." ++ [10%N] ++ u "136")))
    by (vm_compute; left).
  split; [exact Hc|].
  exact (@X16_citations_of_normalized_text latin1 _ _ Hc).
Defined.

(** The citation at the end of a text of 50 characters. *)
Lemma X18_context_of_the_last_words :
  let text := u "The payments are made by authority of 7 U.S.C. 136" in
  let m := Match 38 50 in
  m_start m < m_end m ≤ length text
  ∧ starts_with_space (group0 text m) = false
  ∧ starts_with_space (reverse (group0 text m)) = false
  ∧ V1128.get_context text m
    = lstrip (drop (m_start m - 40) (take (m_start m) text))
        ++ group0 text m ++ rstrip (take 40 (drop (m_end m) text))
  ∧ V1128.get_context text m = text.
Proof.
  cbn zeta.
  assert (Hm : m_start (Match 38 50) < m_end (Match 38 50)
               ≤ length (u "The payments are made by authority of 7 U.S.C. 136"))
    by (vm_compute; lia).
  split_and!; [lia|lia|by vm_compute|by vm_compute| |by vm_compute].
  apply X18_context_holds_the_match; [exact Hm|by vm_compute..].
Defined.

(** One document with one citation, through both scripts. *)
Lemma X20_one_line_1127 :
  let server := always (Reply 200 (Pdf [PageText (u "See 7 U.S.C. 136")])) in
  (@V1127.process_urls latin1 server [ppd_url] fresh).1 ≠ []
  ∧ ∃ pairs : list (list N * list (list N)),
      (@V1127.process_urls latin1 server [ppd_url] fresh).1
      = (λ t, V1127.result_row t.1 t.2) <$> pairs
      ∧ files (@V1127.main latin1 server [ppd_url] fresh).2
          !! V1127.output_filename
        = Some (Csv [u "filename"; u "citations"]
                  ((λ t, [Some (CellStr t.1); Some (CellList t.2)]) <$> pairs)).
Proof.
  cbn zeta.
  assert (Hne : (@V1127.process_urls latin1
    (always (Reply 200 (Pdf [PageText (u "See 7 U.S.C. 136")])))
    [ppd_url] fresh).1 ≠ []) by (by vm_compute).
  split; [exact Hne|].
  exact (@X20_csv_of_1127 latin1 _ _ fresh Hne).
Defined.

Lemma X21_one_line_1128 :
  let server := always (Reply 200 (Pdf [PageText (u "See 7 U.S.C. 136")])) in
  let timestamp := u "2024-11-28-0900" in
  let results :=
    [V1128.result_row ppd_url (u "7 U.S.C. 136") (u "See 7 U.S.C. 136")] in
  (@V1128.collect latin1 server [ppd_url] fresh).1 = Returns results
  ∧ results ≠ []
  ∧ ∃ rows : list (list N * list N * list N),
      results = (λ t, V1128.result_row t.1.1 t.1.2 t.2) <$> rows
      ∧ files (@V1128.process_urls latin1 server timestamp [ppd_url] fresh).2
          !! (u "us_code_citations_" ++ timestamp ++ u ".csv")
        = Some (Csv [u "url"; u "citation"; u "context"]
                  ((λ t, [Some (CellStr t.1.1); Some (CellStr t.1.2);
                          Some (CellStr t.2)]) <$> rows)).
Proof.
  cbn zeta.
  assert (Hres : (@V1128.collect latin1
    (always (Reply 200 (Pdf [PageText (u "See 7 U.S.C. 136")])))
    [ppd_url] fresh).1
    = Returns [V1128.result_row ppd_url (u "7 U.S.C. 136")
                 (u "See 7 U.S.C. 136")]) by (by vm_compute).
  assert (Hne : [V1128.result_row ppd_url (u "7 U.S.C. 136")
                   (u "See 7 U.S.C. 136")] ≠ []) by done.
  split_and!; [exact Hres|exact Hne|].
  exact (@X21_csv_of_1128 latin1 _ (u "2024-11-28-0900") _ fresh _ Hres Hne).
Defined.

(** A PDF whose second page cannot be read, through both scripts: the
    2024-11-27 script records the citation of the first page, the
    2024-11-28 script records nothing. *)
Lemma X22_second_page_fails :
  let texts := [u "See 7 U.S.C. 136 "] in
  let doc := Pdf ((PageText <$> texts) ++ [PageError]) in
  let s := State 0 {[ u "ppd.pdf" := Downloaded doc ]} [] in
  let failure := [FileOpen (u "ppd.pdf");
                  Log ERROR (Error_extracting (u "ppd.pdf"))] in
  files s !! u "ppd.pdf" = Some (Downloaded doc)
  ∧ V1127.extract_text_from_pdf (u "ppd.pdf") s
    = (u "See 7 U.S.C. 136 ", after s failure)
  ∧ V1128.extract_text_from_pdf (u "ppd.pdf") s = ([], after s failure)
  ∧ (@V1127.process_urls latin1 (always (Reply 200 doc)) [ppd_url] fresh).1
    = [V1127.result_row (u "ppd.pdf") [u "7 U.S.C. 136"]]
  ∧ (@V1128.collect latin1 (always (Reply 200 doc)) [ppd_url] fresh).1
    = Returns [].
Proof.
  cbn zeta.
  assert (Hfile : files (State 0 {[ u "ppd.pdf" := Downloaded
              (Pdf ((PageText <$> [u "See 7 U.S.C. 136 "]) ++ [PageError])) ]} [])
            !! u "ppd.pdf"
          = Some (Downloaded
              (Pdf ((PageText <$> [u "See 7 U.S.C. 136 "]) ++ [PageError]))))
    by (by vm_compute).
  destruct (X22_page_that_cannot_be_read _ _ _ _ Hfile) as [H27 H28].
  refine (conj Hfile (conj H27 (conj H28 (conj _ _)))); by vm_compute.
Defined.

(** A URL that ends with a slash, followed by a URL that is fine: the
    2024-11-27 script goes on to the second document, the 2024-11-28
    script stops at the first and writes nothing. *)
Lemma X23_url_of_a_directory :
  let doc := Pdf [PageText (u "See 7 U.S.C. 136")] in
  let server := always (Reply 200 doc) in
  let resp := Response 200 None false doc in
  let url := u "https://www.usda.gov/documents/" in
  let timestamp := u "2024-11-28-0900" in
  let s1 := State 1 ∅ [Log INFO (Attempting url); HttpGet url] in
  open_error (last_segment url) = Some OSError
  ∧ received (server (requests fresh) url) = Some resp
  ∧ retryable (server (requests fresh) url) = false
  ∧ get_redirect_target resp = None
  ∧ status_code resp < 400
  ∧ @V1127.process_url latin1 server url [] fresh
    = ([], after s1 [Log ERROR (Unexpected_error OSError);
                     Sleep (Uniform 2 5)])
  ∧ @V1128.collect latin1 server [url; ppd_url] fresh = (Raises OSError, s1)
  ∧ @V1128.process_urls latin1 server timestamp [url; ppd_url] fresh
    = (Raises OSError, s1)
  ∧ (@V1127.process_urls latin1 server [url; ppd_url] fresh).1
    = [V1127.result_row (u "ppd.pdf") [u "7 U.S.C. 136"]].
Proof.
  cbn zeta.
  assert (Ho : open_error (last_segment (u "https://www.usda.gov/documents/"))
               = Some OSError) by reflexivity.
  assert (Hst : status_code
    (Response 200 None false (Pdf [PageText (u "See 7 U.S.C. 136")])) < 400)
    by (cbn; lia).
  pose proof (@X23_url_that_names_no_file latin1
    (always (Reply 200 (Pdf [PageText (u "See 7 U.S.C. 136")])))
    (u "2024-11-28-0900") (u "https://www.usda.gov/documents/") [ppd_url] []
    fresh OSError
    (Response 200 None false (Pdf [PageText (u "See 7 U.S.C. 136")]))
    Ho eq_refl eq_refl eq_refl Hst) as (H27 & H28 & Hrun).
  cbn zeta in H27, H28, Hrun.
  refine (conj Ho (conj eq_refl (conj eq_refl (conj eq_refl (conj Hst
            (conj H27 (conj H28 (conj Hrun _)))))))).
  by vm_compute.
Defined.

(** A document that has moved. *)
Lemma X24_moved_document :
  let doc := Pdf [PageText (u "See 7 U.S.C. 136")] in
  let target := u "https://www.usda.gov/sites/default/files/ppd.pdf" in
  let server := scripted [found target] (Reply 200 doc) in
  let r0 := Response 302 (Some target) false NotAPdf in
  let resp := Response 200 None false doc in
  let s' := State 2 {[ u "ppd.pdf" := Downloaded doc ]}
              [Log INFO (Attempting ppd_url); HttpGet ppd_url;
               HttpGet target; FileWrite (u "ppd.pdf");
               Log INFO (Successfully_downloaded ppd_url)] in
  received (server (requests fresh) ppd_url) = Some r0
  ∧ retryable (server (requests fresh) ppd_url) = false
  ∧ get_redirect_target r0 = Some target
  ∧ received (server (requests fresh + 1) target) = Some resp
  ∧ retryable (server (requests fresh + 1) target) = false
  ∧ get_redirect_target resp = None
  ∧ status_code resp < 400 ∧ open_error (u "ppd.pdf") = None
  ∧ V1127.download_pdf server ppd_url (u "ppd.pdf") fresh = (true, s')
  ∧ V1128.download_pdf server ppd_url (u "ppd.pdf") fresh = (Returns true, s').
Proof.
  cbn zeta.
  assert (Hst : status_code
    (Response 200 None false (Pdf [PageText (u "See 7 U.S.C. 136")])) < 400)
    by (cbn; lia).
  assert (Ho : open_error (u "ppd.pdf") = None) by reflexivity.
  pose proof (X24_redirect_is_followed
    (scripted [found (u "https://www.usda.gov/sites/default/files/ppd.pdf")]
       (Reply 200 (Pdf [PageText (u "See 7 U.S.C. 136")])))
    ppd_url (u "https://www.usda.gov/sites/default/files/ppd.pdf")
    (u "ppd.pdf") fresh
    (Response 302 (Some (u "https://www.usda.gov/sites/default/files/ppd.pdf"))
       false NotAPdf)
    (Response 200 None false (Pdf [PageText (u "See 7 U.S.C. 136")]))
    eq_refl eq_refl eq_refl eq_refl eq_refl eq_refl Hst Ho) as [H27 H28].
  cbn zeta in H27, H28.
  refine (conj eq_refl (conj eq_refl (conj eq_refl (conj eq_refl
            (conj eq_refl (conj eq_refl (conj Hst (conj Ho
            (conj H27 H28))))))))).
Defined.
